(** * Multi-tenant bot server: session store, admission gate, owner wizard,
      instance registry, payment webhook and master control plane.

    A shallow embedding of [src/unnamed/part_000] (the "2.0.0-SAAS" server).

    Conventions of the embedding.
    - A JavaScript string is the list of its UTF-16 code units ([jsstring]);
      [lit] turns an ASCII literal of the source into such a list.
    - A point in time ([Date.now()], a [Date], a stored timestamp) is the
      number of milliseconds since the epoch, an unbounded [Z].
    - The process-wide mutable objects ([sessionCache], [activeBots], the
      Supabase tables) are the fields of one [World] that every operation
      threads; an operation that can [throw] returns a [Res].
    - Every call to the durable store consumes one entry of a fault schedule
      ([faults]): [None] (or an exhausted schedule) lets the call through,
      [Some e] makes it answer with the error object [e].  Every call is
      also appended to [dbLog], so that "no durable read happened" is a
      statement about the log.
    - [getSession] hands out the very object the cache holds, and handlers
      assign to it.  On every path embedded here a handler that assigns to
      [ctx.session] calls [ctx.save()] before it returns, so the cached
      object and [ctx.session] agree between events; they are kept as two
      equal values.
    - The local-time arithmetic of [Date] goes through a [TimeZone]: the
      offsets of the zone of the process from UTC, as functions of time.
      Nothing is assumed about them.
    - [bot.launch()] is not awaited.  An instance is built with its launch
      under way; that the launch comes to polling, or fails, is an event of
      its own, which may come at any later time or never.
    - [log(...)] and [console.log(...)] only write text and are left out. *)

From Stdlib Require Import ZArith NArith Ascii String List Lia.
From stdpp Require Import base option gmap list pretty.

Local Open Scope Z_scope.

(** ** JavaScript strings *)

Abbreviation jsstring := (list N).

Definition lit (s : string) : jsstring :=
  map N_of_ascii (list_ascii_of_string s).

(** [String(n)] and [`${n}`] for an integer [n]. *)
Definition toString (z : Z) : jsstring := lit (pretty z).
Definition toStringN (n : N) : jsstring := lit (pretty n).

(** [s.startsWith(p)] *)
Fixpoint startsWith (p s : jsstring) : bool :=
  match p, s with
  | [], _ => true
  | _ :: _, [] => false
  | a :: p', b :: s' => if decide (a = b) then startsWith p' s' else false
  end.

(** [a === b] on strings. *)
Definition streq (a b : jsstring) : bool := bool_decide (a = b).

(** White space and line terminators removed by [String.prototype.trim]. *)
Definition isWhiteSpace (c : N) : bool :=
  ((9 <=? c) && (c <=? 13) || (c =? 32) || (c =? 160) || (c =? 5760)
   || (8192 <=? c) && (c <=? 8202) || (c =? 8232) || (c =? 8233)
   || (c =? 8239) || (c =? 8287) || (c =? 12288) || (c =? 65279))%N.

Fixpoint trimStart (s : jsstring) : jsstring :=
  match s with
  | c :: s' => if isWhiteSpace c then trimStart s' else s
  | [] => []
  end.

Definition trim (s : jsstring) : jsstring :=
  rev (trimStart (rev (trimStart s))).

(** Truthiness of a possibly absent string: [null], [undefined] and the
    empty string are falsy. *)
Definition truthyStr (o : option jsstring) : bool :=
  match o with
  | Some (_ :: _) => true
  | _ => false
  end.

(** ** Session objects

    A session is a JSON object; the properties the server reads or writes
    are the fields below, [None] standing for an absent (or null)
    property. *)

Record Instance := mkInstance {
  inst_id : jsstring;
  inst_wuzapiId : jsstring;
  inst_token : jsstring;
  inst_name : jsstring;
  inst_isConnected : bool;
  inst_webhook : jsstring
}.

Record WhatsApp := mkWhatsApp {
  instances : option (list Instance);
  maxInstances : option Z
}.

Record Affiliate := mkAffiliate {
  balance : Z;
  totalEarned : Z;
  referralsCount : Z
}.

Record Session := mkSession {
  stage : option jsstring;
  isVip : option bool;
  whatsapp : option WhatsApp;
  affiliate : option Affiliate;
  reports : option (list (jsstring * Z));
  temp_sync_id : option jsstring;
  temp_openai_key : option jsstring
}.

Definition set_stage (v : option jsstring) (s : Session) : Session :=
  mkSession v (isVip s) (whatsapp s) (affiliate s) (reports s)
            (temp_sync_id s) (temp_openai_key s).
Definition set_whatsapp (v : option WhatsApp) (s : Session) : Session :=
  mkSession (stage s) (isVip s) v (affiliate s) (reports s)
            (temp_sync_id s) (temp_openai_key s).
Definition set_affiliate (v : option Affiliate) (s : Session) : Session :=
  mkSession (stage s) (isVip s) (whatsapp s) v (reports s)
            (temp_sync_id s) (temp_openai_key s).
Definition set_temp_sync_id (v : option jsstring) (s : Session) : Session :=
  mkSession (stage s) (isVip s) (whatsapp s) (affiliate s) (reports s)
            v (temp_openai_key s).
Definition set_temp_openai_key (v : option jsstring) (s : Session) : Session :=
  mkSession (stage s) (isVip s) (whatsapp s) (affiliate s) (reports s)
            (temp_sync_id s) v.

(** ** Tenants *)

(** A row of the [tenants] table. *)
Record TenantRow := mkTenantRow {
  id : N;
  name : jsstring;
  telegram_token : jsstring;
  owner_chat_id : option jsstring;   (* text, as the master wizard stores it *)
  is_active : bool;
  expiration_date : option Z;
  max_users : option Z;
  openai_api_key : option jsstring;
  openai_model : option jsstring;
  system_prompt : option jsstring;
  syncpay_client_id : option jsstring;
  syncpay_client_secret : option jsstring
}.

(** The tenant object a running bot closes over: the row it was started
    from plus the in-memory [activeUserCount]. *)
Record Tenant := mkTenant {
  row : TenantRow;
  activeUserCount : Z
}.

(** ** The durable store and the process state *)

Record DbError := mkDbError {
  code : jsstring;
  message : jsstring
}.

Inductive DbOp :=
| SelectSession (tenant_id : N) (chat_id : jsstring)
| SelectSessionChatId (tenant_id : N) (chat_id : jsstring)
| UpsertSession (tenant_id : N) (chat_id : jsstring) (data : Session)
| CountSessions (tenant_id : N)
| SelectTenant (tid : jsstring)
| UpdateTenant (tid : jsstring).

Record CacheEntry := mkCacheEntry {
  data : Session;
  timestamp : Z
}.

(** The states of a Telegraf instance: its launch under way, polling not
    yet begun; polling; launch failed before polling began; stopped. *)
Inductive BotStatus := Launching | Polling | NotRunning | Stopped.

(** A Telegraf instance created by [startTenantBot]. *)
Record Bot := mkBot {
  bot_tenant : Tenant;
  bot_status : BotStatus
}.

Record World := mkWorld {
  sessionCache : gmap (list N) CacheEntry;
  bot_sessions : gmap (N * list N) Session;
  tenants : gmap N TenantRow;
  faults : list (option DbError);
  dbLog : list DbOp;
  bots : list Bot;
  activeBots : gmap N nat
}.

Definition set_sessionCache (v : gmap (list N) CacheEntry) (w : World) : World :=
  mkWorld v (bot_sessions w) (tenants w) (faults w) (dbLog w) (bots w)
          (activeBots w).
Definition set_bot_sessions (v : gmap (N * list N) Session) (w : World) : World :=
  mkWorld (sessionCache w) v (tenants w) (faults w) (dbLog w) (bots w)
          (activeBots w).
Definition set_tenants (v : gmap N TenantRow) (w : World) : World :=
  mkWorld (sessionCache w) (bot_sessions w) v (faults w) (dbLog w) (bots w)
          (activeBots w).
Definition set_bots (v : list Bot) (w : World) : World :=
  mkWorld (sessionCache w) (bot_sessions w) (tenants w) (faults w) (dbLog w) v
          (activeBots w).
Definition set_activeBots (v : gmap N nat) (w : World) : World :=
  mkWorld (sessionCache w) (bot_sessions w) (tenants w) (faults w) (dbLog w)
          (bots w) v.

(** The state after one request to the store: the request is logged and
    the head of the fault schedule is used up. *)
Definition logged (op : DbOp) (w : World) : World :=
  mkWorld (sessionCache w) (bot_sessions w) (tenants w) (tail (faults w))
          (dbLog w ++ [op]) (bots w) (activeBots w).

(** One request to the store, with the fault it meets, if any. *)
Definition dbCall (op : DbOp) (w : World) : option DbError * World :=
  (mjoin (head (faults w)), logged op w).

(** The error PostgREST answers when [.single()] finds no row. *)
Definition PGRST116 : DbError :=
  mkDbError (lit "PGRST116")
            (lit "JSON object requested, multiple (or no) rows returned").

(** ** Results of operations that may throw *)

Inductive Res (A : Type) :=
| Ok (a : A)
| Throw (e : DbError).
Arguments Ok {A} a.
Arguments Throw {A} e.

(** ** Persistence layer: [getSession] and [saveSession] *)

Definition CACHE_TTL : Z := 5 * 60 * 1000.

(** [`${tenantId}_${chatId}`] *)
Definition cacheKey (tenantId : N) (chatId : Z) : jsstring :=
  toStringN tenantId ++ lit "_" ++ toString chatId.

(** [supabase.from('bot_sessions').select('data').eq(..).eq(..).single()]:
    the pair [{ data, error }]. *)
Definition selectSession (tenantId : N) (chatId : jsstring) (w : World)
  : (option Session * option DbError) * World :=
  let (fault, w') := dbCall (SelectSession tenantId chatId) w in
  match fault with
  | Some e => ((None, Some e), w')
  | None =>
      match bot_sessions w' !! (tenantId, chatId) with
      | Some s => ((Some s, None), w')
      | None => ((None, Some PGRST116), w')
      end
  end.

(** [supabase.from('bot_sessions').upsert({...}, { onConflict })]; the
    caller never looks at the answer. *)
Definition upsertSession (tenantId : N) (chatId : jsstring) (s : Session)
  (w : World) : World :=
  let (fault, w') := dbCall (UpsertSession tenantId chatId s) w in
  match fault with
  | Some _ => w'
  | None => set_bot_sessions (<[(tenantId, chatId) := s]> (bot_sessions w')) w'
  end.

Definition cacheSet (key : jsstring) (s : Session) (ts : Z) (w : World) : World :=
  set_sessionCache (<[key := mkCacheEntry s ts]> (sessionCache w)) w.

Definition saveSession (now : Z) (tenantId : N) (chatId : Z)
  (sessionData : Session) (w : World) : World :=
  let w1 := cacheSet (cacheKey tenantId chatId) sessionData now w in
  upsertSession tenantId (toString chatId) sessionData w1.

(** The object literal of the [else] branch of [getSession]. *)
Definition defaultSession : Session :=
  mkSession (Some (lit "START")) (Some false)
            (Some (mkWhatsApp (Some []) (Some 1)))
            (Some (mkAffiliate 0 0 0))
            (Some [])
            None None.

(** The three "auto-healing" assignments of [getSession]. *)
Definition autoHeal (s : Session) : Session :=
  let s1 := match whatsapp s with
            | Some _ => s
            | None => set_whatsapp (Some (mkWhatsApp (Some []) (Some 1))) s
            end in
  let s2 := match affiliate s1 with
            | Some _ => s1
            | None => set_affiliate (Some (mkAffiliate 0 0 0)) s1
            end in
  if truthyStr (stage s2) then s2 else set_stage (Some (lit "READY")) s2.

(** The cache test at the top of [getSession]. *)
Definition cacheHit (now : Z) (c : option CacheEntry) : option Session :=
  match c with
  | Some cached => if now - timestamp cached <? CACHE_TTL
                   then Some (data cached) else None
  | None => None
  end.

Definition getSession (now : Z) (tenantId : N) (chatId : Z) (w : World)
  : Res Session * World :=
  let key := cacheKey tenantId chatId in
  match cacheHit now (sessionCache w !! key) with
  | Some s => (Ok s, w)
  | None =>
      let '((row_, error), w1) := selectSession tenantId (toString chatId) w in
      let loaded :=
        match row_ with
        | Some s => let sessionObj := autoHeal s in
                    (Ok sessionObj, cacheSet key sessionObj now w1)
        | None =>
            let w2 := saveSession now tenantId chatId defaultSession w1 in
            (Ok defaultSession, cacheSet key defaultSession now w2)
        end in
      match error with
      | Some e => if negb (streq (code e) (lit "PGRST116"))
                  then (Throw e, w1) else loaded
      | None => loaded
      end
  end.

(** ** Helpers over the [bot_sessions] table *)

(** [getTenantUserCount]: an exact count of the tenant's rows, 0 on error. *)
Definition getTenantUserCount (tenantId : N) (w : World) : Z * World :=
  let (fault, w') := dbCall (CountSessions tenantId) w in
  match fault with
  | Some _ => (0, w')
  | None =>
      (Z.of_nat (size (filter (fun kv : (N * list N) * Session =>
                                 kv.1.1 = tenantId) (bot_sessions w'))), w')
  end.

(** [checkUserExists]: [!!data] of a [.single()] select; any error leaves
    [data] null. *)
Definition checkUserExists (tenantId : N) (chatId : Z) (w : World) : bool * World :=
  let (fault, w') := dbCall (SelectSessionChatId tenantId (toString chatId)) w in
  match fault with
  | Some _ => (false, w')
  | None =>
      (bool_decide (is_Some (bot_sessions w' !! (tenantId, toString chatId))), w')
  end.

(** ** Replies sent to a chat *)

Inductive DashStatus := Ativo | Inativo | Vencido.

Inductive Reply :=
| PlanExpired                          (* "Seu plano venceu!" *)
| UserLimitReached (maxUsers : Z)      (* "Limite de Usuarios Atingido!" *)
| OperationCancelled                   (* "Operacao cancelada." *)
| SyncPayStep2                         (* "Passo 2/2 ... Client Secret" *)
| SyncPayConfigured                    (* "SyncPay configurado!" *)
| InvalidKey                           (* "Key invalida. Deve comecar com 'sk-'..." *)
| ChooseModel                          (* "Escolha o Modelo de IA:" + buttons *)
| PromptSaved                          (* "Personalidade definida!" *)
| SessionExpired                       (* "Sessao expirada. Comece de novo." *)
| AiConfigured (modelName : jsstring)  (* "IA Configurada!" *)
| ErrorReply (msg : jsstring)          (* "Erro: ${error.message}" *)
| OwnerDashboard (status : DashStatus) (currentUsers maxUsers : Z)
                 (syncPay aiKey : bool) (aiModel : jsstring).

(** ** The tenant middleware of [startTenantBot] (expiration and quota) *)

(** [a || 10] on a nullable number. *)
Definition orDefault (a : option Z) (d : Z) : Z :=
  match a with
  | Some n => if n =? 0 then d else n
  | None => d
  end.

(** [String(ctx.chat.id) !== tenant.owner_chat_id] *)
Definition notOwnerChat (chatId : Z) (tenant : Tenant) : bool :=
  negb (bool_decide (owner_chat_id (row tenant) = Some (toString chatId))).

Definition set_activeUserCount (n : Z) (t : Tenant) : Tenant :=
  mkTenant (row t) n.

(** What the middleware did with the event. *)
Inductive Gate :=
| GateReply (r : Reply)        (* [return ctx.reply(..)]: [next] is not called *)
| GateNext (session : Session) (* [ctx.session] is set and [next()] is called *)
| GateThrow (e : DbError).     (* [getSession] threw *)

(** The "VALIDACAO DE VENCIMENTO" test. *)
Definition planExpired (now : Z) (chatId : Z) (tenant : Tenant) : bool :=
  match expiration_date (row tenant) with
  | Some expiration => (expiration <? now) && notOwnerChat chatId tenant
  | None => false
  end.

Definition tenantMiddleware (now : Z) (chatId : Z) (tenant : Tenant) (w : World)
  : Gate * Tenant * World :=
  if planExpired now chatId tenant then (GateReply PlanExpired, tenant, w)
  else
    let load (tenant : Tenant) (w : World) :=
      match getSession now (id (row tenant)) chatId w with
      | (Ok s, w') => (GateNext s, tenant, w')
      | (Throw e, w') => (GateThrow e, tenant, w')
      end in
    if notOwnerChat chatId tenant then
      let isCached :=
        bool_decide (is_Some (sessionCache w !! cacheKey (id (row tenant)) chatId)) in
      if negb isCached then
        let (existsInDb, w1) := checkUserExists (id (row tenant)) chatId w in
        if negb existsInDb then
          let maxUsers := orDefault (max_users (row tenant)) 10 in
          if maxUsers <=? activeUserCount tenant
          then (GateReply (UserLimitReached maxUsers), tenant, w1)
          else load (set_activeUserCount (activeUserCount tenant + 1) tenant) w1
        else load tenant w1
      else load tenant w
    else load tenant w.

(** The state after a new user has been let in: the two existence checks
    and the write of the default session went to the store. *)
Definition newUserWorld (now : Z) (t : N) (chatId : Z) (w : World) : World :=
  cacheSet (cacheKey t chatId) defaultSession now
    (saveSession now t chatId defaultSession
       (logged (SelectSession t (toString chatId))
          (logged (SelectSessionChatId t (toString chatId)) w))).

(** A run of events through the middleware of one bot: each event is the
    time it arrives at and the chat it comes from; the tenant object and
    the process state are carried from one event to the next. *)
Fixpoint serveAll (events : list (Z * Z)) (tenant : Tenant) (w : World)
  : list Gate * Tenant * World :=
  match events with
  | [] => ([], tenant, w)
  | (now, chatId) :: rest =>
      let '(g, tenant', w') := tenantMiddleware now chatId tenant w in
      let '(gs, tenant'', w'') := serveAll rest tenant' w' in
      (g :: gs, tenant'', w'')
  end.

(** ** Owner wizard *)

(** [isOwner(ctx)]: [String(ctx.chat.id) === String(ctx.tenant.owner_chat_id)];
    a missing owner id stringifies to "null", which no chat id prints as. *)
Definition isOwner (chatId : Z) (tenant : Tenant) : bool :=
  bool_decide (owner_chat_id (row tenant) = Some (toString chatId)).

(** The context a handler works on: the bot's tenant object, [ctx.session],
    the process state and the replies sent so far. *)
Record Ctx := mkCtx {
  ctx_tenant : Tenant;
  ctx_session : Session;
  ctx_world : World;
  ctx_out : list Reply
}.

Definition reply (r : Reply) (c : Ctx) : Ctx :=
  mkCtx (ctx_tenant c) (ctx_session c) (ctx_world c) (ctx_out c ++ [r]).
Definition with_session (f : Session -> Session) (c : Ctx) : Ctx :=
  mkCtx (ctx_tenant c) (f (ctx_session c)) (ctx_world c) (ctx_out c).
Definition with_row (f : TenantRow -> TenantRow) (c : Ctx) : Ctx :=
  mkCtx (mkTenant (f (row (ctx_tenant c))) (activeUserCount (ctx_tenant c)))
        (ctx_session c) (ctx_world c) (ctx_out c).
Definition with_world (w : World) (c : Ctx) : Ctx :=
  mkCtx (ctx_tenant c) (ctx_session c) w (ctx_out c).

(** [ctx.save()] *)
Definition save (now : Z) (chatId : Z) (c : Ctx) : Ctx :=
  with_world (saveSession now (id (row (ctx_tenant c))) chatId (ctx_session c)
                          (ctx_world c)) c.

Definition DEFAULT_MODEL : jsstring := lit "gpt-4o-mini".

Definition renderOwnerDashboard (now : Z) (chatId : Z) (c : Ctx) : Ctx :=
  if negb (isOwner chatId (ctx_tenant c)) then c
  else
    let tenant := row (ctx_tenant c) in
    let status0 := if is_active tenant then Ativo else Inativo in
    let status := match expiration_date tenant with
                  | Some e => if e <? now then Vencido else status0
                  | None => status0
                  end in
    reply (OwnerDashboard status
             (activeUserCount (ctx_tenant c))
             (orDefault (max_users tenant) 10)
             (truthyStr (syncpay_client_id tenant)
              && truthyStr (syncpay_client_secret tenant))
             (truthyStr (openai_api_key tenant))
             (if truthyStr (openai_model tenant)
              then default [] (openai_model tenant) else DEFAULT_MODEL)) c.

(** Setters for the columns the wizard writes. *)
Definition set_syncpay (cid sec : option jsstring) (t : TenantRow) : TenantRow :=
  mkTenantRow (id t) (name t) (telegram_token t) (owner_chat_id t) (is_active t)
    (expiration_date t) (max_users t) (openai_api_key t) (openai_model t)
    (system_prompt t) cid sec.
Definition set_system_prompt (p : option jsstring) (t : TenantRow) : TenantRow :=
  mkTenantRow (id t) (name t) (telegram_token t) (owner_chat_id t) (is_active t)
    (expiration_date t) (max_users t) (openai_api_key t) (openai_model t)
    p (syncpay_client_id t) (syncpay_client_secret t).
Definition set_openai (key model : option jsstring) (t : TenantRow) : TenantRow :=
  mkTenantRow (id t) (name t) (telegram_token t) (owner_chat_id t) (is_active t)
    (expiration_date t) (max_users t) key model
    (system_prompt t) (syncpay_client_id t) (syncpay_client_secret t).
Definition set_renewal (e : option Z) (t : TenantRow) : TenantRow :=
  mkTenantRow (id t) (name t) (telegram_token t) (owner_chat_id t) true
    e (max_users t) (openai_api_key t) (openai_model t)
    (system_prompt t) (syncpay_client_id t) (syncpay_client_secret t).

(** The error of a filter value that is not an integer. *)
Definition invalidInput : DbError :=
  mkDbError (lit "22P02") (lit "invalid input syntax for type bigint").

(** [supabase.from('tenants').update(f).eq('id', v)]: the [error] of the
    answer.  [target] is the integer the filter value [v] denotes, if any.
    An update that matches no row is not an error. *)
Definition updateTenantWhere (v : jsstring) (target : option N)
  (f : TenantRow -> TenantRow) (w : World) : option DbError * World :=
  let (fault, w') := dbCall (UpdateTenant v) w in
  match fault with
  | Some e => (Some e, w')
  | None =>
      match target with
      | Some n => (None, set_tenants (alter f n (tenants w')) w')
      | None => (Some invalidInput, w')
      end
  end.

(** The filter value is the number [ctx.tenant.id]. *)
Definition updateTenant (tid : N) (f : TenantRow -> TenantRow) (w : World)
  : option DbError * World :=
  updateTenantWhere (toStringN tid) (Some tid) f w.

(** Whether the handler ended the chain or called [next()]. *)
Inductive Flow := CallNext | Handled.

(** The first [bot.on("text", ...)] of [startTenantBot]. *)
Definition ownerTextHandler (now : Z) (chatId : Z) (text : jsstring) (c : Ctx)
  : Flow * Ctx :=
  if negb (isOwner chatId (ctx_tenant c)) then (CallNext, c)
  else if startsWith (lit "/") text && negb (streq text (lit "/cancelar"))
  then (CallNext, c)
  else if streq text (lit "/cancelar") then
    let c1 := with_session (set_stage (Some (lit "READY"))) c in
    let c2 := save now chatId c1 in
    let c3 := reply OperationCancelled c2 in
    (Handled, renderOwnerDashboard now chatId c3)
  else
    let stage_ := stage (ctx_session c) in
    let tid := id (row (ctx_tenant c)) in
    if bool_decide (stage_ = Some (lit "OWNER_WAIT_SYNCPAY_ID")) then
      let c1 := with_session (set_temp_sync_id (Some (trim text))) c in
      let c2 := with_session (set_stage (Some (lit "OWNER_WAIT_SYNCPAY_SECRET"))) c1 in
      (Handled, reply SyncPayStep2 (save now chatId c2))
    else if bool_decide (stage_ = Some (lit "OWNER_WAIT_SYNCPAY_SECRET")) then
      let secret := trim text in
      let clientId := temp_sync_id (ctx_session c) in
      match updateTenant tid (set_syncpay clientId (Some secret)) (ctx_world c) with
      | (Some e, w1) => (Handled, reply (ErrorReply (message e)) (with_world w1 c))
      | (None, w1) =>
          let c1 := with_session (set_stage (Some (lit "READY"))) (with_world w1 c) in
          let c2 := with_session (set_temp_sync_id None) c1 in
          let c3 := save now chatId c2 in
          let c4 := with_row (set_syncpay clientId (Some secret)) c3 in
          (Handled, renderOwnerDashboard now chatId (reply SyncPayConfigured c4))
      end
    else if bool_decide (stage_ = Some (lit "OWNER_WAIT_OPENAI_KEY")) then
      let key := trim text in
      if negb (startsWith (lit "sk-") key) then (Handled, reply InvalidKey c)
      else
        let c1 := with_session (set_temp_openai_key (Some key)) c in
        let c2 := with_session (set_stage (Some (lit "OWNER_WAIT_OPENAI_MODEL"))) c1 in
        (Handled, reply ChooseModel (save now chatId c2))
    else if bool_decide (stage_ = Some (lit "OWNER_WAIT_PROMPT")) then
      let prompt := trim text in
      match updateTenant tid (set_system_prompt (Some prompt)) (ctx_world c) with
      | (Some e, w1) => (Handled, reply (ErrorReply (message e)) (with_world w1 c))
      | (None, w1) =>
          let c1 := with_row (set_system_prompt (Some prompt)) (with_world w1 c) in
          let c2 := with_session (set_stage (Some (lit "READY"))) c1 in
          let c3 := save now chatId c2 in
          (Handled, renderOwnerDashboard now chatId (reply PromptSaved c3))
      end
    else (CallNext, c).

(** [saveModel(ctx, modelName)], the body of the three [set_model_*]
    actions. *)
Definition saveModel (now : Z) (chatId : Z) (modelName : jsstring) (c : Ctx) : Ctx :=
  let key := temp_openai_key (ctx_session c) in
  if negb (truthyStr key) then reply SessionExpired c
  else
    match updateTenant (id (row (ctx_tenant c)))
                       (fun t => set_openai key (Some modelName) t) (ctx_world c) with
    | (Some e, w1) => reply (ErrorReply (message e)) (with_world w1 c)
    | (None, w1) =>
        let c1 := with_session (set_stage (Some (lit "READY"))) (with_world w1 c) in
        let c2 := with_session (set_temp_openai_key None) c1 in
        let c3 := save now chatId c2 in
        let c4 := with_row (set_openai key (Some modelName)) c3 in
        renderOwnerDashboard now chatId (reply (AiConfigured modelName) c4)
    end.

(** ** SaaS bot factory: the instance registry

    [bots] holds every Telegraf instance ever constructed, in order of
    construction; [activeBots] maps a tenant id to the index of its
    registered instance. *)

Definition set_bot_status (st : BotStatus) (b : Bot) : Bot :=
  mkBot (bot_tenant b) st.

(** [try { activeBots.get(tenant.id).stop(); } catch (e) { }]: Telegraf's
    [stop] ends the polling of an instance that polls, does nothing to one
    that was stopped before, and throws on one that has not begun to poll
    (its launch under way or failed); the throw is swallowed. *)
Definition stopSwallow (h : nat) (w : World) : World :=
  match bots w !! h with
  | Some b =>
      match bot_status b with
      | Polling => set_bots (<[h := set_bot_status Stopped b]> (bots w)) w
      | _ => w
      end
  | None => w
  end.

(** The first statement of [startTenantBot]: the registered instance, if
    any, is told to stop. *)
Definition stoppedOld (tid : N) (w : World) : World :=
  match activeBots w !! tid with
  | Some h => stopSwallow h w
  | None => w
  end.

(** The rest of [startTenantBot], from [await getTenantUserCount(...)] on.
    The promise of [bot.launch()] is not awaited: the instance is
    registered while its launch is under way. *)
Definition launchNew (tenant : TenantRow) (w1 : World) : World :=
  let (initialUserCount, w2) := getTenantUserCount (id tenant) w1 in
  let bot := mkBot (mkTenant tenant initialUserCount) Launching in
  let h := length (bots w2) in
  let w3 := set_bots (bots w2 ++ [bot]) w2 in
  set_activeBots (<[id tenant := h]> (activeBots w3)) w3.

(** [startTenantBot(tenant)] *)
Definition startTenantBot (tenant : TenantRow) (w : World) : World :=
  launchNew tenant (stoppedOld (id tenant) w).

(** The launch of instance [h] comes to its end, some time after the
    [startTenantBot] that built it has returned: polling begins ([ok]), or
    the launch fails before that (the [.catch] only logs). *)
Definition launchDone (h : nat) (ok : bool) (w : World) : World :=
  match bots w !! h with
  | Some b =>
      match bot_status b with
      | Launching =>
          set_bots (<[h := set_bot_status (if ok then Polling else NotRunning) b]>
                      (bots w)) w
      | _ => w
      end
  | None => w
  end.

(** Launches that come to their end one after the other: for each, the
    instance and whether polling begins. *)
Definition launchesDone (done : list (nat * bool)) (w : World) : World :=
  fold_left (fun w s => launchDone (fst s) (snd s) w) done w.

(** What happens to the instances, one event after the other: a call of
    [startTenantBot] that runs to its end, or the launch of an instance
    coming to its end. *)
Inductive BotEvent :=
| StartBot (tenant : TenantRow)
| LaunchDone (h : nat) (ok : bool).

Definition botStep (e : BotEvent) (w : World) : World :=
  match e with
  | StartBot tenant => startTenantBot tenant w
  | LaunchDone h ok => launchDone h ok w
  end.

Definition runBots (events : list BotEvent) (w : World) : World :=
  fold_left (fun w e => botStep e w) events w.

(** ** Master webhook: subscription renewal *)

Definition isDigit (c : N) : bool := ((48 <=? c) && (c <=? 57))%N.

Fixpoint spanDigits (s : jsstring) : jsstring * jsstring :=
  match s with
  | c :: s' => if isDigit c
               then let (d, r) := spanDigits s' in (c :: d, r)
               else ([], s)
  | [] => ([], [])
  end.

Fixpoint stripPrefix (p s : jsstring) : option jsstring :=
  match p, s with
  | [], _ => Some s
  | _ :: _, [] => None
  | a :: p', b :: s' => if decide (a = b) then stripPrefix p' s' else None
  end.

(** [/tenant_(\d+)@/] anchored at the start of [s]: the captured digits. *)
Definition matchTenantAt (s : jsstring) : option jsstring :=
  match stripPrefix (lit "tenant_") s with
  | Some r =>
      match spanDigits r with
      | ((_ :: _) as d, 64%N :: _) => Some d
      | _ => None
      end
  | None => None
  end.

(** [email.match(/tenant_(\d+)@/)]: group 1 of the leftmost match. *)
Fixpoint matchTenantEmail (s : jsstring) : option jsstring :=
  match matchTenantAt s with
  | Some d => Some d
  | None =>
      match s with
      | [] => None
      | _ :: s' => matchTenantEmail s'
      end
  end.

(** [s.split(sep)] for a non-empty separator; [skip] counts the code units
    of a separator still to be passed over, [cur] is the piece being read,
    reversed. *)
Fixpoint splitAux (sep : jsstring) (skip : nat) (cur s : jsstring)
  : list jsstring :=
  match s with
  | [] => [rev cur]
  | c :: s' =>
      match skip with
      | S k => splitAux sep k cur s'
      | O => if startsWith sep s
             then rev cur :: splitAux sep (length sep - 1) [] s'
             else splitAux sep 0 (c :: cur) s'
      end
  end.

Definition split (sep s : jsstring) : list jsstring := splitAux sep 0 [] s.

Record Payload := mkPayload {
  p_id : option jsstring;
  p_status : option jsstring;
  p_client_email : option jsstring;   (* [client && client.email] *)
  p_external_id : option jsstring
}.

(** [req.body]: its [data] property when present, and its own fields. *)
Record ReqBody := mkReqBody {
  body_data : option Payload;
  body_top : Payload
}.

(** The tenant id the handler reads out of the payload. *)
Definition extractTenantId (payload : Payload) : option jsstring :=
  let fromEmail :=
    if truthyStr (p_client_email payload)
    then matchTenantEmail (default [] (p_client_email payload))
    else None in
  if negb (truthyStr fromEmail)
     && truthyStr (p_external_id payload)
     && startsWith (lit "SUB_") (default [] (p_external_id payload))
  then split (lit "SUB_") (default [] (p_external_id payload)) !! 1%nat
  else fromEmail.

Definition digitsToN (s : jsstring) : N :=
  fold_left (fun acc c => (acc * 10 + (c - 48))%N) s 0%N.

(** The value the integer column [tenants.id] is compared with when the
    filter [.eq('id', s)] carries the text [s]: its decimal value; a text
    that is not a decimal numeral makes the request fail. *)
Definition castId (s : jsstring) : option N :=
  match s with
  | [] => None
  | _ => if forallb isDigit s then Some (digitsToN s) else None
  end.

(** [supabase.from('tenants').select('*').eq('id', tenantId).single()] *)
Definition selectTenant (tenantId : jsstring) (w : World)
  : (option TenantRow * option DbError) * World :=
  let (fault, w') := dbCall (SelectTenant tenantId) w in
  match fault with
  | Some e => ((None, Some e), w')
  | None =>
      match castId tenantId with
      | Some n =>
          match tenants w' !! n with
          | Some t => ((Some t, None), w')
          | None => ((None, Some PGRST116), w')
          end
      | None => ((None, Some invalidInput), w')
      end
  end.

(** Calendar arithmetic of [Date].  The time zone of the process is what
    [Date] knows of it: [offsetAt t] is the offset of local time from UTC,
    in milliseconds, at the instant [t]; [offsetOfLocal tl] is the offset
    with which the local time value [tl] is read as an instant.  Both vary
    with their argument where the zone has daylight saving. *)
Record TimeZone := mkTimeZone {
  offsetAt : Z -> Z;
  offsetOfLocal : Z -> Z
}.

Definition msPerDay : Z := 86400000.
Definition LocalTime (tz : TimeZone) (t : Z) : Z := t + offsetAt tz t.
Definition UTC (tz : TimeZone) (t : Z) : Z := t - offsetOfLocal tz t.
Definition Day (t : Z) : Z := t / msPerDay.
Definition TimeWithinDay (t : Z) : Z := t mod msPerDay.
Definition MakeDate (day time : Z) : Z := day * msPerDay + time.

(** [d.setDate(d.getDate() + n)]: the day of the month is replaced in local
    time, the time within the day is kept; a date past the end of the month
    rolls over, so the day number grows by [n]. *)
Definition setDatePlus (tz : TimeZone) (n : Z) (d : Z) : Z :=
  let t := LocalTime tz d in
  UTC tz (MakeDate (Day t + n) (TimeWithinDay t)).

Inductive ResBody :=
| IgnoredJson (status : option jsstring)  (* { ignored: true, reason } *)
| ErrorJson (error : jsstring)            (* { error } *)
| SuccessJson (new_expiration : Z).       (* { success: true, new_expiration } *)

Record Response := mkResponse {
  res_status : Z;
  res_body : ResBody
}.

(** [botInstance.telegram.sendMessage(owner_chat_id, "Pagamento Confirmado ...")] *)
Record Notification := mkNotification {
  via_bot : nat;
  to_chat : jsstring;
  new_due : Z
}.

Definition eligibleStatus (status : option jsstring) : bool :=
  bool_decide (status = Some (lit "completed"))
  || bool_decide (status = Some (lit "PAID"))
  || bool_decide (status = Some (lit "RECEIVED")).

(** [app.post("/webhook/master", ...)].  The store answers with an error
    object instead of throwing, so the [catch] branch (status 500) has no
    counterpart here. *)
Definition webhookMaster (tz : TimeZone) (now : Z) (req : ReqBody) (w : World)
  : Response * list Notification * World :=
  let payload := default (body_top req) (body_data req) in
  if negb (eligibleStatus (p_status payload))
  then (mkResponse 200 (IgnoredJson (p_status payload)), [], w)
  else
    let tenantId := extractTenantId payload in
    if negb (truthyStr tenantId)
    then (mkResponse 400 (ErrorJson (lit "Tenant ID not found in payload")), [], w)
    else
      let tid := default [] tenantId in
      match selectTenant tid w with
      | ((Some tenant, None), w1) =>
          let baseDate :=
            match expiration_date tenant with
            | Some e => if now <? e then e else now
            | None => now
            end in
          let newExpiration := setDatePlus tz 30 baseDate in
          let w2 :=
            snd (updateTenantWhere tid (castId tid)
                                   (set_renewal (Some newExpiration)) w1) in
          let notes :=
            match activeBots w2 !! id tenant with
            | Some h =>
                if truthyStr (owner_chat_id tenant)
                then [mkNotification h (default [] (owner_chat_id tenant))
                                     newExpiration]
                else []
            | None => []
            end in
          (mkResponse 200 (SuccessJson newExpiration), notes, w2)
      | (_, w1) => (mkResponse 404 (ErrorJson (lit "Tenant not found")), [], w1)
      end.

(** ** Master admin bot

    The handlers of [masterBot] in the order they are registered; Telegraf
    runs them as one chain, each handler seeing an update only if every
    earlier handler that matched it called [next()]. *)

Inductive Update :=
| TextMessage (text : jsstring)      (* [ctx.message.text] *)
| CallbackQuery (cbData : jsstring). (* a pressed inline button *)

Inductive MasterReply :=
| AdminIdNotConfigured      (* "ADMIN_ID nao configurado no .env ..." *)
| MasterMenu                (* "Painel Master SaaS" *)
| YourId (chatId : Z)       (* "Seu ID: <code>${ctx.chat.id}</code>" *)
| MasterCancelled           (* "Operacao cancelada." *)
| AskBotToken               (* "Qual o Token do Bot dele?" *)
| InvalidToken              (* "Token invalido. Tente novamente:" *)
| AskOwnerId.               (* "Qual o Telegram ID (Chat ID) do Dono?" *)

(** A handler of the chain that got to run. *)
Inductive MasterHandler :=
| CommandStart
| ActionHandler (cbData : jsstring)
| TextHandler
| TenantStage (stage_ text : jsstring) (* a stage body that writes tenants *)
| CommandMeuId.

(** An entry of [masterSessions]: [{ stage, data }]. *)
Record MasterSession := mkMasterSession {
  ms_stage : jsstring;
  ms_name : option jsstring;
  ms_telegram_token : option jsstring;
  ms_id : option jsstring
}.

Record MasterState := mkMasterState {
  masterSessions : gmap Z MasterSession;
  ran : list MasterHandler;
  sent : list MasterReply
}.

Definition m_reply (r : MasterReply) (s : MasterState) : MasterState :=
  mkMasterState (masterSessions s) (ran s) (sent s ++ [r]).
Definition m_ran (h : MasterHandler) (s : MasterState) : MasterState :=
  mkMasterState (masterSessions s) (ran s ++ [h]) (sent s).
Definition m_sessions (f : gmap Z MasterSession -> gmap Z MasterSession)
  (s : MasterState) : MasterState :=
  mkMasterState (f (masterSessions s)) (ran s) (sent s).

(** A middleware of the chain: it either ends the chain or calls
    [next()]. *)
Definition Middleware : Type := Z -> Update -> MasterState -> Flow * MasterState.

Fixpoint runChain (chain : list Middleware) (chatId : Z) (u : Update)
  (s : MasterState) : MasterState :=
  match chain with
  | [] => s
  | mw :: rest =>
      match mw chatId u s with
      | (CallNext, s') => runChain rest chatId u s'
      | (Handled, s') => s'
      end
  end.

(** [masterBot.use((ctx, next) => ...)]; [ctx.message?.text] is defined for
    text messages only. *)
Definition masterSecurity (MASTER_ADMIN_ID : option jsstring) : Middleware :=
  fun chatId u s =>
    let isMeuId := match u with
                   | TextMessage text => streq text (lit "/meu_id")
                   | CallbackQuery _ => false
                   end in
    if isMeuId then (CallNext, s)
    else if negb (truthyStr MASTER_ADMIN_ID)
    then (Handled, m_reply AdminIdNotConfigured s)
    else if negb (streq (toString chatId) (default [] MASTER_ADMIN_ID))
    then (Handled, s)
    else (CallNext, s).

(** The command a text starts with: a slash and the name that follows it,
    up to the first code unit that cannot be part of a command name. *)
Definition isCommandChar (c : N) : bool :=
  (isDigit c || (65 <=? c) && (c <=? 90) || (97 <=? c) && (c <=? 122)
   || (c =? 95))%N.

Fixpoint takeCommand (s : jsstring) : jsstring :=
  match s with
  | c :: s' => if isCommandChar c then c :: takeCommand s' else []
  | [] => []
  end.

Definition commandOf (text : jsstring) : option jsstring :=
  match text with
  | 47%N :: rest => Some (takeCommand rest)
  | _ => None
  end.

(** [masterBot.command(cmd, body)]: [body] does not call [next]. *)
Definition command (cmd : jsstring) (body : Z -> MasterState -> MasterState)
  : Middleware :=
  fun chatId u s =>
    match u with
    | TextMessage text =>
        if bool_decide (commandOf text = Some cmd)
        then (Handled, body chatId s) else (CallNext, s)
    | CallbackQuery _ => (CallNext, s)
    end.

(** The capture of an unanchored [/pat(.+)/] on button data: what follows
    the leftmost occurrence of [pat], when that is not empty. *)
Fixpoint findAfter (pat s : jsstring) : option jsstring :=
  match stripPrefix pat s with
  | Some ((_ :: _) as r) => Some r
  | _ => match s with
         | [] => None
         | _ :: s' => findAfter pat s'
         end
  end.

(** How an action is triggered: by the exact data or by a pattern. *)
Inductive Trigger :=
| Exact (t : jsstring)
| Pattern (pat : jsstring).

Definition triggered (t : Trigger) (cbData : jsstring) : option jsstring :=
  match t with
  | Exact e => if streq cbData e then Some [] else None
  | Pattern pat => findAfter pat cbData
  end.

(** [masterBot.action(trigger, body)]; [body] gets [ctx.match[1]].  The
    handler is recorded under [tag]; the prompt it sends is left out. *)
Definition action (t : Trigger) (tag : jsstring)
  (body : jsstring -> Z -> MasterState -> MasterState) : Middleware :=
  fun chatId u s =>
    match u with
    | CallbackQuery cbData =>
        match triggered t cbData with
        | Some m => (Handled, body m chatId (m_ran (ActionHandler tag) s))
        | None => (CallNext, s)
        end
    | TextMessage _ => (CallNext, s)
    end.

(** [masterSessions.set(ctx.chat.id, { stage, data: { id } })] *)
Definition openWizard (stage_ : jsstring) (withId : bool)
  : jsstring -> Z -> MasterState -> MasterState :=
  fun m chatId s =>
    m_sessions (insert chatId
      (mkMasterSession stage_ None None (if withId then Some m else None))) s.

(** An action that only reads or writes tenants. *)
Definition tenantAction : jsstring -> Z -> MasterState -> MasterState :=
  fun _ _ s => s.

(** [text.includes(":")] *)
Definition includesColon (text : jsstring) : bool := existsb (N.eqb 58) text.

(** [masterBot.on("text", async (ctx) => ...)]: no path of it calls
    [next].  The bodies of the stages from WAIT_OWNER_ID on insert or
    update rows of the store; reaching one of them (or falling through
    with an unknown stage) is recorded as [TenantStage]. *)
Definition masterTextHandler : Middleware :=
  fun chatId u s =>
    match u with
    | CallbackQuery _ => (CallNext, s)
    | TextMessage rawText =>
        let s := m_ran TextHandler s in
        match masterSessions s !! chatId with
        | None => (Handled, s)
        | Some session =>
            let text := trim rawText in
            if streq text (lit "/cancelar")
            then (Handled, m_reply MasterCancelled (m_sessions (delete chatId) s))
            else if streq (ms_stage session) (lit "WAIT_NAME") then
              (Handled,
               m_reply AskBotToken
                 (m_sessions (insert chatId
                    (mkMasterSession (lit "WAIT_TOKEN") (Some text)
                       (ms_telegram_token session) (ms_id session))) s))
            else if streq (ms_stage session) (lit "WAIT_TOKEN") then
              if negb (includesColon text)
              then (Handled, m_reply InvalidToken s)
              else
                (Handled,
                 m_reply AskOwnerId
                   (m_sessions (insert chatId
                      (mkMasterSession (lit "WAIT_OWNER_ID") (ms_name session)
                         (Some text) (ms_id session))) s))
            else (Handled, m_ran (TenantStage (ms_stage session) text) s)
        end
    end.

(** [masterBot.command("meu_id", (ctx) => ctx.reply(`Seu ID: ...`))] *)
Definition meuIdHandler : Middleware :=
  command (lit "meu_id")
          (fun chatId s => m_reply (YourId chatId) (m_ran CommandMeuId s)).

(** The handlers of [masterBot], in registration order. *)
Definition masterChain (MASTER_ADMIN_ID : option jsstring) : list Middleware :=
  [ masterSecurity MASTER_ADMIN_ID;
    command (lit "start") (fun _ s => m_reply MasterMenu (m_ran CommandStart s));
    action (Exact (lit "list_tenants")) (lit "list_tenants") tenantAction;
    action (Exact (lit "cmd_set_global_price")) (lit "cmd_set_global_price")
           (openWizard (lit "WAIT_GLOBAL_PRICE") false);
    action (Pattern (lit "manage_tenant_")) (lit "manage_tenant_") tenantAction;
    action (Pattern (lit "cmd_limit_")) (lit "cmd_limit_")
           (openWizard (lit "WAIT_LIMIT_VALUE") true);
    action (Pattern (lit "cmd_price_")) (lit "cmd_price_")
           (openWizard (lit "WAIT_PRICE_VALUE") true);
    action (Pattern (lit "cmd_renew_")) (lit "cmd_renew_")
           (openWizard (lit "WAIT_RENEW_DAYS") true);
    action (Pattern (lit "cmd_toggle_active_")) (lit "cmd_toggle_active_")
           tenantAction;
    action (Exact (lit "new_tenant_start")) (lit "new_tenant_start")
           (openWizard (lit "WAIT_NAME") false);
    masterTextHandler;
    meuIdHandler ].

(** One update through [masterBot]. *)
Definition masterBot (MASTER_ADMIN_ID : option jsstring) (chatId : Z)
  (u : Update) (s : MasterState) : MasterState :=
  runChain (masterChain MASTER_ADMIN_ID) chatId u s.

(** ** Properties the specification names *)

(** A session with every top-level substructure of the current schema:
    a stage, the list of messaging instances and the report bag. *)
Definition structurallyComplete (s : Session) : Prop :=
  truthyStr (stage s) = true
  /\ (exists wa l, whatsapp s = Some wa /\ instances wa = Some l)
  /\ is_Some (reports s).

(** What the read path of [getSession] does establish. *)
Definition healed (s : Session) : Prop :=
  truthyStr (stage s) = true /\ is_Some (whatsapp s) /\ is_Some (affiliate s).

(** The limit the quota check compares with. *)
Definition effectiveLimit (tenant : Tenant) : Z :=
  orDefault (max_users (row tenant)) 10.

(** By how much the offset of the zone at the instant [d] exceeds the
    offset with which the local time [n] days later is read: zero unless
    the offset of the zone changes in between. *)
Definition offsetShift (tz : TimeZone) (n d : Z) : Z :=
  offsetAt tz d - offsetOfLocal tz (LocalTime tz d + n * msPerDay).

(** What [stop] makes of the status of an instance, and of the instance. *)
Definition stopped (st : BotStatus) : BotStatus :=
  match st with
  | Polling => Stopped
  | _ => st
  end.

Definition afterStop (b : Bot) : Bot :=
  set_bot_status (stopped (bot_status b)) b.

(** What the end of its launch makes of an instance. *)
Definition afterLaunch (ok : bool) (b : Bot) : Bot :=
  match bot_status b with
  | Launching => set_bot_status (if ok then Polling else NotRunning) b
  | _ => b
  end.

(** The registry names only instances that exist, each under the id of
    its own tenant. *)
Definition registryIndexed (w : World) : Prop :=
  forall k h, activeBots w !! k = Some h ->
    exists b, bots w !! h = Some b /\ id (row (bot_tenant b)) = k.


(** ** Concrete states *)

Definition emptyWorld : World := mkWorld ∅ ∅ ∅ [] [] [] ∅.

(** A zone whose offset from UTC never changes. *)
Definition fixedZone (offset : Z) : TimeZone :=
  mkTimeZone (fun _ => offset) (fun _ => offset).

(** Eastern time of North America around the end of daylight saving on
    1 November 2026, 06:00 UTC: four hours behind UTC before that instant,
    five hours from it on; a local time before 02:00 of that day is read
    with the earlier offset. *)
Definition easternTime : TimeZone :=
  mkTimeZone (fun t => if t <? 1793512800000 then -14400000 else -18000000)
             (fun tl => if tl <? 1793498400000 then -14400000 else -18000000).

Definition acme : TenantRow :=
  mkTenantRow 7 (lit "Acme") (lit "123:abc") (Some (lit "900")) false
              (Some 1000) (Some 1) None None None None None.

(** A session stored by an older release: no report bag. *)
Definition oldSession : Session :=
  mkSession (Some (lit "READY")) None
            (Some (mkWhatsApp (Some []) (Some 1)))
            (Some (mkAffiliate 0 0 0)) None None None.

Definition oldWorld : World :=
  set_bot_sessions (<[(7%N, lit "42") := oldSession]> ∅) emptyWorld.

Definition acmeWorld : World :=
  set_tenants (<[7%N := acme]> ∅) emptyWorld.

Definition paidBody : ReqBody :=
  mkReqBody (Some (mkPayload (Some (lit "tx1")) (Some (lit "completed"))
                             (Some (lit "tenant_7@venux.com")) None))
            (mkPayload None None None None).

Definition pendingBody : ReqBody :=
  mkReqBody None (mkPayload (Some (lit "tx1")) (Some (lit "pending"))
                            (Some (lit "tenant_7@venux.com")) None).

(** An expired tenant, its owner being chat 900. *)
Definition expiredAcme : Tenant := mkTenant acme 0.

(** A tenant without expiration whose [max_users] is 0. *)
Definition zeroQuota : Tenant :=
  mkTenant (mkTenantRow 8 (lit "Zero") (lit "456:def") (Some (lit "900")) true
                        None (Some 0) None None None None None) 0.

(** A tenant without expiration whose [max_users] is 1, one user counted. *)
Definition fullTenant : Tenant :=
  mkTenant (mkTenantRow 9 (lit "Full") (lit "789:ghi") (Some (lit "900")) true
                        None (Some 1) None None None None None) 1.

(** The owner of [acme] (chat 900) in the middle of a wizard. *)
Definition wizardCtx (stage_ : string) (sync_id openai_key : option jsstring) : Ctx :=
  mkCtx (mkTenant acme 0)
        (mkSession (Some (lit stage_)) (Some false)
                   (Some (mkWhatsApp (Some []) (Some 1)))
                   (Some (mkAffiliate 0 0 0)) (Some []) sync_id openai_key)
        acmeWorld [].

(** The owner of [acme] gives a SyncPay client id, then cancels. *)
Definition cancelledSyncPay : Ctx :=
  snd (ownerTextHandler 5500 900 (lit "/cancelar")
         (snd (ownerTextHandler 5000 900 (lit "client-1")
                 (wizardCtx "OWNER_WAIT_SYNCPAY_ID" None None)))).

(** The owner of [acme] gives an API key, then cancels. *)
Definition cancelledAiWizard : Ctx :=
  snd (ownerTextHandler 5500 900 (lit "/cancelar")
         (snd (ownerTextHandler 5000 900 (lit "sk-abc")
                 (wizardCtx "OWNER_WAIT_OPENAI_KEY" None None)))).

(** After that, the owner presses the button "GPT-4o" that the key step
    had sent: the middleware loads the session and the action runs
    [saveModel]. *)
Definition staleModelButton : option Ctx :=
  match tenantMiddleware 6000 900 (ctx_tenant cancelledAiWizard)
                         (ctx_world cancelledAiWizard) with
  | (GateNext s, t, w) => Some (saveModel 6000 900 (lit "gpt-4o") (mkCtx t s w []))
  | _ => None
  end.

Definition noMasterSessions : MasterState := mkMasterState ∅ [] [].

(** What the key step of the AI wizard does with an accepted key. *)
Definition keyAccepted (now chatId : Z) (text : jsstring) (c : Ctx) : Prop :=
  exists c', ownerTextHandler now chatId text c = (Handled, c')
    /\ stage (ctx_session c') = Some (lit "OWNER_WAIT_OPENAI_MODEL")
    /\ temp_openai_key (ctx_session c') = Some (trim text)
    /\ tenants (ctx_world c') = tenants (ctx_world c)
    /\ ctx_tenant c' = ctx_tenant c
    /\ ctx_out c' = ctx_out c ++ [ChooseModel].

(** ** Further parts of the server *)

(** The number of rows of [bot_sessions] that belong to a tenant. *)
Definition sessionRows (tenantId : N) (w : World) : Z :=
  Z.of_nat (size (filter (fun kv : (N * list N) * Session =>
                            kv.1.1 = tenantId) (bot_sessions w))).

(** [supabase.from('tenants').select('*').eq('id', tenant.id).single()],
    the filter value being the number [tenant.id]. *)
Definition selectTenantById (tid : N) (w : World)
  : (option TenantRow * option DbError) * World :=
  let (fault, w') := dbCall (SelectTenant (toStringN tid)) w in
  match fault with
  | Some e => ((None, Some e), w')
  | None =>
      match tenants w' !! tid with
      | Some t => ((Some t, None), w')
      | None => ((None, Some PGRST116), w')
      end
  end.

(** The body shared by the actions [owner_setup_syncpay],
    [owner_setup_ai] and [owner_setup_prompt]: the stage is set and saved.
    The prompt each of them sends afterwards is left out. *)
Definition ownerSetup (stage_ : jsstring) (now chatId : Z) (c : Ctx) : Ctx :=
  if negb (isOwner chatId (ctx_tenant c)) then c
  else save now chatId (with_session (set_stage (Some stage_)) c).

Definition owner_setup_syncpay : Z -> Z -> Ctx -> Ctx :=
  ownerSetup (lit "OWNER_WAIT_SYNCPAY_ID").
Definition owner_setup_ai : Z -> Z -> Ctx -> Ctx :=
  ownerSetup (lit "OWNER_WAIT_OPENAI_KEY").
Definition owner_setup_prompt : Z -> Z -> Ctx -> Ctx :=
  ownerSetup (lit "OWNER_WAIT_PROMPT").

(** [bot.action("owner_reload_bot", ...)]: [Object.assign(tenant, data)]
    replaces every column of the tenant object and keeps its
    [activeUserCount].  The flag tells whether "Configuracoes recarregadas
    com sucesso!" was sent (before the dashboard). *)
Definition owner_reload_bot (now chatId : Z) (c : Ctx) : bool * Ctx :=
  if negb (isOwner chatId (ctx_tenant c)) then (false, c)
  else
    match selectTenantById (id (row (ctx_tenant c))) (ctx_world c) with
    | ((Some data_, _), w1) =>
        (true, renderOwnerDashboard now chatId
                 (with_row (fun _ => data_) (with_world w1 c)))
    | (_, w1) => (false, with_world w1 c)
    end.

(** The e-mail [generateSubscriptionCharge] puts in a charge:
    [`tenant_${tenant.id}@venux.com`]. *)
Definition chargeEmail (tenantId : N) : jsstring :=
  lit "tenant_" ++ toStringN tenantId ++ lit "@venux.com".

(** An error of the store other than the not-found one. *)
Definition connectionFailure : DbError :=
  mkDbError (lit "08006") (lit "connection failure").

(** [oldWorld] with the next request to the store about to fail. *)
Definition failingWorld : World :=
  mkWorld ∅ (bot_sessions oldWorld) ∅ [Some connectionFailure] [] [] ∅.

(** The date a renewal at [now] gives a tenant whose expiration is [e]:
    [baseDate.setDate(baseDate.getDate() + 30)] on the later of the two. *)
Definition renewedUntil (tz : TimeZone) (now : Z) (e : option Z) : Z :=
  setDatePlus tz 30 match e with
                    | Some e => if now <? e then e else now
                    | None => now
                    end.

(** The notification the webhook sends after a renewal of [tenant]. *)
Definition renewalNotes (w : World) (tenant : TenantRow) (newExpiration : Z)
  : list Notification :=
  match activeBots w !! id tenant with
  | Some h =>
      if truthyStr (owner_chat_id tenant)
      then [mkNotification h (default [] (owner_chat_id tenant)) newExpiration]
      else []
  | None => []
  end.

(** A completed-payment notification for the charge of tenant [n]. *)
Definition chargePaid (n : N) : ReqBody :=
  mkReqBody (Some (mkPayload (Some (lit "tx1")) (Some (lit "completed"))
                             (Some (chargeEmail n)) None))
            (mkPayload None None None None).

(** A completed-payment notification without e-mail that names the tenant
    in [external_id]. *)
Definition subPaid (n : N) : ReqBody :=
  mkReqBody None (mkPayload (Some (lit "tx2")) (Some (lit "PAID")) None
                            (Some (lit "SUB_" ++ toStringN n))).

(** The tenant a payload names, as the store reads the extracted text. *)
Definition namedTenant (payload : Payload) : option N :=
  extractTenantId payload ≫= castId.

(** [w'] differs from [w] at most in the row of tenant [tid], in the cache
    entry and the stored session of the pair ([tid], [chatId]), in the log
    of requests and in the fault schedule. *)
Definition sameElsewhere (tid : N) (chatId : Z) (w w' : World) : Prop :=
  (forall k, k <> tid -> tenants w' !! k = tenants w !! k)
  /\ (forall key, key <> (tid, toString chatId) ->
                  bot_sessions w' !! key = bot_sessions w !! key)
  /\ (forall key, key <> cacheKey tid chatId ->
                  sessionCache w' !! key = sessionCache w !! key)
  /\ bots w' = bots w
  /\ activeBots w' = activeBots w.

(** A handler of the owner of a bot turned [c] into [c']: outside the
    tenant's own row and the session of the chat nothing of the state
    differs, and the tenant object is still that tenant's, with the same
    counter. *)
Definition ownOnly (chatId : Z) (c c' : Ctx) : Prop :=
  sameElsewhere (id (row (ctx_tenant c))) chatId (ctx_world c) (ctx_world c')
  /\ id (row (ctx_tenant c')) = id (row (ctx_tenant c))
  /\ activeUserCount (ctx_tenant c') = activeUserCount (ctx_tenant c).






(** Updates handled by the master bot one after the other: each is the
    chat it comes from and the update. *)
Definition masterRun (MASTER_ADMIN_ID : option jsstring)
  (updates : list (Z * Update)) (s : MasterState) : MasterState :=
  fold_left (fun s cu => masterBot MASTER_ADMIN_ID (fst cu) (snd cu) s)
            updates s.

(** Every master session belongs to the configured operator. *)
Definition sessionsOfOperator (MASTER_ADMIN_ID : option jsstring)
  (s : MasterState) : Prop :=
  forall k, is_Some (masterSessions s !! k) ->
            truthyStr MASTER_ADMIN_ID = true
            /\ MASTER_ADMIN_ID = Some (toString k).

(** ** WhatsApp instances of an end user

    [callWuzapi] talks to the messaging gateway; what it answers is an
    input here. *)

(** The answer to [callWuzapi("/admin/users", "POST", ...)]: [success],
    [data?.id], and the text shown when it failed
    ([text || message || JSON.stringify(..)]). *)
Record CreateRes := mkCreateRes {
  cr_success : bool;
  cr_data_id : option jsstring;
  cr_error : jsstring
}.

Inductive WaReply :=
| WaCreating                          (* "Criando instancia e gerando QR Code..." *)
| WaCreated (name_ : jsstring)        (* "Instancia <b>${text}</b> criada com sucesso!" *)
| WaApiError (text : jsstring)        (* "Erro ao comunicar com API: ..." *)
| WaAskName                           (* "Nova Conexao ... Digite um Nome" *)
| WaRemoved.                          (* answerCbQuery("Instancia removida!") *)

(** How a handler of this part ends: normally, with the replies sent, the
    session it saved and the state; or by a throw of [getSession]; or by
    the [TypeError] of reading a property of [undefined]. *)
Inductive WaResult :=
| WaDone (replies : list WaReply) (session : Session) (w : World)
| WaDbThrow (e : DbError) (w : World)
| WaTypeError (w : World).

(** [s.slice(-6)] *)
Definition sliceLast6 (s : jsstring) : jsstring := drop (length s - 6) s.

(** [`user_${ctx.chat.id}_${Date.now().toString().slice(-6)}`] *)
Definition newInstId (chatId now : Z) : jsstring :=
  lit "user_" ++ toString chatId ++ lit "_" ++ sliceLast6 (toString now).

(** [`${WEBHOOK_BASE}/webhook/wuzapi/${ctx.tenant.id}/${ctx.chat.id}`] *)
Definition specificWebhook (WEBHOOK_BASE : jsstring) (tid : N) (chatId : Z)
  : jsstring :=
  WEBHOOK_BASE ++ lit "/webhook/wuzapi/" ++ toStringN tid ++ lit "/"
  ++ toString chatId.

(** The instance list a session carries, none if a substructure is
    missing. *)
Definition instancesOf (s : Session) : list Instance :=
  default [] (whatsapp s ≫= instances).

(** The session after [session.whatsapp.instances.push(newInstance);
    session.stage = "READY"], the two missing-substructure repairs
    included: a repaired [whatsapp] has no [maxInstances]. *)
Definition pushInstance (inst : Instance) (s : Session) : Session :=
  let wa := match whatsapp s with
            | Some wa => wa
            | None => mkWhatsApp (Some []) None
            end in
  set_stage (Some (lit "READY"))
    (set_whatsapp
       (Some (mkWhatsApp (Some (default [] (instances wa) ++ [inst]))
                         (maxInstances wa))) s).

(** [bot.action("inst_add_new", ...)] *)
Definition inst_add_new (now chatId : Z) (c : Ctx) : WaResult :=
  let tid := id (row (ctx_tenant c)) in
  match getSession now tid chatId (ctx_world c) with
  | (Throw e, w1) => WaDbThrow e w1
  | (Ok session, w1) =>
      let session' := set_stage (Some (lit "WA_WAITING_NAME")) session in
      WaDone [WaAskName] session' (saveSession now tid chatId session' w1)
  end.

(** The wizard part of the second [bot.on("text", ...)]: [None] when the
    handler goes on to the AI part. *)
Definition userTextWizard (WEBHOOK_BASE : jsstring) (stamp now chatId : Z)
  (rawText : jsstring) (createRes : CreateRes) (c : Ctx) : option WaResult :=
  let stage_ := stage (ctx_session c) in
  if truthyStr stage_ && negb (bool_decide (stage_ = Some (lit "READY"))) then
    let text := trim rawText in
    if bool_decide (stage_ = Some (lit "WA_WAITING_NAME")) then
      let tid := id (row (ctx_tenant c)) in
      let newId := newInstId chatId stamp in
      if cr_success createRes then
        match getSession now tid chatId (ctx_world c) with
        | (Throw e, w1) => Some (WaDbThrow e w1)
        | (Ok session, w1) =>
            let newInstance :=
              mkInstance newId
                (if truthyStr (cr_data_id createRes)
                 then default [] (cr_data_id createRes) else newId)
                newId text false (specificWebhook WEBHOOK_BASE tid chatId) in
            let session' := pushInstance newInstance session in
            Some (WaDone [WaCreating; WaCreated text] session'
                         (saveSession now tid chatId session' w1))
        end
      else
        let session' := set_stage (Some (lit "READY")) (ctx_session c) in
        Some (WaDone [WaCreating; WaApiError (cr_error createRes)] session'
                     (saveSession now tid chatId session' (ctx_world c)))
    else None
  else None.

(** [bot.action(/^wa_del_(.+)$/, ...)] up to the menu it shows at the end:
    [.filter(i => i.id !== instId)] on the instance list, which throws when
    the list is missing. *)
Definition wa_del (now chatId : Z) (instId : jsstring) (c : Ctx) : WaResult :=
  let tid := id (row (ctx_tenant c)) in
  match getSession now tid chatId (ctx_world c) with
  | (Throw e, w1) => WaDbThrow e w1
  | (Ok session, w1) =>
      match whatsapp session with
      | None => WaTypeError w1
      | Some wa =>
          match instances wa with
          | None => WaTypeError w1
          | Some l =>
              let session' :=
                set_whatsapp
                  (Some (mkWhatsApp
                           (Some (filter (fun i => inst_id i <> instId) l))
                           (maxInstances wa))) session in
              WaDone [WaRemoved] session'
                     (saveSession now tid chatId session' w1)
          end
      end
  end.

(** What the handlers that [startTenantBot] registers do with one text
    message that the tenant middleware has let through, in the order of
    registration: [bot.command("admin")], the first [bot.on("text")],
    [bot.start], [bot.command("admin")], [bot.command("id")], the second
    [bot.on("text")].  The command bodies and the AI part of the second
    text handler are not followed. *)
Inductive TextOutcome :=
| ByCommand (cmd : jsstring)
| ByOwnerWizard (c : Ctx)
| ByUserWizard (r : WaResult)
| ToAi (c : Ctx).

Definition tenantTextChain (WEBHOOK_BASE : jsstring) (stamp now chatId : Z)
  (text : jsstring) (createRes : CreateRes) (c : Ctx) : TextOutcome :=
  if bool_decide (commandOf text = Some (lit "admin"))
  then ByCommand (lit "admin")
  else
    match ownerTextHandler now chatId text c with
    | (Handled, c') => ByOwnerWizard c'
    | (CallNext, c') =>
        if bool_decide (commandOf text = Some (lit "start"))
        then ByCommand (lit "start")
        else if bool_decide (commandOf text = Some (lit "id"))
        then ByCommand (lit "id")
        else
          match userTextWizard WEBHOOK_BASE stamp now chatId text createRes c' with
          | Some r => ByUserWizard r
          | None => ToAi c'
          end
    end.

(** Chat 42 of [fullTenant], asked for the name of a new instance. *)
Definition namingCtx : Ctx :=
  mkCtx fullTenant (set_stage (Some (lit "WA_WAITING_NAME")) defaultSession)
        emptyWorld [].

(** A stored session whose [whatsapp] object has no instance list, and the
    state in which it is the row of chat 42 of tenant 9. *)
Definition bareSession : Session :=
  mkSession (Some (lit "READY")) (Some false) (Some (mkWhatsApp None (Some 1)))
            (Some (mkAffiliate 0 0 0)) (Some []) None None.

Definition bareWorld : World :=
  set_bot_sessions (<[(9%N, lit "42") := bareSession]> ∅) emptyWorld.

(** * Theorems *)

(** ** The store under an empty fault schedule *)

Lemma dbCall_healthy (op : DbOp) (w : World) :
  faults w = [] -> dbCall op w = (None, logged op w).
Proof. intros H. unfold dbCall. now rewrite H. Qed.

Lemma faults_logged (op : DbOp) (w : World) :
  faults w = [] -> faults (logged op w) = [].
Proof. intros H. simpl. now rewrite H. Qed.

Lemma sessionCache_upsertSession (t : N) (c : jsstring) (s : Session) (w : World) :
  sessionCache (upsertSession t c s w) = sessionCache w.
Proof. unfold upsertSession, dbCall. now destruct (mjoin (head (faults w))). Qed.

Lemma dbLog_upsertSession (t : N) (c : jsstring) (s : Session) (w : World) :
  dbLog (upsertSession t c s w) = dbLog w ++ [UpsertSession t c s].
Proof. unfold upsertSession, dbCall. now destruct (mjoin (head (faults w))). Qed.

Lemma cacheHit_fresh (now now' : Z) (s : Session) :
  now' - now < CACHE_TTL -> cacheHit now' (Some (mkCacheEntry s now)) = Some s.
Proof.
  intros H. unfold cacheHit. simpl.
  destruct (Z.ltb_spec (now' - now) CACHE_TTL); [reflexivity | lia].
Qed.

(** ** Session store *)

(** C3. A [saveSession] followed by a [getSession] for the same tenant and
    chat, less than [CACHE_TTL] later on the clock, returns the saved
    session and leaves the whole state, the log of store requests
    included, as [saveSession] left it: the read is served by the cache. *)
Theorem save_then_get (now now' : Z) (t : N) (u : Z) (S : Session) (w : World) :
  now' - now < CACHE_TTL ->
  getSession now' t u (saveSession now t u S w) = (Ok S, saveSession now t u S w)
  /\ dbLog (snd (getSession now' t u (saveSession now t u S w)))
     = dbLog w ++ [UpsertSession t (toString u) S].
Proof.
  intros Himm.
  assert (Hget : getSession now' t u (saveSession now t u S w)
                 = (Ok S, saveSession now t u S w)).
  { unfold getSession, saveSession.
    rewrite sessionCache_upsertSession. unfold cacheSet at 1. simpl.
    rewrite lookup_insert_eq. now rewrite cacheHit_fresh. }
  split; [exact Hget |].
  rewrite Hget. simpl. unfold saveSession. now rewrite dbLog_upsertSession.
Qed.

Lemma save_then_get_witness :
  1200 - 1000 < CACHE_TTL
  /\ getSession 1200 7 42 (saveSession 1000 7 42 oldSession emptyWorld)
     = (Ok oldSession, saveSession 1000 7 42 oldSession emptyWorld).
Proof.
  split; [reflexivity |].
  apply (save_then_get 1000 1200 7 42 oldSession emptyWorld). reflexivity.
Defined.

Lemma autoHeal_healed (s : Session) : healed (autoHeal s).
Proof.
  unfold healed, autoHeal.
  destruct s as [st vip wa af rp t1 t2]; simpl.
  destruct wa, af; simpl; destruct (truthyStr st) eqn:Hst; simpl; eauto.
Qed.

Lemma autoHeal_reports (s : Session) : reports (autoHeal s) = reports s.
Proof.
  unfold autoHeal.
  destruct s as [st vip wa af rp t1 t2]; simpl.
  destruct wa, af; simpl; destruct (truthyStr st); reflexivity.
Qed.

Lemma autoHeal_whatsapp (s : Session) (wa : WhatsApp) :
  whatsapp s = Some wa -> whatsapp (autoHeal s) = Some wa.
Proof.
  unfold autoHeal.
  destruct s as [st vip wa' af rp t1 t2]; simpl. intros ->.
  destruct af; simpl; destruct (truthyStr st); reflexivity.
Qed.

(** [getSession] throws only the error of a failed read, and never the
    not-found answer. *)
Lemma getSession_throw (now : Z) (t : N) (u : Z) (w w' : World) (e : DbError) :
  getSession now t u w = (Throw e, w') ->
  code e <> lit "PGRST116" /\ mjoin (head (faults w)) = Some e.
Proof.
  unfold getSession.
  destruct (cacheHit now (sessionCache w !! cacheKey t u)); [discriminate |].
  unfold selectSession, dbCall.
  destruct (mjoin (head (faults w))) as [f|] eqn:Hf.
  - unfold streq. case_bool_decide as Hc; simpl.
    + discriminate.
    + intros [= <- _]. auto.
  - destruct (bot_sessions (logged _ w) !! _); simpl; discriminate.
Qed.

(** C2 (as amended). With no fault scheduled for the store, [getSession]
    returns a session for every tenant, chat and state.  When the cache
    does not answer and the table has no row, the session is the default
    one (stage START, no instance, empty report bag), now stored in the
    table and in the cache.  When the table has a row, the session is the
    stored one with a stage, a [whatsapp] and an [affiliate] substructure
    filled in where missing; its report bag and an existing [whatsapp]
    substructure are returned as stored. *)
Theorem getSession_synthesizes (now : Z) (t : N) (u : Z) (w : World) :
  faults w = [] ->
  exists s w', getSession now t u w = (Ok s, w')
    /\ (cacheHit now (sessionCache w !! cacheKey t u) = None ->
        match bot_sessions w !! (t, toString u) with
        | None =>
            s = defaultSession
            /\ stage s = Some (lit "START")
            /\ whatsapp s = Some (mkWhatsApp (Some []) (Some 1))
            /\ reports s = Some []
            /\ bot_sessions w' !! (t, toString u) = Some defaultSession
            /\ sessionCache w' !! cacheKey t u
               = Some (mkCacheEntry defaultSession now)
        | Some stored =>
            s = autoHeal stored
            /\ healed s
            /\ reports s = reports stored
            /\ (forall wa, whatsapp stored = Some wa -> whatsapp s = Some wa)
            /\ bot_sessions w' = bot_sessions w
            /\ sessionCache w' !! cacheKey t u = Some (mkCacheEntry s now)
        end).
Proof.
  intros Hf. unfold getSession.
  destruct (cacheHit now (sessionCache w !! cacheKey t u)) as [c|] eqn:Hc.
  { exists c, w. split; [reflexivity | discriminate]. }
  unfold selectSession. rewrite (dbCall_healthy _ _ Hf).
  change (bot_sessions (logged (SelectSession t (toString u)) w))
    with (bot_sessions w).
  destruct (bot_sessions w !! (t, toString u)) as [stored|] eqn:Hrow.
  - eexists _, _. split; [reflexivity |]. intros _.
    repeat split.
    + apply autoHeal_healed.
    + apply autoHeal_healed.
    + apply autoHeal_healed.
    + apply autoHeal_reports.
    + apply autoHeal_whatsapp.
    + simpl. apply lookup_insert_eq.
  - simpl. eexists _, _. split; [reflexivity |]. intros _.
    repeat split.
    + unfold saveSession, upsertSession.
      rewrite dbCall_healthy by (simpl; now rewrite Hf).
      simpl. apply lookup_insert_eq.
    + simpl. apply lookup_insert_eq.
Qed.

Lemma getSession_synthesizes_witness :
  faults oldWorld = []
  /\ exists w', getSession 1000 7 42 oldWorld = (Ok oldSession, w').
Proof.
  split; [reflexivity |].
  destruct (getSession_synthesizes 1000 7 42 oldWorld eq_refl)
    as (s & w' & Hget & Hread).
  exists w'. rewrite Hget. f_equal. f_equal.
  apply (Hread eq_refl).
Defined.

(** C2, as stated, fails: a stored session without a report bag is
    returned without one. *)
Lemma getSession_incomplete :
  match fst (getSession 1000 7 42 oldWorld) with
  | Ok s => ~ structurallyComplete s
  | Throw _ => False
  end.
Proof.
  vm_compute. intros (_ & _ & [r Hr]). discriminate.
Qed.

(** ** Master webhook *)

(** [setDate(getDate() + n)] moves the local time by [n] whole days. *)
Lemma setDatePlus_local (tz : TimeZone) (n d : Z) :
  setDatePlus tz n d = UTC tz (LocalTime tz d + n * msPerDay).
Proof.
  unfold setDatePlus. f_equal. unfold MakeDate, Day, TimeWithinDay.
  pose proof (Z.div_mod (LocalTime tz d) msPerDay) as H.
  assert (msPerDay <> 0) as Hne by (unfold msPerDay; lia).
  specialize (H Hne). nia.
Qed.

Lemma setDatePlus_shift (tz : TimeZone) (n d : Z) :
  setDatePlus tz n d = d + n * msPerDay + offsetShift tz n d.
Proof.
  rewrite setDatePlus_local. unfold offsetShift, UTC, LocalTime. lia.
Qed.

Lemma baseDate_max (now : Z) (e : option Z) :
  match e with
  | Some e => if now <? e then e else now
  | None => now
  end = Z.max (default now e) now.
Proof.
  destruct e as [e|]; simpl; [| lia].
  destruct (Z.ltb_spec now e); lia.
Qed.

Lemma castId_nonempty (s : jsstring) (n : N) :
  castId s = Some n -> truthyStr (Some s) = true.
Proof. destruct s; [discriminate | reflexivity]. Qed.

(** C6. A notification whose status is none of "completed", "PAID" and
    "RECEIVED" is answered with status 200 and the body
    [{ ignored: true, reason }]; no request goes to the store and the
    state, every tenant row included, is the one before the call. *)
Theorem webhook_ignores_other_status (tz : TimeZone) (now : Z) (req : ReqBody)
  (w : World) :
  eligibleStatus (p_status (default (body_top req) (body_data req))) = false ->
  webhookMaster tz now req w
  = (mkResponse 200
       (IgnoredJson (p_status (default (body_top req) (body_data req)))),
     [], w).
Proof. intros H. unfold webhookMaster. now rewrite H. Qed.

Lemma webhook_ignores_other_status_witness :
  eligibleStatus (p_status (default (body_top pendingBody) (body_data pendingBody)))
  = false
  /\ tenants (snd (webhookMaster (fixedZone 0) 5000 pendingBody acmeWorld)) !! 7%N
     = Some acme.
Proof.
  split; [reflexivity |].
  rewrite (webhook_ignores_other_status (fixedZone 0) 5000 pendingBody acmeWorld
             eq_refl).
  reflexivity.
Defined.

(** C1. A notification with a completed-payment status that resolves to a
    stored tenant with expiration [E] (absent, past or future), processed
    at time [now] with no fault scheduled for the store, rewrites the
    tenant's row with [is_active = true] and with the expiration [E']
    that lies 30 calendar days after [max(E, now)] in the local time of the
    process: the local time of [max(E, now)] moved by 30 whole days and
    read back as an instant.  The answer has status 200 and the body
    [{ success: true, new_expiration }] with that same [E'].  [E'] is
    [max(E, now) + 30 * 24 h] plus the change of the zone's offset over the
    period, so exactly that when the offset is the same at both ends. *)
Theorem webhook_renews (tz : TimeZone) (now : Z) (req : ReqBody) (w : World)
  (tid : jsstring) (n : N) (tenant : TenantRow) :
  faults w = [] ->
  eligibleStatus (p_status (default (body_top req) (body_data req))) = true ->
  extractTenantId (default (body_top req) (body_data req)) = Some tid ->
  castId tid = Some n ->
  tenants w !! n = Some tenant ->
  let base := Z.max (default now (expiration_date tenant)) now in
  let E' := UTC tz (LocalTime tz base + 30 * msPerDay) in
  exists notes w',
    webhookMaster tz now req w = (mkResponse 200 (SuccessJson E'), notes, w')
    /\ tenants w' !! n = Some (set_renewal (Some E') tenant)
    /\ (forall t', tenants w' !! n = Some t' ->
                   expiration_date t' = Some E' /\ is_active t' = true)
    /\ E' = base + 30 * msPerDay + offsetShift tz 30 base
    /\ (offsetOfLocal tz (LocalTime tz base + 30 * msPerDay) = offsetAt tz base ->
        E' = base + 30 * msPerDay).
Proof.
  intros Hf Hst Hid Hcast Hrow base E'.
  assert (Hbase : setDatePlus tz 30
            match expiration_date tenant with
            | Some e => if now <? e then e else now
            | None => now
            end = E').
  { now rewrite baseDate_max, setDatePlus_local. }
  unfold webhookMaster. rewrite Hst, Hid.
  rewrite (castId_nonempty _ _ Hcast). cbn [negb from_option Datatypes.id].
  unfold selectTenant. rewrite (dbCall_healthy _ _ Hf), Hcast.
  change (tenants (logged (SelectTenant tid) w)) with (tenants w).
  rewrite Hrow, Hbase.
  unfold updateTenantWhere.
  rewrite dbCall_healthy by (simpl; now rewrite Hf).
  eexists _, _. split; [reflexivity |].
  assert (Hnew : tenants (snd (None (A:=DbError),
             set_tenants (alter (set_renewal (Some E')) n
                (tenants (logged (UpdateTenant tid) (logged (SelectTenant tid) w))))
                (logged (UpdateTenant tid) (logged (SelectTenant tid) w)))) !! n
           = Some (set_renewal (Some E') tenant)).
  { simpl. rewrite lookup_alter_eq, Hrow. reflexivity. }
  split; [exact Hnew |].
  split.
  { intros t' Ht'. rewrite Hnew in Ht'. injection Ht' as <-. split; reflexivity. }
  assert (Hshift : E' = base + 30 * msPerDay + offsetShift tz 30 base).
  { unfold E'. rewrite <- setDatePlus_local. apply setDatePlus_shift. }
  split; [exact Hshift |].
  intros Hsame. rewrite Hshift. unfold offsetShift. rewrite Hsame. lia.
Qed.

Lemma webhook_renews_witness :
  faults acmeWorld = []
  /\ exists notes w',
       webhookMaster easternTime 1792065600000 paidBody acmeWorld
       = (mkResponse 200 (SuccessJson 1794661200000), notes, w')
       /\ tenants w' !! 7%N = Some (set_renewal (Some 1794661200000) acme).
Proof.
  split; [reflexivity |].
  destruct (webhook_renews easternTime 1792065600000 paidBody acmeWorld
              (lit "7") 7 acme eq_refl eq_refl eq_refl eq_refl eq_refl)
    as (notes & w' & Hres & Hrow & _).
  exists notes, w'. split; [exact Hres | exact Hrow].
Defined.

(** C1, the claim as worded.  In eastern time a payment on 15 October 2026,
    12:00 UTC, for a tenant whose plan has run out, is answered with
    14 November 2026, 13:00 UTC, the same local hour 30 calendar days
    later; [max(E, now) + 30 * 24 h] is 12:00 UTC of that day, an hour
    earlier, daylight saving having ended in between. *)
Lemma renewal_across_offset_change :
  let now := 1792065600000 in
  let base := Z.max (default now (expiration_date acme)) now in
  fst (fst (webhookMaster easternTime now paidBody acmeWorld))
  = mkResponse 200 (SuccessJson 1794661200000)
  /\ tenants (snd (webhookMaster easternTime now paidBody acmeWorld)) !! 7%N
     = Some (set_renewal (Some 1794661200000) acme)
  /\ base + 30 * msPerDay = 1794657600000
  /\ 1794661200000 <> base + 30 * msPerDay.
Proof. vm_compute. repeat split. discriminate. Qed.

(** ** Expiration and quota gate *)

Lemma notOwnerChat_true (chatId : Z) (tenant : Tenant) :
  owner_chat_id (row tenant) <> Some (toString chatId) ->
  notOwnerChat chatId tenant = true.
Proof. intros H. unfold notOwnerChat. now rewrite bool_decide_eq_false_2. Qed.

Lemma notOwnerChat_false (chatId : Z) (tenant : Tenant) :
  owner_chat_id (row tenant) = Some (toString chatId) ->
  notOwnerChat chatId tenant = false.
Proof. intros H. unfold notOwnerChat. now rewrite bool_decide_eq_true_2. Qed.

(** C4. For a tenant whose expiration lies strictly before the time of the
    event, an event from a chat other than the owner's is answered with
    the "plan expired" reply, [next] is not called and neither the tenant
    object nor the process state changes.  An event from the owner's chat
    is never stopped by the expiration test, whatever the expiration: the
    middleware goes on to load the session and calls [next]. *)
Theorem expiration_gate (now chatId : Z) (tenant : Tenant) (w : World) :
  (forall E, expiration_date (row tenant) = Some E -> E < now ->
     owner_chat_id (row tenant) <> Some (toString chatId) ->
     tenantMiddleware now chatId tenant w = (GateReply PlanExpired, tenant, w))
  /\ (owner_chat_id (row tenant) = Some (toString chatId) ->
      tenantMiddleware now chatId tenant w
      = match getSession now (id (row tenant)) chatId w with
        | (Ok s, w') => (GateNext s, tenant, w')
        | (Throw e, w') => (GateThrow e, tenant, w')
        end).
Proof.
  split.
  - intros E HE Hpast Hno. unfold tenantMiddleware, planExpired.
    rewrite HE, (notOwnerChat_true _ _ Hno).
    destruct (Z.ltb_spec E now); [reflexivity | lia].
  - intros Hown. unfold tenantMiddleware, planExpired.
    rewrite (notOwnerChat_false _ _ Hown).
    destruct (expiration_date (row tenant)); [rewrite andb_false_r |];
      reflexivity.
Qed.

Lemma expiration_gate_witness :
  tenantMiddleware 5000 42 expiredAcme emptyWorld
  = (GateReply PlanExpired, expiredAcme, emptyWorld)
  /\ tenantMiddleware 5000 900 expiredAcme emptyWorld
     = match getSession 5000 7 900 emptyWorld with
       | (Ok s, w') => (GateNext s, expiredAcme, w')
       | (Throw e, w') => (GateThrow e, expiredAcme, w')
       end.
Proof.
  split.
  - apply (proj1 (expiration_gate 5000 42 expiredAcme emptyWorld) 1000);
      [reflexivity | reflexivity | discriminate].
  - apply (proj2 (expiration_gate 5000 900 expiredAcme emptyWorld)).
    reflexivity.
Defined.

Lemma getSession_new (now : Z) (t : N) (u : Z) (w : World) :
  faults w = [] ->
  sessionCache w !! cacheKey t u = None ->
  bot_sessions w !! (t, toString u) = None ->
  getSession now t u w
  = (Ok defaultSession,
     cacheSet (cacheKey t u) defaultSession now
       (saveSession now t u defaultSession
          (logged (SelectSession t (toString u)) w))).
Proof.
  intros Hf Hc Hrow. unfold getSession. rewrite Hc. simpl cacheHit.
  unfold selectSession. rewrite (dbCall_healthy _ _ Hf).
  change (bot_sessions (logged (SelectSession t (toString u)) w))
    with (bot_sessions w).
  now rewrite Hrow.
Qed.

(** One new user at the quota check, [effectiveLimit] being [max_users],
    or 10 when [max_users] is null or 0. *)
Lemma quota_step (now chatId : Z) (tenant : Tenant) (w : World) :
  planExpired now chatId tenant = false ->
  owner_chat_id (row tenant) <> Some (toString chatId) ->
  sessionCache w !! cacheKey (id (row tenant)) chatId = None ->
  bot_sessions w !! (id (row tenant), toString chatId) = None ->
  faults w = [] ->
  (effectiveLimit tenant <= activeUserCount tenant ->
   tenantMiddleware now chatId tenant w
   = (GateReply (UserLimitReached (effectiveLimit tenant)), tenant,
      logged (SelectSessionChatId (id (row tenant)) (toString chatId)) w))
  /\ (activeUserCount tenant < effectiveLimit tenant ->
      tenantMiddleware now chatId tenant w
      = (GateNext defaultSession,
         set_activeUserCount (activeUserCount tenant + 1) tenant,
         newUserWorld now (id (row tenant)) chatId w)).
Proof.
  intros Hexp Hno Hc Hrow Hf.
  assert (Hmw : tenantMiddleware now chatId tenant w
    = if effectiveLimit tenant <=? activeUserCount tenant
      then (GateReply (UserLimitReached (effectiveLimit tenant)), tenant,
            logged (SelectSessionChatId (id (row tenant)) (toString chatId)) w)
      else (GateNext defaultSession,
            set_activeUserCount (activeUserCount tenant + 1) tenant,
            newUserWorld now (id (row tenant)) chatId w)).
  { unfold tenantMiddleware. rewrite Hexp, (notOwnerChat_true _ _ Hno), Hc.
    rewrite bool_decide_eq_false_2 by (intros [? ?]; discriminate).
    cbn [negb]. unfold checkUserExists. rewrite (dbCall_healthy _ _ Hf).
    change (bot_sessions (logged (SelectSessionChatId (id (row tenant))
                                    (toString chatId)) w))
      with (bot_sessions w).
    rewrite Hrow.
    rewrite bool_decide_eq_false_2 by (intros [? ?]; discriminate).
    cbn [negb]. fold (effectiveLimit tenant).
    destruct (effectiveLimit tenant <=? activeUserCount tenant);
      [reflexivity |].
    cbn [row set_activeUserCount].
    rewrite getSession_new; [reflexivity | | exact Hc | exact Hrow].
    now apply faults_logged. }
  rewrite Hmw. split; intros Hcmp.
  - destruct (Z.leb_spec (effectiveLimit tenant) (activeUserCount tenant));
      [reflexivity | lia].
  - destruct (Z.leb_spec (effectiveLimit tenant) (activeUserCount tenant));
      [lia | reflexivity].
Qed.

Lemma lit_inj (a b : string) : lit a = lit b -> a = b.
Proof.
  unfold lit. intros H.
  assert (Hl : list_ascii_of_string a = list_ascii_of_string b).
  { revert H. generalize (list_ascii_of_string a) (list_ascii_of_string b).
    induction l as [|x l IH]; intros [|y l']; simpl; intros H;
      try discriminate; [reflexivity |].
    injection H as Hxy Hll. f_equal; [| now apply IH].
    rewrite <- (ascii_N_embedding x), <- (ascii_N_embedding y).
    now rewrite Hxy. }
  rewrite <- (string_of_list_ascii_of_string a),
          <- (string_of_list_ascii_of_string b).
  now rewrite Hl.
Qed.

Lemma toString_inj (a b : Z) : toString a = toString b -> a = b.
Proof. intros H. apply lit_inj in H. now apply pretty_Z_inj in H. Qed.

Lemma cacheKey_inj (t : N) (a b : Z) : cacheKey t a = cacheKey t b -> a = b.
Proof.
  unfold cacheKey. intros H.
  apply app_inv_head in H. apply app_inv_head in H. now apply toString_inj.
Qed.

Lemma faults_upsertSession (t : N) (c : jsstring) (s : Session) (w : World) :
  faults w = [] -> faults (upsertSession t c s w) = [].
Proof.
  intros H. unfold upsertSession. rewrite (dbCall_healthy _ _ H).
  simpl. now rewrite H.
Qed.

Lemma faults_newUserWorld (now : Z) (t : N) (c : Z) (w : World) :
  faults w = [] -> faults (newUserWorld now t c w) = [].
Proof.
  intros H. unfold newUserWorld, saveSession. simpl.
  apply faults_upsertSession. simpl. now rewrite H.
Qed.

Lemma bot_sessions_upsertSession (t : N) (c c' : jsstring) (s : Session)
  (w : World) :
  c' <> c ->
  bot_sessions (upsertSession t c s w) !! (t, c') = bot_sessions w !! (t, c').
Proof.
  intros Hne. unfold upsertSession, dbCall.
  destruct (mjoin (head (faults w))); simpl; [reflexivity |].
  apply lookup_insert_ne. congruence.
Qed.

Lemma newUserWorld_cache_other (now : Z) (t : N) (c c' : Z) (w : World) :
  c' <> c ->
  sessionCache (newUserWorld now t c w) !! cacheKey t c'
  = sessionCache w !! cacheKey t c'.
Proof.
  intros Hne. unfold newUserWorld, saveSession. simpl.
  rewrite lookup_insert_ne by (intros H; apply cacheKey_inj in H; congruence).
  rewrite sessionCache_upsertSession. simpl.
  apply lookup_insert_ne. intros H; apply cacheKey_inj in H; congruence.
Qed.

Lemma newUserWorld_rows_other (now : Z) (t : N) (c c' : Z) (w : World) :
  c' <> c ->
  bot_sessions (newUserWorld now t c w) !! (t, toString c')
  = bot_sessions w !! (t, toString c').
Proof.
  intros Hne. unfold newUserWorld, saveSession. simpl.
  rewrite bot_sessions_upsertSession; [reflexivity |].
  intros H; apply toString_inj in H; congruence.
Qed.

(** The gates of a run: [free] admissions, then refusals. *)
Lemma quota_run (events : list (Z * Z)) :
  forall (tenant : Tenant) (w : World),
  faults w = [] ->
  NoDup (map snd events) ->
  (forall now c, (now, c) ∈ events ->
     planExpired now c tenant = false
     /\ owner_chat_id (row tenant) <> Some (toString c)
     /\ sessionCache w !! cacheKey (id (row tenant)) c = None
     /\ bot_sessions w !! (id (row tenant), toString c) = None) ->
  let free := Z.to_nat (effectiveLimit tenant - activeUserCount tenant) in
  fst (fst (serveAll events tenant w))
  = replicate (min free (length events)) (GateNext defaultSession)
    ++ replicate (length events - free)
                 (GateReply (UserLimitReached (effectiveLimit tenant))).
Proof.
  induction events as [|[now c] rest IH]; intros tenant w Hf Hnd Hev free.
  - simpl. now rewrite Nat.min_0_r.
  - simpl in Hnd. apply NoDup_cons in Hnd as [Hnotin Hnd].
    destruct (Hev now c) as (Hexp & Hown & Hcache & Hrow);
      [apply list_elem_of_here |].
    destruct (quota_step now c tenant w Hexp Hown Hcache Hrow Hf)
      as [Hfull Hroom].
    cbn [serveAll].
    destruct (Z.le_gt_cases (effectiveLimit tenant) (activeUserCount tenant))
      as [Hle | Hlt].
    + rewrite (Hfull Hle).
      assert (IH' := IH tenant
        (logged (SelectSessionChatId (id (row tenant)) (toString c)) w)
        (faults_logged _ _ Hf) Hnd).
      cbv zeta in IH'. unfold free.
      replace (Z.to_nat (effectiveLimit tenant - activeUserCount tenant))
        with 0%nat in IH' |- * by lia.
      destruct (serveAll rest tenant _) as [[gs t''] w''].
      cbn [fst] in IH' |- *. rewrite IH'; [now rewrite Nat.sub_0_r |].
      intros now' c' Hin. apply Hev. now apply list_elem_of_further.
    + rewrite (Hroom Hlt).
      assert (IH' := IH (set_activeUserCount (activeUserCount tenant + 1) tenant)
                        (newUserWorld now (id (row tenant)) c w)
                        (faults_newUserWorld _ _ _ _ Hf) Hnd).
      cbv zeta in IH'. unfold free.
      change (effectiveLimit (set_activeUserCount (activeUserCount tenant + 1)
                                                  tenant))
        with (effectiveLimit tenant) in IH'.
      cbn [set_activeUserCount activeUserCount] in IH'.
      replace (Z.to_nat (effectiveLimit tenant - activeUserCount tenant))
        with (S (Z.to_nat (effectiveLimit tenant - (activeUserCount tenant + 1))))
        by lia.
      destruct (serveAll rest _ _) as [[gs t''] w''].
      cbn [fst] in IH' |- *. rewrite IH'; [reflexivity |].
      intros now' c' Hin.
      assert (c' <> c) as Hne.
      { intros ->. apply Hnotin. apply list_elem_of_fmap.
        exists (now', c). split; [reflexivity | exact Hin]. }
      destruct (Hev now' c') as (H1 & H2 & H3 & H4);
        [now apply list_elem_of_further |].
      change (row (set_activeUserCount (activeUserCount tenant + 1) tenant))
        with (row tenant).
      split; [exact H1 |]. split; [exact H2 |]. split.
      * now rewrite newUserWorld_cache_other.
      * now rewrite newUserWorld_rows_other.
Qed.

(** C5 (as amended). Let the limit be [max_users], or 10 when [max_users]
    is null or 0, and let no fault be scheduled for the store.  For an
    event that the expiration test lets through, from a chat other than the
    owner's that is neither in the session cache nor in the session table:
    when the tenant's counter has reached the limit the event is answered
    with the "limit reached" reply and the counter is unchanged; otherwise
    the event is admitted with a fresh default session and the counter
    grows by exactly one.  Hence, from a counter of 0, a run of limit + 1
    events from distinct such chats admits the first limit of them and
    refuses the last. *)
Theorem quota_gate (tenant : Tenant) (w : World) :
  faults w = [] ->
  (forall now chatId,
     planExpired now chatId tenant = false ->
     owner_chat_id (row tenant) <> Some (toString chatId) ->
     sessionCache w !! cacheKey (id (row tenant)) chatId = None ->
     bot_sessions w !! (id (row tenant), toString chatId) = None ->
     (effectiveLimit tenant <= activeUserCount tenant ->
      tenantMiddleware now chatId tenant w
      = (GateReply (UserLimitReached (effectiveLimit tenant)), tenant,
         logged (SelectSessionChatId (id (row tenant)) (toString chatId)) w))
     /\ (activeUserCount tenant < effectiveLimit tenant ->
         tenantMiddleware now chatId tenant w
         = (GateNext defaultSession,
            set_activeUserCount (activeUserCount tenant + 1) tenant,
            newUserWorld now (id (row tenant)) chatId w)))
  /\ (forall events,
        NoDup (map snd events) ->
        (forall now c, (now, c) ∈ events ->
           planExpired now c tenant = false
           /\ owner_chat_id (row tenant) <> Some (toString c)
           /\ sessionCache w !! cacheKey (id (row tenant)) c = None
           /\ bot_sessions w !! (id (row tenant), toString c) = None) ->
        activeUserCount tenant = 0 ->
        length events = S (Z.to_nat (effectiveLimit tenant)) ->
        fst (fst (serveAll events tenant w))
        = replicate (Z.to_nat (effectiveLimit tenant)) (GateNext defaultSession)
          ++ [GateReply (UserLimitReached (effectiveLimit tenant))]).
Proof.
  intros Hf. split.
  - intros now chatId Hexp Hown Hc Hrow.
    exact (quota_step now chatId tenant w Hexp Hown Hc Hrow Hf).
  - intros events Hnd Hev Hzero Hlen.
    rewrite (quota_run events tenant w Hf Hnd Hev).
    rewrite Hzero, Z.sub_0_r, Hlen.
    replace (Z.to_nat (effectiveLimit tenant)
             `min` S (Z.to_nat (effectiveLimit tenant)))%nat
      with (Z.to_nat (effectiveLimit tenant)) by lia.
    replace (S (Z.to_nat (effectiveLimit tenant))
             - Z.to_nat (effectiveLimit tenant))%nat with 1%nat by lia.
    reflexivity.
Qed.

Lemma quota_gate_witness :
  faults emptyWorld = []
  /\ tenantMiddleware 5000 42 fullTenant emptyWorld
     = (GateReply (UserLimitReached 1), fullTenant,
        logged (SelectSessionChatId 9 (toString 42)) emptyWorld)
  /\ fst (fst (serveAll [(5000, 42); (5001, 43)]
                        (set_activeUserCount 0 fullTenant) emptyWorld))
     = [GateNext defaultSession; GateReply (UserLimitReached 1)].
Proof.
  split; [reflexivity |]. split.
  - apply (proj1 (quota_gate fullTenant emptyWorld eq_refl) 5000 42
             eq_refl ltac:(discriminate) eq_refl eq_refl).
    vm_compute. discriminate.
  - apply (proj2 (quota_gate (set_activeUserCount 0 fullTenant) emptyWorld
                             eq_refl) [(5000, 42); (5001, 43)]).
    + apply (bool_decide_unpack _). vm_compute. exact I.
    + intros now c Hin.
      rewrite !elem_of_cons, elem_of_nil in Hin.
      destruct Hin as [Heq | [Heq | []]]; injection Heq as -> ->;
        (split; [reflexivity |]; split; [vm_compute; discriminate |];
         split; reflexivity).
    + reflexivity.
    + reflexivity.
Defined.

(** C5, as stated, fails for [max_users = 0]: the counter (0) has reached
    [max_users], yet a new user is admitted and counted, the limit in
    force being 10. *)
Lemma quota_zero_lets_in :
  max_users (row zeroQuota) = Some 0
  /\ activeUserCount zeroQuota = 0
  /\ sessionCache emptyWorld !! cacheKey 8 42 = None
  /\ bot_sessions emptyWorld !! (8%N, toString 42) = None
  /\ fst (tenantMiddleware 5000 42 zeroQuota emptyWorld)
     = (GateNext defaultSession, set_activeUserCount 1 zeroQuota).
Proof. repeat split. Qed.


(** ** Instance registry *)

Lemma stopSwallow_length (h : nat) (w : World) :
  length (bots (stopSwallow h w)) = length (bots w).
Proof.
  unfold stopSwallow. destruct (bots w !! h) as [b|]; [|reflexivity].
  destruct (bot_status b); simpl; try reflexivity. apply length_insert.
Qed.

Lemma stopSwallow_activeBots (h : nat) (w : World) :
  activeBots (stopSwallow h w) = activeBots w.
Proof.
  unfold stopSwallow. destruct (bots w !! h) as [b|]; [|reflexivity].
  now destruct (bot_status b).
Qed.

Lemma stopSwallow_lookup (h0 h : nat) (w : World) :
  bots (stopSwallow h0 w) !! h
  = (fun b => if decide (h = h0) then afterStop b else b) <$> bots w !! h.
Proof.
  unfold stopSwallow, afterStop, stopped.
  destruct (bots w !! h0) as [b0|] eqn:H0.
  - destruct (decide (h = h0)) as [-> | Hne].
    + rewrite H0.
      destruct b0 as [tn st]; destruct st;
        cbn [bots set_bots fmap option_fmap option_map bot_status bot_tenant
             set_bot_status];
        rewrite ?H0; try reflexivity.
      rewrite list_lookup_insert_eq by (now apply lookup_lt_Some in H0).
      reflexivity.
    + destruct (bot_status b0); cbn [bots set_bots];
        rewrite ?list_lookup_insert_ne by congruence;
        now destruct (bots w !! h).
  - destruct (decide (h = h0)) as [-> | Hne].
    + now rewrite H0.
    + now destruct (bots w !! h).
Qed.

Lemma stoppedOld_length (tid : N) (w : World) :
  length (bots (stoppedOld tid w)) = length (bots w).
Proof.
  unfold stoppedOld. destruct (activeBots w !! tid);
    [apply stopSwallow_length | reflexivity].
Qed.

Lemma stoppedOld_lookup (tid : N) (h : nat) (w : World) :
  bots (stoppedOld tid w) !! h
  = (fun b => if decide (activeBots w !! tid = Some h) then afterStop b else b)
    <$> bots w !! h.
Proof.
  unfold stoppedOld. destruct (activeBots w !! tid) as [h0|].
  - rewrite stopSwallow_lookup. destruct (bots w !! h) as [b|]; [|reflexivity].
    cbn. destruct (decide (h = h0)) as [-> | Hne].
    + now rewrite decide_True by reflexivity.
    + now rewrite decide_False by congruence.
  - destruct (bots w !! h) as [b|]; [|reflexivity]. cbn.
    now rewrite decide_False by discriminate.
Qed.

Lemma afterStop_tenant (b : Bot) : bot_tenant (afterStop b) = bot_tenant b.
Proof. reflexivity. Qed.

Lemma launchDone_length (h : nat) (ok : bool) (w : World) :
  length (bots (launchDone h ok w)) = length (bots w).
Proof.
  unfold launchDone. destruct (bots w !! h) as [b|]; [|reflexivity].
  destruct (bot_status b); simpl; try reflexivity. apply length_insert.
Qed.

Lemma launchDone_activeBots (h : nat) (ok : bool) (w : World) :
  activeBots (launchDone h ok w) = activeBots w.
Proof.
  unfold launchDone. destruct (bots w !! h) as [b|]; [|reflexivity].
  now destruct (bot_status b).
Qed.

Lemma launchDone_lookup (h0 h : nat) (ok : bool) (w : World) :
  bots (launchDone h0 ok w) !! h
  = (fun b => if decide (h = h0) then afterLaunch ok b else b) <$> bots w !! h.
Proof.
  unfold launchDone, afterLaunch.
  destruct (bots w !! h0) as [b0|] eqn:H0.
  - destruct (decide (h = h0)) as [-> | Hne].
    + rewrite H0.
      destruct b0 as [tn st]; destruct st;
        cbn [bots set_bots fmap option_fmap option_map bot_status bot_tenant
             set_bot_status];
        rewrite ?H0; try reflexivity.
      rewrite list_lookup_insert_eq by (now apply lookup_lt_Some in H0).
      reflexivity.
    + destruct (bot_status b0); cbn [bots set_bots];
        rewrite ?list_lookup_insert_ne by congruence;
        now destruct (bots w !! h).
  - destruct (decide (h = h0)) as [-> | Hne].
    + now rewrite H0.
    + now destruct (bots w !! h).
Qed.

Lemma afterLaunch_tenant (ok : bool) (b : Bot) :
  bot_tenant (afterLaunch ok b) = bot_tenant b.
Proof. unfold afterLaunch. now destruct (bot_status b). Qed.

(** Launches coming to their end leave the registry and the number of
    instances alone; an instance keeps its tenant, keeps its status unless
    its launch was under way, and is never stopped by them. *)
Lemma launchesDone_spec (done : list (nat * bool)) (w : World) :
  activeBots (launchesDone done w) = activeBots w
  /\ length (bots (launchesDone done w)) = length (bots w)
  /\ (forall h b, bots w !! h = Some b ->
        exists b', bots (launchesDone done w) !! h = Some b'
                   /\ bot_tenant b' = bot_tenant b
                   /\ (bot_status b <> Launching -> bot_status b' = bot_status b)
                   /\ (bot_status b = Launching -> bot_status b' <> Stopped)).
Proof.
  revert w. induction done as [|[h0 ok] rest IH]; intros w.
  - split; [reflexivity |]. split; [reflexivity |].
    intros h b Hb. exists b. repeat split; [exact Hb | congruence].
  - cbn [launchesDone fold_left fst snd].
    destruct (IH (launchDone h0 ok w)) as (Hreg & Hlen & Hbots).
    fold (launchesDone rest (launchDone h0 ok w)).
    unfold launchesDone in Hreg, Hlen, Hbots |- *.
    rewrite Hreg, Hlen, launchDone_activeBots, launchDone_length.
    split; [reflexivity |]. split; [reflexivity |].
    intros h b Hb.
    pose proof (launchDone_lookup h0 h ok w) as Hl. rewrite Hb in Hl.
    cbn [fmap option_fmap option_map] in Hl.
    destruct (Hbots h _ Hl) as (b' & Hb' & Hten & Hkeep & Hns).
    exists b'. split; [exact Hb' |].
    destruct (decide (h = h0)) as [-> | Hne].
    + rewrite afterLaunch_tenant in Hten. split; [exact Hten |].
      unfold afterLaunch in Hkeep, Hns.
      destruct (bot_status b) eqn:Hs.
      2-4: split;
        [intros _; rewrite Hkeep by (rewrite Hs; discriminate); exact Hs
        | discriminate].
      split; [intros H; now destruct H |]. intros _.
      destruct ok; cbn [bot_status set_bot_status] in Hkeep;
        rewrite Hkeep; discriminate.
    + split; [exact Hten |]. split; assumption.
Qed.

Lemma startTenantBot_spec (t : TenantRow) (w : World) :
  exists n,
    bots (startTenantBot t w)
    = bots (stoppedOld (id t) w) ++ [mkBot (mkTenant t n) Launching]
    /\ activeBots (startTenantBot t w)
       = <[id t := length (bots w)]> (activeBots w).
Proof.
  unfold startTenantBot, launchNew.
  pose proof (stoppedOld_length (id t) w) as Hlen.
  assert (Hreg : activeBots (stoppedOld (id t) w) = activeBots w).
  { unfold stoppedOld. destruct (activeBots w !! id t);
      [apply stopSwallow_activeBots | reflexivity]. }
  unfold getTenantUserCount, dbCall.
  destruct (mjoin (head (faults (stoppedOld (id t) w)))); simpl;
    rewrite Hlen, Hreg; eexists; split; reflexivity.
Qed.

(** What a start does to the instances there were: each keeps its place
    and its tenant; the one registered for the tenant is told to stop, the
    others are untouched. *)
Lemma startTenantBot_old (t : TenantRow) (w : World) (h : nat) (b : Bot) :
  bots w !! h = Some b ->
  bots (startTenantBot t w) !! h
  = Some (if decide (activeBots w !! id t = Some h) then afterStop b else b).
Proof.
  intros Hb. destruct (startTenantBot_spec t w) as (n & Hbots & _).
  rewrite Hbots, lookup_app_l
    by (rewrite stoppedOld_length; now apply lookup_lt_Some in Hb).
  now rewrite stoppedOld_lookup, Hb.
Qed.

Lemma startTenantBot_new (t : TenantRow) (w : World) :
  exists n,
    bots (startTenantBot t w) !! length (bots w)
    = Some (mkBot (mkTenant t n) Launching)
    /\ length (bots (startTenantBot t w)) = S (length (bots w)).
Proof.
  destruct (startTenantBot_spec t w) as (n & Hbots & _).
  exists n. rewrite Hbots. split.
  - rewrite <- (stoppedOld_length (id t) w).
    apply list_lookup_middle. reflexivity.
  - rewrite length_app, stoppedOld_length. simpl. lia.
Qed.

(** That the registry names only existing instances, each under the id of
    its tenant, holds in a fresh process and is kept by every start and by
    every launch coming to its end. *)
Lemma startTenantBot_indexed (t : TenantRow) (w : World) :
  registryIndexed w -> registryIndexed (startTenantBot t w).
Proof.
  intros Hreg k h Hk.
  destruct (startTenantBot_spec t w) as (n & _ & Hr).
  destruct (startTenantBot_new t w) as (m & Hnew & _).
  rewrite Hr in Hk.
  destruct (decide (k = id t)) as [-> | Hne].
  - rewrite lookup_insert_eq in Hk. injection Hk as <-.
    eexists. split; [exact Hnew | reflexivity].
  - rewrite lookup_insert_ne in Hk by congruence.
    destruct (Hreg k h Hk) as (b & Hbh & Hid).
    rewrite (startTenantBot_old t w _ _ Hbh).
    eexists. split; [reflexivity |].
    destruct (decide _); [now rewrite afterStop_tenant | exact Hid].
Qed.

Lemma launchDone_indexed (h0 : nat) (ok : bool) (w : World) :
  registryIndexed w -> registryIndexed (launchDone h0 ok w).
Proof.
  intros Hreg k h Hk. rewrite launchDone_activeBots in Hk.
  destruct (Hreg k h Hk) as (b & Hbh & Hid).
  rewrite launchDone_lookup, Hbh. cbn.
  eexists. split; [reflexivity |].
  destruct (decide _); [now rewrite afterLaunch_tenant | exact Hid].
Qed.

Lemma runBots_indexed (events : list BotEvent) (w : World) :
  registryIndexed w -> registryIndexed (runBots events w).
Proof.
  revert w. induction events as [|e rest IH]; intros w Hw; [exact Hw |].
  cbn [runBots fold_left]. apply IH.
  destruct e as [t | h ok]; cbn [botStep];
    [now apply startTenantBot_indexed | now apply launchDone_indexed].
Qed.

(** C7. Two starts in succession for the same tenant id, whatever launches
    come to their end in between, leave one registered instance for that
    id, the one built by the second start: the registry holds it under the
    id, has not grown, and (the registry having named only existing
    instances, each under its tenant's id) holds no other instance of that
    tenant.  The second start finds the first instance registered and
    calls its [stop]: an instance that polls is stopped; on one whose
    launch is still under way or has failed [stop] throws, the throw is
    swallowed and the instance is left as it is.  Either way the entry is
    replaced. *)
Theorem start_twice (t1 t2 : TenantRow) (between : list (nat * bool))
  (w : World) :
  id t2 = id t1 ->
  let w1 := startTenantBot t1 w in
  let w1' := launchesDone between w1 in
  let w2 := startTenantBot t2 w1' in
  activeBots w2 !! id t1 = Some (length (bots w1))
  /\ size (activeBots w2) = size (activeBots w1)
  /\ (registryIndexed w ->
      forall k h b, activeBots w2 !! k = Some h -> bots w2 !! h = Some b ->
        id (row (bot_tenant b)) = id t1 -> h = length (bots w1))
  /\ (exists b2, bots w2 !! length (bots w1) = Some b2
                 /\ row (bot_tenant b2) = t2
                 /\ bot_status b2 = Launching)
  /\ (exists b1 b1', bots w1' !! length (bots w) = Some b1
                     /\ bots w2 !! length (bots w) = Some b1'
                     /\ row (bot_tenant b1') = t1
                     /\ bot_status b1 <> Stopped
                     /\ bot_status b1' = stopped (bot_status b1))
  /\ length (bots w2) = S (S (length (bots w))).
Proof.
  intros Hid w1 w1' w2.
  destruct (startTenantBot_spec t1 w) as (n1 & _ & Hr1). fold w1 in Hr1.
  destruct (startTenantBot_new t1 w) as (m1 & Hfirst & Hlen1).
  fold w1 in Hfirst, Hlen1.
  destruct (launchesDone_spec between w1) as (Hreg' & Hlen' & Hkeep').
  fold w1' in Hreg', Hlen', Hkeep'.
  destruct (startTenantBot_spec t2 w1') as (n2 & _ & Hr2).
  fold w2 in Hr2. rewrite Hid, Hlen', Hreg' in Hr2.
  destruct (startTenantBot_new t2 w1') as (m2 & Hsecond & Hlen2).
  fold w2 in Hsecond, Hlen2. rewrite Hlen' in Hsecond, Hlen2.
  assert (Hreg1 : activeBots w1 !! id t1 = Some (length (bots w))).
  { rewrite Hr1. apply lookup_insert_eq. }
  destruct (Hkeep' _ _ Hfirst) as (b1 & Hb1 & Hten1 & _ & Hns1).
  assert (Hold : bots w2 !! length (bots w) = Some (afterStop b1)).
  { unfold w2. rewrite (startTenantBot_old t2 w1' _ _ Hb1).
    now rewrite Hid, Hreg', decide_True by exact Hreg1. }
  split; [rewrite Hr2; apply lookup_insert_eq |].
  split.
  { rewrite Hr2. rewrite <- (insert_id _ _ _ Hreg1) at 2.
    rewrite <- !(insert_delete_eq (activeBots w1)).
    rewrite !map_size_insert_None by apply lookup_delete_eq. reflexivity. }
  split.
  { intros Hidx k h b Hk Hb Hten. rewrite Hr2 in Hk.
    destruct (decide (k = id t1)) as [-> | Hne].
    { rewrite lookup_insert_eq in Hk. congruence. }
    exfalso. rewrite lookup_insert_ne in Hk by congruence.
    rewrite Hr1, lookup_insert_ne in Hk by congruence.
    destruct (Hidx k h Hk) as (b0 & Hb0 & Hk0).
    pose proof (startTenantBot_old t1 w _ _ Hb0) as H1. fold w1 in H1.
    destruct (Hkeep' _ _ H1) as (b0' & Hb0' & Hten0 & _).
    pose proof (startTenantBot_old t2 w1' _ _ Hb0') as H2. fold w2 in H2.
    rewrite Hb in H2. injection H2 as ->.
    apply Hne. rewrite <- Hk0, <- Hten.
    assert (Ht : bot_tenant b0' = bot_tenant b0).
    { rewrite Hten0.
      destruct (decide (activeBots w !! id t1 = Some h)); reflexivity. }
    destruct (decide (activeBots w1' !! id t2 = Some h));
      [rewrite afterStop_tenant |]; now rewrite Ht. }
  split.
  { eexists. split; [exact Hsecond |]. split; reflexivity. }
  split.
  { exists b1, (afterStop b1). split; [exact Hb1 |]. split; [exact Hold |].
    split; [rewrite afterStop_tenant, Hten1; reflexivity |].
    split; [apply Hns1; reflexivity | reflexivity]. }
  rewrite Hlen2, Hlen1. reflexivity.
Qed.

Lemma start_twice_witness :
  id acme = id acme
  /\ activeBots (startTenantBot acme
                   (launchesDone [(0%nat, true)] (startTenantBot acme emptyWorld)))
     !! 7%N = Some 1%nat
  /\ size (activeBots (startTenantBot acme
                         (launchesDone [(0%nat, true)]
                                    (startTenantBot acme emptyWorld)))) = 1%nat.
Proof.
  split; [reflexivity |].
  destruct (start_twice acme acme [(0%nat, true)] emptyWorld eq_refl)
    as (Hreg & Hsize & _).
  split; [exact Hreg | exact Hsize].
Defined.

(** ** Owner wizard *)

Lemma tenants_saveSession (now : Z) (t : N) (u : Z) (s : Session) (w : World) :
  tenants (saveSession now t u s w) = tenants w.
Proof.
  unfold saveSession, upsertSession, dbCall.
  now destruct (mjoin (head (faults _))).
Qed.

Lemma trimStart_app (l m : jsstring) (x : N) :
  isWhiteSpace x = false ->
  trimStart (l ++ x :: m) = trimStart l ++ x :: m.
Proof.
  intros Hx. induction l as [|c l IH]; simpl.
  - now rewrite Hx.
  - destruct (isWhiteSpace c); [exact IH | reflexivity].
Qed.

Lemma startsWith_prefix (p s : jsstring) :
  startsWith p s = true -> exists r, s = p ++ r.
Proof.
  revert s. induction p as [|a p IH]; intros s H.
  - now exists s.
  - destruct s as [|b s]; [discriminate |]. simpl in H.
    destruct (decide (a = b)) as [<-|]; [|discriminate].
    destruct (IH _ H) as [r ->]. now exists r.
Qed.

(** A text that starts with "sk-" is no slash command and keeps its prefix
    when trimmed. *)
Lemma sk_prefix_trim (text : jsstring) :
  startsWith (lit "sk-") text = true ->
  startsWith (lit "/") text = false
  /\ startsWith (lit "sk-") (trim text) = true.
Proof.
  intros H. destruct (startsWith_prefix _ _ H) as [rest ->].
  split; [reflexivity |].
  unfold trim. change (lit "sk-" ++ rest) with (115%N :: 107%N :: 45%N :: rest).
  change (trimStart (115%N :: 107%N :: 45%N :: rest))
    with (115%N :: 107%N :: 45%N :: rest).
  change (rev (115%N :: 107%N :: 45%N :: rest))
    with (((rev rest ++ [45%N]) ++ [107%N]) ++ [115%N]).
  rewrite <- !app_assoc. simpl app.
  rewrite trimStart_app by reflexivity.
  rewrite rev_app_distr. reflexivity.
Qed.

(** C8 (as amended). While the owner's session is at the stage
    OWNER_WAIT_OPENAI_KEY, a text that is no slash command and does not
    start with "sk-" once trimmed is answered with the "invalid key" reply
    and nothing else changes: same stage, same session, same tenant object,
    same store.  A text that starts with "sk-" once trimmed (every text
    that starts with "sk-" does) moves the stage to OWNER_WAIT_OPENAI_MODEL,
    keeps the key in the session only and leaves the tenants table and the
    tenant object as they were. *)
Theorem openai_key_step (now chatId : Z) (text : jsstring) (c : Ctx) :
  isOwner chatId (ctx_tenant c) = true ->
  stage (ctx_session c) = Some (lit "OWNER_WAIT_OPENAI_KEY") ->
  (startsWith (lit "/") text = false ->
   startsWith (lit "sk-") (trim text) = false ->
   ownerTextHandler now chatId text c = (Handled, reply InvalidKey c))
  /\ (startsWith (lit "/") text = false ->
      startsWith (lit "sk-") (trim text) = true ->
      keyAccepted now chatId text c)
  /\ (startsWith (lit "sk-") text = true -> keyAccepted now chatId text c).
Proof.
  intros Hown Hstage.
  assert (Hcancel : forall t, startsWith (lit "/") t = false ->
                              streq t (lit "/cancelar") = false).
  { intros t Ht. unfold streq. apply bool_decide_eq_false_2. intros ->.
    vm_compute in Ht. discriminate. }
  assert (Haccept : startsWith (lit "/") text = false ->
                    startsWith (lit "sk-") (trim text) = true ->
                    keyAccepted now chatId text c).
  { intros Hslash Hsk. unfold keyAccepted, ownerTextHandler.
    rewrite Hown, Hslash, (Hcancel _ Hslash), Hstage, Hsk.
    eexists. split; [reflexivity |].
    unfold save. simpl. rewrite tenants_saveSession. repeat split. }
  split; [| split].
  - intros Hslash Hsk. unfold ownerTextHandler.
    rewrite Hown, Hslash, (Hcancel _ Hslash), Hstage, Hsk. reflexivity.
  - exact Haccept.
  - intros Hsk. destruct (sk_prefix_trim _ Hsk). now apply Haccept.
Qed.

Lemma openai_key_step_witness :
  ownerTextHandler 5000 900 (lit "my key")
                   (wizardCtx "OWNER_WAIT_OPENAI_KEY" None None)
  = (Handled, reply InvalidKey (wizardCtx "OWNER_WAIT_OPENAI_KEY" None None))
  /\ keyAccepted 5000 900 (lit "sk-abc")
                 (wizardCtx "OWNER_WAIT_OPENAI_KEY" None None).
Proof.
  split.
  - apply (proj1 (openai_key_step 5000 900 (lit "my key")
                    (wizardCtx "OWNER_WAIT_OPENAI_KEY" None None)
                    eq_refl eq_refl)); reflexivity.
  - apply (proj2 (proj2 (openai_key_step 5000 900 (lit "sk-abc")
                    (wizardCtx "OWNER_WAIT_OPENAI_KEY" None None)
                    eq_refl eq_refl))). reflexivity.
Defined.

(** C8, as stated, fails: "/cancelar" does not start with "sk-", yet it is
    answered with the cancellation reply and the dashboard, and the stage
    becomes READY. *)
Lemma key_stage_cancel_resets :
  startsWith (lit "sk-") (lit "/cancelar") = false
  /\ stage (ctx_session
             (snd (ownerTextHandler 5000 900 (lit "/cancelar")
                     (wizardCtx "OWNER_WAIT_OPENAI_KEY" None None))))
     = Some (lit "READY")
  /\ ctx_out (snd (ownerTextHandler 5000 900 (lit "/cancelar")
                     (wizardCtx "OWNER_WAIT_OPENAI_KEY" None None)))
     = [OperationCancelled;
        OwnerDashboard Vencido 0 1 false false DEFAULT_MODEL].
Proof. repeat split. Qed.

(** The cancel token: the stage becomes READY, every other property of the
    session, the scratch fields included, is kept and saved as it is; the
    tenants table is not written. *)
Lemma cancel_keeps_scratch (now chatId : Z) (c : Ctx) :
  isOwner chatId (ctx_tenant c) = true ->
  let c' := snd (ownerTextHandler now chatId (lit "/cancelar") c) in
  ctx_session c' = set_stage (Some (lit "READY")) (ctx_session c)
  /\ temp_sync_id (ctx_session c') = temp_sync_id (ctx_session c)
  /\ temp_openai_key (ctx_session c') = temp_openai_key (ctx_session c)
  /\ tenants (ctx_world c') = tenants (ctx_world c).
Proof.
  intros Hown. unfold ownerTextHandler. rewrite Hown.
  change (startsWith (lit "/") (lit "/cancelar")
          && negb (streq (lit "/cancelar") (lit "/cancelar"))) with false.
  change (streq (lit "/cancelar") (lit "/cancelar")) with true.
  cbn [negb snd]. unfold renderOwnerDashboard.
  assert (Hown' : isOwner chatId
            (ctx_tenant (reply OperationCancelled
               (save now chatId
                  (with_session (set_stage (Some (lit "READY"))) c)))) = true)
    by exact Hown.
  rewrite Hown'. cbn [negb]. simpl.
  rewrite tenants_saveSession. repeat split.
Qed.

(** C9: what the code does.  The owner cancels the SyncPay wizard after
    the first step: the stage is READY, but the client id typed before is
    still in the session, as cached and as stored in the session table.
    The owner cancels the AI wizard after the key step and then presses a
    model button of the abandoned dialog: the key of the cancelled flow is
    written to the tenant's row. *)
Theorem cancel_leaves_scratch :
  (stage (ctx_session cancelledSyncPay) = Some (lit "READY")
   /\ temp_sync_id (ctx_session cancelledSyncPay) = Some (lit "client-1")
   /\ (temp_sync_id <$>
         bot_sessions (ctx_world cancelledSyncPay) !! (7%N, lit "900"))
      = Some (Some (lit "client-1"))
   /\ tenants (ctx_world cancelledSyncPay) !! 7%N = Some acme)
  /\ (stage (ctx_session cancelledAiWizard) = Some (lit "READY")
      /\ temp_openai_key (ctx_session cancelledAiWizard) = Some (lit "sk-abc")
      /\ tenants (ctx_world cancelledAiWizard) !! 7%N = Some acme
      /\ match staleModelButton with
         | Some c =>
             (openai_api_key <$> tenants (ctx_world c) !! 7%N)
             = Some (Some (lit "sk-abc"))
             /\ ctx_out c = [AiConfigured (lit "gpt-4o");
                             OwnerDashboard Vencido 0 1 false true (lit "gpt-4o")]
         | None => False
         end).
Proof. vm_compute. repeat split. Qed.

(** ** Master admin bot *)

(** The text handler ends the chain on every text message. *)
Lemma masterTextHandler_ends (chatId : Z) (text : jsstring) (s : MasterState) :
  fst (masterTextHandler chatId (TextMessage text) s) = Handled.
Proof.
  unfold masterTextHandler.
  destruct (masterSessions (m_ran TextHandler s) !! chatId) as [session|];
    [|reflexivity].
  repeat (match goal with |- context [if ?b then _ else _] => destruct b end);
    reflexivity.
Qed.

(** With an operator configured, an update from another chat that is not
    the text "/meu_id" stops at the security middleware: no handler runs,
    nothing is sent and no master session changes. *)
Lemma master_denies_others (adminId : jsstring) (chatId : Z) (u : Update)
  (s : MasterState) :
  adminId <> [] ->
  toString chatId <> adminId ->
  u <> TextMessage (lit "/meu_id") ->
  masterBot (Some adminId) chatId u s = s.
Proof.
  intros Hcfg Hne Hu. unfold masterBot, masterChain, runChain, masterSecurity.
  assert (Hm : match u with
               | TextMessage text => streq text (lit "/meu_id")
               | CallbackQuery _ => false
               end = false).
  { destruct u as [text|]; [|reflexivity].
    unfold streq. apply bool_decide_eq_false_2. congruence. }
  rewrite Hm. destruct adminId as [|a adminId]; [congruence |].
  simpl truthyStr. cbn [negb]. unfold streq.
  rewrite bool_decide_eq_false_2 by exact Hne. reflexivity.
Qed.

(** With no operator configured, every update but the text "/meu_id" gets
    the configuration warning and no handler runs. *)
Lemma master_unconfigured (chatId : Z) (u : Update) (s : MasterState) :
  u <> TextMessage (lit "/meu_id") ->
  masterBot None chatId u s = m_reply AdminIdNotConfigured s.
Proof.
  intros Hu. unfold masterBot, masterChain, runChain, masterSecurity.
  assert (Hm : match u with
               | TextMessage text => streq text (lit "/meu_id")
               | CallbackQuery _ => false
               end = false).
  { destruct u as [text|]; [|reflexivity].
    unfold streq. apply bool_decide_eq_false_2. congruence. }
  now rewrite Hm.
Qed.

(** The text "/meu_id" passes the security middleware for every chat and
    every configuration, and is then taken by the text handler: for a chat
    without a master session nothing is sent. *)
Lemma meu_id_swallowed (adminId : option jsstring) (chatId : Z) (s : MasterState) :
  masterSessions s !! chatId = None ->
  masterBot adminId chatId (TextMessage (lit "/meu_id")) s = m_ran TextHandler s.
Proof.
  intros Hs. unfold masterBot, masterChain, runChain, masterSecurity.
  change (streq (lit "/meu_id") (lit "/meu_id")) with true. cbv iota.
  unfold command at 1.
  change (bool_decide (commandOf (lit "/meu_id") = Some (lit "start")))
    with false.
  cbv iota. unfold action. cbv iota. unfold masterTextHandler.
  change (masterSessions (m_ran TextHandler s)) with (masterSessions s).
  now rewrite Hs.
Qed.

Lemma masterSecurity_cases (adminId : option jsstring) (chatId : Z) (u : Update)
  (s : MasterState) :
  masterSecurity adminId chatId u s = (CallNext, s)
  \/ masterSecurity adminId chatId u s = (Handled, s)
  \/ masterSecurity adminId chatId u s = (Handled, m_reply AdminIdNotConfigured s).
Proof.
  unfold masterSecurity.
  destruct (match u with
            | TextMessage text => streq text (lit "/meu_id")
            | CallbackQuery _ => false
            end); [now left |].
  destruct (negb (truthyStr adminId)); [now right; right |].
  destruct (negb (streq (toString chatId) (default [] adminId)));
    [now right; left | now left].
Qed.

(** No update at all reaches the handler of the command. *)
Lemma meu_id_unreachable (adminId : option jsstring) (chatId : Z) (u : Update)
  (s : MasterState) :
  CommandMeuId ∉ ran s ->
  CommandMeuId ∉ ran (masterBot adminId chatId u s).
Proof.
  intros Hs. unfold masterBot, masterChain, runChain.
  destruct (masterSecurity_cases adminId chatId u s) as [-> | [-> | ->]];
    [| exact Hs | exact Hs].
  destruct u as [text | cbData].
  - unfold command at 1.
    destruct (bool_decide (commandOf text = Some (lit "start"))).
    + simpl. rewrite elem_of_app, list_elem_of_singleton. intros [?|?];
        [contradiction | discriminate].
    + unfold action. cbv iota. unfold masterTextHandler.
      destruct (masterSessions (m_ran TextHandler s) !! chatId);
        repeat (match goal with
                | |- context [if ?b then _ else _] => destruct b
                end);
        simpl; rewrite ?elem_of_app, ?list_elem_of_singleton;
        intuition discriminate.
  - unfold command at 1. cbv iota. unfold action.
    repeat (match goal with
            | |- context [match triggered ?t ?d with _ => _ end] =>
                destruct (triggered t d)
            end;
            try (simpl; rewrite ?elem_of_app, ?list_elem_of_singleton;
                 intuition discriminate)).
Qed.

(** C10: what the code does.  A chat that is not the operator sends the
    text "/meu_id": the only handler that runs is the text handler, and no
    reply is sent; the handler registered for the command, which would
    answer with the sender's id, is not reached. *)
Theorem meu_id_not_answered :
  masterBot (Some (lit "111")) 222 (TextMessage (lit "/meu_id")) noMasterSessions
  = mkMasterState ∅ [TextHandler] []
  /\ masterBot None 222 (TextMessage (lit "/meu_id")) noMasterSessions
     = mkMasterState ∅ [TextHandler] []
  /\ meuIdHandler 222 (TextMessage (lit "/meu_id")) noMasterSessions
     = (Handled, mkMasterState ∅ [CommandMeuId] [YourId 222]).
Proof.
  split; [| split].
  - now rewrite meu_id_swallowed.
  - now rewrite meu_id_swallowed.
  - reflexivity.
Qed.

(** * Further properties *)

(** ** Decimal numerals *)

Lemma lit_String (c : ascii) (s : string) :
  lit (String c s) = N_of_ascii c :: lit s.
Proof. reflexivity. Qed.

Lemma digitsToN_app (d : jsstring) (k : N) :
  digitsToN (d ++ [k]) = (digitsToN d * 10 + (k - 48))%N.
Proof. unfold digitsToN. now rewrite fold_left_app. Qed.

Lemma pretty_N_char_digit (m : N) :
  (m < 10)%N ->
  isDigit (N_of_ascii (pretty_N_char m)) = true
  /\ (N_of_ascii (pretty_N_char m) - 48)%N = m.
Proof.
  intros H.
  assert (m = 0 \/ m = 1 \/ m = 2 \/ m = 3 \/ m = 4 \/ m = 5 \/ m = 6
          \/ m = 7 \/ m = 8 \/ m = 9)%N as Hm by lia.
  repeat (destruct Hm as [-> | Hm]; [split; reflexivity |]).
  subst m. split; reflexivity.
Qed.

(** What [pretty_N_go] puts in front of its accumulator: the digits of
    [x], most significant first. *)
Lemma pretty_N_go_digits (x : N) :
  forall s, exists d,
    lit (pretty_N_go x s) = d ++ lit s
    /\ forallb isDigit d = true
    /\ digitsToN d = x
    /\ ((0 < x)%N -> d <> []).
Proof.
  induction (N.lt_wf_0 x) as [x _ IH]. intros s.
  destruct (N.eq_dec x 0%N) as [-> | Hx].
  - exists []. rewrite pretty_N_go_0. repeat split. intros H; lia.
  - assert (0 < x)%N as Hpos by lia.
    rewrite pretty_N_go_step by exact Hpos.
    destruct (IH (x `div` 10)%N (N.div_lt x 10%N Hpos eq_refl)
                 (String (pretty_N_char (x `mod` 10)) s))
      as (d & Hd & Hdig & Hval & _).
    destruct (pretty_N_char_digit (x `mod` 10)%N) as [Hc Hv];
      [apply N.mod_lt; lia |].
    exists (d ++ [N_of_ascii (pretty_N_char (x `mod` 10))]).
    rewrite Hd, lit_String, <- app_assoc. split; [reflexivity |].
    split; [| split].
    + rewrite forallb_app, Hdig. simpl. now rewrite Hc.
    + rewrite digitsToN_app, Hval, Hv.
      rewrite (N.div_mod x 10%N) at 3 by lia. lia.
    + intros _ H. now apply app_eq_nil in H as [_ H].
Qed.

(** The numeral of a tenant id: digits only, at least one, and read back
    by [castId]. *)
Lemma toStringN_digits (n : N) :
  forallb isDigit (toStringN n) = true
  /\ toStringN n <> []
  /\ castId (toStringN n) = Some n.
Proof.
  assert (H : forallb isDigit (toStringN n) = true
              /\ toStringN n <> [] /\ digitsToN (toStringN n) = n).
  { unfold toStringN, pretty, pretty_N.
    destruct (decide (n = 0%N)) as [-> | Hn].
    - repeat split. discriminate.
    - destruct (pretty_N_go_digits n "") as (d & Hd & Hdig & Hval & Hne).
      change (lit "") with (@nil N) in Hd. rewrite app_nil_r in Hd.
      rewrite Hd. repeat split; [exact Hdig | apply Hne; lia | exact Hval]. }
  destruct H as (Hdig & Hne & Hval). repeat split; [exact Hdig | exact Hne |].
  unfold castId. destruct (toStringN n) eqn:E; [congruence |].
  now rewrite Hdig, Hval.
Qed.

(** ** Session store: keys, staleness, failures *)

Lemma toStringN_inj (a b : N) : toStringN a = toStringN b -> a = b.
Proof. intros H. apply lit_inj in H. now apply pretty_N_inj in H. Qed.

Lemma digits_then_underscore (d1 d2 r1 r2 : jsstring) :
  forallb isDigit d1 = true -> forallb isDigit d2 = true ->
  d1 ++ 95%N :: r1 = d2 ++ 95%N :: r2 -> d1 = d2 /\ r1 = r2.
Proof.
  revert d2. induction d1 as [|a d1 IH]; intros [|b d2] H1 H2 H; simpl in *.
  - now injection H.
  - injection H as <- _. discriminate.
  - injection H as -> _. discriminate.
  - injection H as -> H.
    apply andb_prop in H1 as [_ H1]. apply andb_prop in H2 as [_ H2].
    destruct (IH d2 H1 H2 H) as [-> ->]. now split.
Qed.

Lemma cacheKey_pair (t t' : N) (u u' : Z) :
  cacheKey t u = cacheKey t' u' -> t = t' /\ u = u'.
Proof.
  unfold cacheKey. intros H.
  change (lit "_" ++ toString u) with (95%N :: toString u) in H.
  change (lit "_" ++ toString u') with (95%N :: toString u') in H.
  apply digits_then_underscore in H as [Ht Hu];
    try apply toStringN_digits.
  split; [now apply toStringN_inj | now apply toString_inj].
Qed.

(** X1. The cache key determines the tenant and the chat: two pairs with
    the same key are the same pair, so the one cache shared by all bots
    never serves a session of one tenant or chat to another. *)
Theorem cacheKey_injective (t t' : N) (u u' : Z) :
  cacheKey t u = cacheKey t' u' -> t = t' /\ u = u'.
Proof. apply cacheKey_pair. Qed.

Lemma cacheKey_injective_witness :
  cacheKey 7 (-42) = cacheKey 7 (-42) /\ 7%N = 7%N /\ (-42) = (-42).
Proof.
  split; [reflexivity |].
  apply (cacheKey_injective 7 7 (-42) (-42)). reflexivity.
Defined.

(** X2. [saveSession] for one (tenant, chat) pair changes neither the
    cache entry nor the stored row of any other pair. *)
Theorem saveSession_isolated (now : Z) (t t' : N) (u u' : Z) (S : Session)
  (w : World) :
  (t', u') <> (t, u) ->
  sessionCache (saveSession now t u S w) !! cacheKey t' u'
  = sessionCache w !! cacheKey t' u'
  /\ bot_sessions (saveSession now t u S w) !! (t', toString u')
     = bot_sessions w !! (t', toString u').
Proof.
  intros Hne. unfold saveSession. split.
  - rewrite sessionCache_upsertSession. simpl.
    apply lookup_insert_ne. intros H.
    apply cacheKey_pair in H as [-> ->]. now apply Hne.
  - unfold upsertSession, dbCall.
    destruct (mjoin (head (faults _))); simpl; [reflexivity |].
    apply lookup_insert_ne. intros [= -> H].
    apply toString_inj in H as ->. now apply Hne.
Qed.

Lemma saveSession_isolated_witness :
  (7%N, 43) <> (7%N, 42)
  /\ bot_sessions (saveSession 1000 7 42 defaultSession oldWorld)
     !! (7%N, toString 43) = None.
Proof.
  split; [discriminate |].
  rewrite (proj2 (saveSession_isolated 1000 7 7 42 43 defaultSession oldWorld
                    ltac:(discriminate))).
  reflexivity.
Defined.

Lemma getSession_reads_row (now : Z) (t : N) (u : Z) (w : World)
  (stored : Session) :
  faults w = [] ->
  cacheHit now (sessionCache w !! cacheKey t u) = None ->
  bot_sessions w !! (t, toString u) = Some stored ->
  getSession now t u w
  = (Ok (autoHeal stored),
     cacheSet (cacheKey t u) (autoHeal stored) now
              (logged (SelectSession t (toString u)) w)).
Proof.
  intros Hf Hmiss Hrow. unfold getSession. rewrite Hmiss.
  unfold selectSession. rewrite (dbCall_healthy _ _ Hf).
  change (bot_sessions (logged (SelectSession t (toString u)) w))
    with (bot_sessions w).
  now rewrite Hrow.
Qed.

Lemma cacheHit_stale (now : Z) (c : CacheEntry) :
  CACHE_TTL <= now - timestamp c -> cacheHit now (Some c) = None.
Proof.
  intros Hold. unfold cacheHit.
  now destruct (Z.ltb_spec (now - timestamp c) CACHE_TTL); [lia |].
Qed.

(** X3. A cache entry that is [CACHE_TTL] old or older is not used: the
    row is read from the store again, healed, returned and cached with
    the time of the read. *)
Theorem getSession_stale_entry (now : Z) (t : N) (u : Z) (w : World)
  (c : CacheEntry) (stored : Session) :
  faults w = [] ->
  sessionCache w !! cacheKey t u = Some c ->
  CACHE_TTL <= now - timestamp c ->
  bot_sessions w !! (t, toString u) = Some stored ->
  getSession now t u w
  = (Ok (autoHeal stored),
     cacheSet (cacheKey t u) (autoHeal stored) now
              (logged (SelectSession t (toString u)) w)).
Proof.
  intros Hf Hc Hold Hrow. apply getSession_reads_row; [exact Hf | | exact Hrow].
  rewrite Hc. now apply cacheHit_stale.
Qed.

Lemma getSession_stale_entry_witness :
  fst (getSession 400000 7 42
         (cacheSet (cacheKey 7 42) defaultSession 100000 oldWorld))
  = Ok oldSession.
Proof.
  rewrite (getSession_stale_entry 400000 7 42
             (cacheSet (cacheKey 7 42) defaultSession 100000 oldWorld)
             (mkCacheEntry defaultSession 100000) oldSession
             eq_refl ltac:(vm_compute; reflexivity)
             ltac:(vm_compute; discriminate) ltac:(vm_compute; reflexivity)).
  reflexivity.
Defined.

(** X4. When the cache does not answer and the read fails with an error
    other than the not-found one, [getSession] throws that error; nothing
    is cached and no row is written. *)
Theorem getSession_read_error (now : Z) (t : N) (u : Z) (w : World)
  (e : DbError) (rest : list (option DbError)) :
  cacheHit now (sessionCache w !! cacheKey t u) = None ->
  faults w = Some e :: rest ->
  code e <> lit "PGRST116" ->
  getSession now t u w = (Throw e, logged (SelectSession t (toString u)) w)
  /\ sessionCache (snd (getSession now t u w)) = sessionCache w
  /\ bot_sessions (snd (getSession now t u w)) = bot_sessions w.
Proof.
  intros Hc Hf Hcode.
  assert (H : getSession now t u w
              = (Throw e, logged (SelectSession t (toString u)) w)).
  { unfold getSession. rewrite Hc. unfold selectSession, dbCall.
    rewrite Hf. simpl. unfold streq.
    now rewrite bool_decide_eq_false_2. }
  rewrite H. repeat split.
Qed.

Lemma getSession_read_error_witness :
  fst (getSession 1000 7 42 failingWorld) = Throw connectionFailure.
Proof.
  rewrite (proj1 (getSession_read_error 1000 7 42 failingWorld
             connectionFailure []
             ltac:(vm_compute; reflexivity) eq_refl
             ltac:(vm_compute; discriminate))).
  reflexivity.
Defined.

(** X5. A failed upsert is silent.  [saveSession] still puts the session
    in the cache, the table keeps the row it had, and once the cache entry
    is [CACHE_TTL] old a read returns that older row: the saved session is
    lost. *)
Theorem saveSession_failed_upsert (now now' : Z) (t : N) (u : Z)
  (S old : Session) (w : World) (e : DbError) :
  faults w = [Some e] ->
  bot_sessions w !! (t, toString u) = Some old ->
  CACHE_TTL <= now' - now ->
  sessionCache (saveSession now t u S w) !! cacheKey t u
  = Some (mkCacheEntry S now)
  /\ bot_sessions (saveSession now t u S w) = bot_sessions w
  /\ fst (getSession now' t u (saveSession now t u S w)) = Ok (autoHeal old).
Proof.
  intros Hf Hrow Hold.
  assert (Hw : saveSession now t u S w
               = logged (UpsertSession t (toString u) S)
                        (cacheSet (cacheKey t u) S now w)).
  { unfold saveSession, upsertSession, dbCall. simpl. now rewrite Hf. }
  rewrite Hw. split; [apply lookup_insert_eq |]. split; [reflexivity |].
  erewrite getSession_reads_row; [reflexivity | | | exact Hrow].
  - simpl. now rewrite Hf.
  - change (cacheHit now' (<[cacheKey t u := mkCacheEntry S now]>
                             (sessionCache w) !! cacheKey t u) = None).
    rewrite lookup_insert_eq. now apply cacheHit_stale.
Qed.

Lemma saveSession_failed_upsert_witness :
  fst (getSession 400000 7 42 (saveSession 1000 7 42 defaultSession failingWorld))
  = Ok oldSession.
Proof.
  rewrite (proj2 (proj2 (saveSession_failed_upsert 1000 400000 7 42
             defaultSession oldSession failingWorld connectionFailure
             eq_refl ltac:(vm_compute; reflexivity)
             ltac:(vm_compute; discriminate)))).
  reflexivity.
Defined.

(** ** The user counter and the session table *)

Lemma bot_sessions_saveSession_healthy (now : Z) (t : N) (u : Z) (S : Session)
  (w : World) :
  faults w = [] ->
  bot_sessions (saveSession now t u S w)
  = <[(t, toString u) := S]> (bot_sessions w).
Proof.
  intros Hf. unfold saveSession, upsertSession.
  now rewrite dbCall_healthy by exact Hf.
Qed.

Lemma getTenantUserCount_healthy (t : N) (w : World) :
  faults w = [] ->
  getTenantUserCount t w = (sessionRows t w, logged (CountSessions t) w).
Proof.
  intros Hf. unfold getTenantUserCount. now rewrite (dbCall_healthy _ _ Hf).
Qed.

Lemma sessionRows_new_row (now : Z) (t : N) (u : Z) (S : Session) (w : World) :
  faults w = [] ->
  bot_sessions w !! (t, toString u) = None ->
  sessionRows t (saveSession now t u S w) = sessionRows t w + 1.
Proof.
  intros Hf Hnone. unfold sessionRows.
  rewrite (bot_sessions_saveSession_healthy _ _ _ _ _ Hf).
  rewrite map_filter_insert_True by reflexivity.
  rewrite map_size_insert_None; [lia |].
  apply map_lookup_filter_None. now left.
Qed.

(** X6. With the store answering, saving the session of a pair that has
    no row adds one to the number of rows [getTenantUserCount] counts for
    that tenant; saving over an existing row, or for another tenant,
    leaves the number as it was. *)
Theorem sessionRows_saveSession (now : Z) (t t' : N) (u : Z) (S : Session)
  (w : World) :
  faults w = [] ->
  (bot_sessions w !! (t, toString u) = None ->
   sessionRows t (saveSession now t u S w) = sessionRows t w + 1)
  /\ (is_Some (bot_sessions w !! (t, toString u)) ->
      sessionRows t (saveSession now t u S w) = sessionRows t w)
  /\ (t' <> t ->
      sessionRows t' (saveSession now t u S w) = sessionRows t' w).
Proof.
  intros Hf. split; [now apply sessionRows_new_row |].
  unfold sessionRows.
  rewrite (bot_sessions_saveSession_healthy _ _ _ _ _ Hf).
  split.
  - intros Hsome. rewrite map_filter_insert_True by reflexivity.
    destruct Hsome as [old Hold].
    rewrite map_size_insert_Some; [reflexivity |].
    exists old. apply map_lookup_filter_Some. now split.
  - intros Hne. rewrite map_filter_insert_not; [reflexivity |].
    intros y Hy. simpl in Hy. congruence.
Qed.

Lemma sessionRows_saveSession_witness :
  faults oldWorld = []
  /\ sessionRows 7 (saveSession 1000 7 43 defaultSession oldWorld) = 2.
Proof.
  split; [reflexivity |].
  rewrite (proj1 (sessionRows_saveSession 1000 7 7 43 defaultSession oldWorld
                    eq_refl) ltac:(vm_compute; reflexivity)).
  reflexivity.
Defined.

(** ** Expiration and quota gate: users that are not new *)

(** X7. An event that the expiration test lets through, from a chat whose
    session is in the cache and younger than [CACHE_TTL], is passed on with
    the cached session; no request goes to the store, the state and the
    counter are unchanged, and the quota is not looked at, whatever the
    counter. *)
Theorem cached_chat_passes (now chatId : Z) (tenant : Tenant) (w : World)
  (s : Session) :
  planExpired now chatId tenant = false ->
  cacheHit now (sessionCache w !! cacheKey (id (row tenant)) chatId) = Some s ->
  tenantMiddleware now chatId tenant w = (GateNext s, tenant, w).
Proof.
  intros Hexp Hhit.
  assert (Hload : getSession now (id (row tenant)) chatId w = (Ok s, w)).
  { unfold getSession. now rewrite Hhit. }
  assert (Hsome : is_Some (sessionCache w !! cacheKey (id (row tenant)) chatId)).
  { destruct (sessionCache w !! cacheKey (id (row tenant)) chatId);
      [eauto | discriminate]. }
  unfold tenantMiddleware. rewrite Hexp.
  rewrite (bool_decide_eq_true_2 _ Hsome). cbn [negb].
  destruct (notOwnerChat chatId tenant); now rewrite Hload.
Qed.

Lemma cached_chat_passes_witness :
  tenantMiddleware 1200 42 fullTenant
                   (saveSession 1000 9 42 oldSession emptyWorld)
  = (GateNext oldSession, fullTenant,
     saveSession 1000 9 42 oldSession emptyWorld).
Proof.
  apply (cached_chat_passes 1200 42 fullTenant
           (saveSession 1000 9 42 oldSession emptyWorld) oldSession);
    vm_compute; reflexivity.
Defined.

(** X8. A chat other than the owner's that is not in the cache but has a
    row in the session table is not new: with the store answering, its
    event is passed on with the stored session, healed, and the counter is
    unchanged, even when it has reached the limit. *)
Theorem known_user_not_counted (now chatId : Z) (tenant : Tenant) (w : World)
  (stored : Session) :
  planExpired now chatId tenant = false ->
  owner_chat_id (row tenant) <> Some (toString chatId) ->
  sessionCache w !! cacheKey (id (row tenant)) chatId = None ->
  bot_sessions w !! (id (row tenant), toString chatId) = Some stored ->
  faults w = [] ->
  fst (tenantMiddleware now chatId tenant w)
  = (GateNext (autoHeal stored), tenant).
Proof.
  intros Hexp Hno Hc Hrow Hf.
  unfold tenantMiddleware. rewrite Hexp, (notOwnerChat_true _ _ Hno), Hc.
  rewrite bool_decide_eq_false_2 by (intros [? ?]; discriminate).
  cbn [negb]. unfold checkUserExists. rewrite (dbCall_healthy _ _ Hf).
  change (bot_sessions (logged (SelectSessionChatId (id (row tenant))
                                  (toString chatId)) w))
    with (bot_sessions w).
  rewrite Hrow, bool_decide_eq_true_2 by eauto. cbn [negb].
  unfold getSession.
  change (sessionCache (logged (SelectSessionChatId (id (row tenant))
                                  (toString chatId)) w))
    with (sessionCache w).
  rewrite Hc. cbn [cacheHit]. unfold selectSession.
  rewrite dbCall_healthy by (now apply faults_logged).
  change (bot_sessions (logged _ (logged _ w))) with (bot_sessions w).
  now rewrite Hrow.
Qed.

Lemma known_user_not_counted_witness :
  fst (tenantMiddleware 5000 42 fullTenant
         (set_bot_sessions (<[(9%N, lit "42") := oldSession]> ∅) emptyWorld))
  = (GateNext oldSession, fullTenant).
Proof.
  rewrite (known_user_not_counted 5000 42 fullTenant
             (set_bot_sessions (<[(9%N, lit "42") := oldSession]> ∅) emptyWorld)
             oldSession eq_refl ltac:(vm_compute; discriminate)
             ltac:(vm_compute; reflexivity) ltac:(vm_compute; reflexivity)
             eq_refl).
  reflexivity.
Defined.

(** X9. When the existence check of the store fails, a chat that does
    have a row is taken for a new user: at the limit it is refused, below
    the limit it is passed on with its stored session and counted once
    more. *)
Theorem failed_check_treats_known_as_new (now chatId : Z) (tenant : Tenant)
  (w : World) (stored : Session) (e : DbError) :
  planExpired now chatId tenant = false ->
  owner_chat_id (row tenant) <> Some (toString chatId) ->
  sessionCache w !! cacheKey (id (row tenant)) chatId = None ->
  bot_sessions w !! (id (row tenant), toString chatId) = Some stored ->
  faults w = [Some e] ->
  (effectiveLimit tenant <= activeUserCount tenant ->
   fst (tenantMiddleware now chatId tenant w)
   = (GateReply (UserLimitReached (effectiveLimit tenant)), tenant))
  /\ (activeUserCount tenant < effectiveLimit tenant ->
      fst (tenantMiddleware now chatId tenant w)
      = (GateNext (autoHeal stored),
         set_activeUserCount (activeUserCount tenant + 1) tenant)).
Proof.
  intros Hexp Hno Hc Hrow Hf.
  assert (Hmw : fst (tenantMiddleware now chatId tenant w)
    = if effectiveLimit tenant <=? activeUserCount tenant
      then (GateReply (UserLimitReached (effectiveLimit tenant)), tenant)
      else (GateNext (autoHeal stored),
            set_activeUserCount (activeUserCount tenant + 1) tenant)).
  { unfold tenantMiddleware. rewrite Hexp, (notOwnerChat_true _ _ Hno), Hc.
    rewrite bool_decide_eq_false_2 by (intros [? ?]; discriminate).
    cbn [negb]. unfold checkUserExists, dbCall. rewrite Hf.
    cbn [head mjoin option_join negb]. fold (effectiveLimit tenant).
    destruct (effectiveLimit tenant <=? activeUserCount tenant);
      [reflexivity |].
    cbn [row set_activeUserCount]. unfold getSession.
    change (sessionCache (logged (SelectSessionChatId (id (row tenant))
                                    (toString chatId)) w))
      with (sessionCache w).
    rewrite Hc. cbn [cacheHit]. unfold selectSession.
    rewrite dbCall_healthy by (simpl; now rewrite Hf).
    change (bot_sessions (logged _ (logged _ w))) with (bot_sessions w).
    now rewrite Hrow. }
  rewrite Hmw. split; intros Hcmp.
  - destruct (Z.leb_spec (effectiveLimit tenant) (activeUserCount tenant));
      [reflexivity | lia].
  - destruct (Z.leb_spec (effectiveLimit tenant) (activeUserCount tenant));
      [lia | reflexivity].
Qed.

Lemma failed_check_treats_known_as_new_witness :
  fst (tenantMiddleware 5000 42
         (mkTenant (mkTenantRow 7 (lit "Acme") (lit "123:abc") (Some (lit "900"))
                                true None (Some 1) None None None None None) 1)
         failingWorld)
  = (GateReply (UserLimitReached 1),
     mkTenant (mkTenantRow 7 (lit "Acme") (lit "123:abc") (Some (lit "900"))
                           true None (Some 1) None None None None None) 1).
Proof.
  apply (proj1 (failed_check_treats_known_as_new 5000 42
           (mkTenant (mkTenantRow 7 (lit "Acme") (lit "123:abc")
                        (Some (lit "900")) true None (Some 1)
                        None None None None None) 1)
           failingWorld oldSession connectionFailure
           eq_refl ltac:(vm_compute; discriminate)
           ltac:(vm_compute; reflexivity) ltac:(vm_compute; reflexivity)
           eq_refl)).
  vm_compute. discriminate.
Defined.

(** ** The counter over a run of events *)

Lemma tenantMiddleware_counter (now chatId : Z) (tenant : Tenant) (w : World) :
  row (snd (fst (tenantMiddleware now chatId tenant w))) = row tenant
  /\ (activeUserCount (snd (fst (tenantMiddleware now chatId tenant w)))
      = activeUserCount tenant
      \/ (activeUserCount (snd (fst (tenantMiddleware now chatId tenant w)))
          = activeUserCount tenant + 1
          /\ activeUserCount tenant < effectiveLimit tenant)).
Proof.
  unfold tenantMiddleware, effectiveLimit.
  destruct (planExpired now chatId tenant); [simpl; auto |].
  destruct (notOwnerChat chatId tenant).
  2:{ destruct (getSession _ _ _ _) as [[?|?] ?]; simpl; auto. }
  destruct (negb (bool_decide _)).
  2:{ destruct (getSession _ _ _ _) as [[?|?] ?]; simpl; auto. }
  destruct (checkUserExists _ _ _) as [ex w1].
  destruct (negb ex).
  2:{ destruct (getSession _ _ _ _) as [[?|?] ?]; simpl; auto. }
  destruct (Z.leb_spec (orDefault (max_users (row tenant)) 10)
                       (activeUserCount tenant)); [simpl; auto |].
  destruct (getSession _ _ _ _) as [[?|?] ?]; simpl; split; auto; right; auto.
Qed.

(** X10. Over any run of events, whatever the store does, the middleware
    never changes the columns of the tenant object, never lowers its
    counter, and never raises the counter above the limit (or above where
    it started, if that was higher). *)
Theorem counter_bounded (events : list (Z * Z)) (tenant : Tenant) (w : World) :
  row (snd (fst (serveAll events tenant w))) = row tenant
  /\ activeUserCount tenant
     <= activeUserCount (snd (fst (serveAll events tenant w)))
     <= Z.max (activeUserCount tenant) (effectiveLimit tenant).
Proof.
  revert tenant w. induction events as [|[now c] rest IH]; intros tenant w.
  - simpl. split; [reflexivity | lia].
  - cbn [serveAll].
    destruct (tenantMiddleware_counter now c tenant w) as [Hrow Hcnt].
    destruct (tenantMiddleware now c tenant w) as [[g t1] w1].
    cbn [fst snd] in Hrow, Hcnt.
    specialize (IH t1 w1).
    destruct (serveAll rest t1 w1) as [[gs t2] w2].
    cbn [fst snd] in IH |- *. destruct IH as [IHrow IHcnt].
    assert (effectiveLimit t1 = effectiveLimit tenant) as Hlim
      by (unfold effectiveLimit; now rewrite Hrow).
    rewrite Hlim in IHcnt.
    split; [congruence | lia].
Qed.

(** ** Counter at start *)

Lemma stoppedOld_frame (tid : N) (w : World) :
  faults (stoppedOld tid w) = faults w
  /\ bot_sessions (stoppedOld tid w) = bot_sessions w
  /\ length (bots (stoppedOld tid w)) = length (bots w).
Proof.
  unfold stoppedOld. destruct (activeBots w !! tid) as [h|]; [|auto].
  unfold stopSwallow. destruct (bots w !! h) as [b|]; [|auto].
  destruct (bot_status b); simpl; auto using length_insert.
Qed.

Lemma startTenantBot_counter (t : TenantRow) (w : World) :
  faults w = [] ->
  bots (startTenantBot t w) !! length (bots w)
  = Some (mkBot (mkTenant t (sessionRows (id t) w)) Launching).
Proof.
  intros Hf. destruct (stoppedOld_frame (id t) w) as (Hf' & Hrows & Hlen).
  unfold startTenantBot, launchNew.
  rewrite getTenantUserCount_healthy by (now rewrite Hf').
  cbn [bots set_activeBots set_bots logged].
  rewrite <- Hlen. unfold sessionRows. rewrite Hrows.
  apply list_lookup_middle. reflexivity.
Qed.

(** X11. The owner's first event is not counted by the running
    instance, but it stores a session row; the next start of the tenant,
    which starts the counter at the number of the tenant's stored rows,
    counts the owner as a user. *)
Theorem owner_counted_at_restart (now chatId : Z) (tenant : Tenant) (w : World) :
  faults w = [] ->
  owner_chat_id (row tenant) = Some (toString chatId) ->
  sessionCache w !! cacheKey (id (row tenant)) chatId = None ->
  bot_sessions w !! (id (row tenant), toString chatId) = None ->
  exists w1,
    tenantMiddleware now chatId tenant w = (GateNext defaultSession, tenant, w1)
    /\ bots (startTenantBot (row tenant) w1) !! length (bots w1)
       = Some (mkBot (mkTenant (row tenant)
                               (sessionRows (id (row tenant)) w + 1))
                     Launching).
Proof.
  intros Hf Hown Hc Hrow.
  assert (Hexp : planExpired now chatId tenant = false).
  { unfold planExpired. rewrite (notOwnerChat_false _ _ Hown).
    destruct (expiration_date (row tenant)); [apply andb_false_r | reflexivity]. }
  eexists. split.
  - unfold tenantMiddleware.
    rewrite Hexp, (notOwnerChat_false _ _ Hown).
    now rewrite (getSession_new _ _ _ _ Hf Hc Hrow).
  - rewrite startTenantBot_counter.
    + do 3 f_equal. unfold cacheSet at 1.
      change (sessionRows (id (row tenant)) (set_sessionCache ?c ?w0))
        with (sessionRows (id (row tenant)) w0).
      rewrite sessionRows_new_row; [reflexivity | now apply faults_logged | exact Hrow].
    + simpl. apply faults_upsertSession. simpl. now rewrite Hf.
Qed.

Lemma owner_counted_at_restart_witness :
  faults emptyWorld = []
  /\ exists w1,
       tenantMiddleware 5000 900 expiredAcme emptyWorld
       = (GateNext defaultSession, expiredAcme, w1)
       /\ bots (startTenantBot acme w1) !! length (bots w1)
          = Some (mkBot (mkTenant acme 1) Launching).
Proof.
  split; [reflexivity |].
  apply (owner_counted_at_restart 5000 900 expiredAcme emptyWorld
           eq_refl eq_refl ltac:(vm_compute; reflexivity)
           ltac:(vm_compute; reflexivity)).
Defined.

(** ** Master webhook: resolving the tenant, replays, what is left alone *)

(** The state after a renewal: two requests went to the store and the row
    of tenant [n] was rewritten. *)
Lemma webhookMaster_resolved (tz : TimeZone) (now : Z) (req : ReqBody)
  (w : World)
  (tid : jsstring) (n : N) (tenant : TenantRow) :
  faults w = [] ->
  eligibleStatus (p_status (default (body_top req) (body_data req))) = true ->
  extractTenantId (default (body_top req) (body_data req)) = Some tid ->
  castId tid = Some n ->
  tenants w !! n = Some tenant ->
  webhookMaster tz now req w
  = (mkResponse 200 (SuccessJson (renewedUntil tz now (expiration_date tenant))),
     renewalNotes w tenant (renewedUntil tz now (expiration_date tenant)),
     set_tenants
       (alter (set_renewal (Some (renewedUntil tz now (expiration_date tenant))))
              n (tenants w))
       (logged (UpdateTenant tid) (logged (SelectTenant tid) w))).
Proof.
  intros Hf Hst Hid Hcast Hrow.
  assert (Hbase : setDatePlus tz 30
            match expiration_date tenant with
            | Some e => if now <? e then e else now
            | None => now
            end = renewedUntil tz now (expiration_date tenant))
    by reflexivity.
  unfold webhookMaster. rewrite Hst, Hid.
  rewrite (castId_nonempty _ _ Hcast). cbn [negb from_option Datatypes.id].
  unfold selectTenant. rewrite (dbCall_healthy _ _ Hf), Hcast.
  change (tenants (logged (SelectTenant tid) w)) with (tenants w).
  rewrite Hrow, Hbase.
  unfold updateTenantWhere.
  rewrite dbCall_healthy by (simpl; now rewrite Hf).
  reflexivity.
Qed.

Lemma spanDigits_at (d r : jsstring) :
  forallb isDigit d = true -> spanDigits (d ++ 64%N :: r) = (d, 64%N :: r).
Proof.
  induction d as [|c d IH]; intros H; simpl in *; [reflexivity |].
  apply andb_prop in H as [Hc Hd]. now rewrite Hc, (IH Hd).
Qed.

Lemma stripPrefix_app (p s : jsstring) : stripPrefix p (p ++ s) = Some s.
Proof.
  induction p as [|a p IH]; simpl; [reflexivity |].
  now rewrite decide_True by reflexivity.
Qed.

Lemma matchTenantEmail_chargeEmail (n : N) :
  matchTenantEmail (chargeEmail n) = Some (toStringN n).
Proof.
  destruct (toStringN_digits n) as (Hdig & Hne & _).
  assert (H : matchTenantAt (chargeEmail n) = Some (toStringN n)).
  { unfold matchTenantAt, chargeEmail. rewrite stripPrefix_app.
    change (lit "@venux.com") with (64%N :: lit "venux.com").
    rewrite (spanDigits_at _ _ Hdig).
    destruct (toStringN n); [congruence | reflexivity]. }
  unfold chargeEmail in *.
  change (lit "tenant_" ++ toStringN n ++ lit "@venux.com")
    with (116%N :: (lit "enant_" ++ toStringN n ++ lit "@venux.com")) in *.
  cbn [matchTenantEmail]. now rewrite H.
Qed.

(** X12. The e-mail [generateSubscriptionCharge] puts in the charge of a
    tenant is read back by the webhook as that tenant, whatever else the
    notification carries: a completed-payment notification with that
    e-mail, the store answering, renews exactly that tenant's row. *)
Theorem charge_email_round_trip (tz : TimeZone) (now : Z) (req : ReqBody)
  (w : World)
  (n : N) (tenant : TenantRow) :
  faults w = [] ->
  eligibleStatus (p_status (default (body_top req) (body_data req))) = true ->
  p_client_email (default (body_top req) (body_data req)) = Some (chargeEmail n) ->
  tenants w !! n = Some tenant ->
  extractTenantId (default (body_top req) (body_data req)) = Some (toStringN n)
  /\ castId (toStringN n) = Some n
  /\ fst (fst (webhookMaster tz now req w))
     = mkResponse 200 (SuccessJson (renewedUntil tz now (expiration_date tenant)))
  /\ tenants (snd (webhookMaster tz now req w)) !! n
     = Some (set_renewal (Some (renewedUntil tz now (expiration_date tenant)))
                         tenant).
Proof.
  intros Hf Hst Hmail Hrow.
  destruct (toStringN_digits n) as (Hdig & Hne & Hcast).
  assert (Hid : extractTenantId (default (body_top req) (body_data req))
                = Some (toStringN n)).
  { unfold extractTenantId. rewrite Hmail.
    cbn [from_option Datatypes.id].
    assert (truthyStr (Some (chargeEmail n)) = true) as -> by reflexivity.
    rewrite matchTenantEmail_chargeEmail.
    assert (truthyStr (Some (toStringN n)) = true) as ->
      by (destruct (toStringN n); [congruence | reflexivity]).
    reflexivity. }
  split; [exact Hid |]. split; [exact Hcast |].
  rewrite (webhookMaster_resolved tz now req w _ n tenant Hf Hst Hid Hcast Hrow).
  split; [reflexivity |].
  cbn [snd tenants set_tenants]. now rewrite lookup_alter_eq, Hrow.
Qed.

Lemma charge_email_round_trip_witness :
  faults acmeWorld = []
  /\ tenants (snd (webhookMaster (fixedZone 0) 5000 (chargePaid 7) acmeWorld)) !! 7%N
     = Some (set_renewal (Some (renewedUntil (fixedZone 0) 5000 (Some 1000))) acme).
Proof.
  split; [reflexivity |].
  apply (charge_email_round_trip (fixedZone 0) 5000 (chargePaid 7) acmeWorld 7 acme
           eq_refl eq_refl eq_refl eq_refl).
Defined.

Lemma digit_not_SUB (c : N) (d : jsstring) :
  isDigit c = true -> startsWith (lit "SUB_") (c :: d) = false.
Proof.
  intros Hc. change (lit "SUB_") with [83%N; 85%N; 66%N; 95%N].
  cbn [startsWith]. destruct (decide (83%N = c)) as [<- | _];
    [discriminate | reflexivity].
Qed.

Lemma splitAux_digits (d cur : jsstring) :
  forallb isDigit d = true ->
  splitAux (lit "SUB_") 0 cur d = [rev cur ++ d].
Proof.
  revert cur. induction d as [|c d IH]; intros cur H.
  - simpl. now rewrite app_nil_r.
  - cbn [forallb] in H. apply andb_prop in H as [Hc Hd].
    cbn [splitAux]. rewrite (digit_not_SUB c d Hc), (IH _ Hd).
    cbn [rev]. now rewrite <- app_assoc.
Qed.

Lemma split_SUB (d : jsstring) :
  forallb isDigit d = true -> split (lit "SUB_") (lit "SUB_" ++ d) = [[]; d].
Proof.
  intros H. unfold split.
  change (lit "SUB_" ++ d) with (83%N :: 85%N :: 66%N :: 95%N :: d).
  cbn [splitAux]. change (startsWith (lit "SUB_") (83%N :: 85%N :: 66%N :: 95%N :: d))
    with true. cbv iota. change (length (lit "SUB_") - 1)%nat with 3%nat.
  cbn [splitAux rev]. now rewrite (splitAux_digits d [] H).
Qed.

(** X13. Without an e-mail, a notification whose [external_id] is "SUB_"
    followed by the tenant's id resolves to that tenant: with a
    completed-payment status and the store answering, that tenant's row is
    renewed. *)
Theorem external_id_fallback (tz : TimeZone) (now : Z) (req : ReqBody)
  (w : World)
  (n : N) (tenant : TenantRow) :
  faults w = [] ->
  eligibleStatus (p_status (default (body_top req) (body_data req))) = true ->
  p_client_email (default (body_top req) (body_data req)) = None ->
  p_external_id (default (body_top req) (body_data req))
  = Some (lit "SUB_" ++ toStringN n) ->
  tenants w !! n = Some tenant ->
  extractTenantId (default (body_top req) (body_data req)) = Some (toStringN n)
  /\ fst (fst (webhookMaster tz now req w))
     = mkResponse 200 (SuccessJson (renewedUntil tz now (expiration_date tenant)))
  /\ tenants (snd (webhookMaster tz now req w)) !! n
     = Some (set_renewal (Some (renewedUntil tz now (expiration_date tenant)))
                         tenant).
Proof.
  intros Hf Hst Hmail Hext Hrow.
  destruct (toStringN_digits n) as (Hdig & Hne & Hcast).
  assert (Hid : extractTenantId (default (body_top req) (body_data req))
                = Some (toStringN n)).
  { unfold extractTenantId. rewrite Hmail, Hext.
    cbn [truthyStr negb andb from_option Datatypes.id].
    change (truthyStr (Some (lit "SUB_" ++ toStringN n))) with true.
    change (startsWith (lit "SUB_") (lit "SUB_" ++ toStringN n)) with true.
    cbn [andb]. now rewrite (split_SUB _ Hdig). }
  split; [exact Hid |].
  rewrite (webhookMaster_resolved tz now req w _ n tenant Hf Hst Hid Hcast Hrow).
  split; [reflexivity |].
  cbn [snd tenants set_tenants]. now rewrite lookup_alter_eq, Hrow.
Qed.

Lemma external_id_fallback_witness :
  faults acmeWorld = []
  /\ tenants (snd (webhookMaster (fixedZone 0) 5000 (subPaid 7) acmeWorld)) !! 7%N
     = Some (set_renewal (Some (renewedUntil (fixedZone 0) 5000 (Some 1000))) acme).
Proof.
  split; [reflexivity |].
  apply (external_id_fallback (fixedZone 0) 5000 (subPaid 7) acmeWorld 7 acme
           eq_refl eq_refl eq_refl eq_refl eq_refl).
Defined.

Lemma selectTenant_world (tid : jsstring) (w : World) :
  snd (selectTenant tid w) = logged (SelectTenant tid) w.
Proof.
  unfold selectTenant, dbCall.
  destruct (mjoin (head (faults w))); [reflexivity |].
  destruct (castId tid); [| reflexivity].
  now destruct (tenants (logged (SelectTenant tid) w) !! n).
Qed.

(** X14. What the webhook leaves alone, for every request and whatever
    the store does: the session cache, the session table, the instances
    and the registry are never touched; no row of a tenant other than the
    one the payload names is changed; and unless the answer is the success
    body, no tenant row is changed and no notification is sent. *)
Theorem webhook_frame (tz : TimeZone) (now : Z) (req : ReqBody) (w : World) :
  let resp := fst (fst (webhookMaster tz now req w)) in
  let notes := snd (fst (webhookMaster tz now req w)) in
  let w' := snd (webhookMaster tz now req w) in
  (sessionCache w' = sessionCache w /\ bot_sessions w' = bot_sessions w
   /\ bots w' = bots w /\ activeBots w' = activeBots w)
  /\ (forall k,
        namedTenant (default (body_top req) (body_data req)) <> Some k ->
        tenants w' !! k = tenants w !! k)
  /\ ((forall E, res_body resp <> SuccessJson E) ->
      tenants w' = tenants w /\ notes = []).
Proof.
  cbv zeta. unfold webhookMaster, namedTenant.
  destruct (negb (eligibleStatus _)).
  { cbn [fst snd res_body]. repeat split; auto. }
  destruct (extractTenantId (default (body_top req) (body_data req)))
    as [tid|]; [| cbn [truthyStr negb fst snd res_body]; repeat split; auto].
  destruct (negb (truthyStr (Some tid)));
    [cbn [fst snd res_body]; repeat split; auto |].
  cbn [from_option Datatypes.id mbind option_bind].
  pose proof (selectTenant_world tid w) as Hw.
  destruct (selectTenant tid w) as [[[t|] [e|]] w1]; cbn [snd] in Hw; subst w1;
    try (cbn [fst snd res_body]; repeat split; auto; fail).
  unfold updateTenantWhere, dbCall.
  destruct (mjoin (head (faults (logged (SelectTenant tid) w))));
    [| destruct (castId tid) as [n|]];
    cbn [fst snd res_body]; repeat split; auto;
    try (match goal with
         | H : forall E : Z, _ <> _ |- _ => now destruct (H _ eq_refl)
         end).
  intros k Hk. cbn [tenants set_tenants logged]. apply lookup_alter_ne.
  congruence.
Qed.

Lemma webhook_frame_witness :
  tenants (snd (webhookMaster (fixedZone 0) 5000 pendingBody acmeWorld))
  = tenants acmeWorld
  /\ tenants (snd (webhookMaster (fixedZone 0) 5000 (chargePaid 7) acmeWorld)) !! 8%N = None.
Proof.
  split.
  - apply (proj2 (proj2 (webhook_frame (fixedZone 0) 5000 pendingBody acmeWorld))).
    intros E. vm_compute. discriminate.
  - rewrite (proj1 (proj2 (webhook_frame (fixedZone 0) 5000 (chargePaid 7) acmeWorld)) 8%N
               ltac:(vm_compute; discriminate)).
    reflexivity.
Defined.

Lemma set_renewal_twice (e1 e2 : option Z) (t : TenantRow) :
  set_renewal e2 (set_renewal e1 t) = set_renewal e2 t.
Proof. reflexivity. Qed.

(** X15. The renewal is not idempotent: when the same completed-payment
    notification is processed a second time, no later than the expiration
    [E1] the first processing set, the tenant gets 30 more calendar days
    on top of [E1].  Counted from the later of its old expiration and the
    time of the first processing, that is 60 times 24 hours plus the
    changes of the zone's offset over the two periods: exactly 60 days
    when the offset does not change over either. *)
Theorem webhook_replay_adds_again (tz : TimeZone) (now1 now2 : Z)
  (req : ReqBody) (w : World) (tid : jsstring) (n : N) (tenant : TenantRow) :
  faults w = [] ->
  eligibleStatus (p_status (default (body_top req) (body_data req))) = true ->
  extractTenantId (default (body_top req) (body_data req)) = Some tid ->
  castId tid = Some n ->
  tenants w !! n = Some tenant ->
  now2 <= renewedUntil tz now1 (expiration_date tenant) ->
  let base := Z.max (default now1 (expiration_date tenant)) now1 in
  let E1 := renewedUntil tz now1 (expiration_date tenant) in
  let E2 := UTC tz (LocalTime tz E1 + 30 * msPerDay) in
  let w1 := snd (webhookMaster tz now1 req w) in
  fst (fst (webhookMaster tz now2 req w1)) = mkResponse 200 (SuccessJson E2)
  /\ tenants (snd (webhookMaster tz now2 req w1)) !! n
     = Some (set_renewal (Some E2) tenant)
  /\ E2 = base + 60 * msPerDay + offsetShift tz 30 base + offsetShift tz 30 E1
  /\ (offsetShift tz 30 base = 0 -> offsetShift tz 30 E1 = 0 ->
      E2 = base + 60 * msPerDay).
Proof.
  intros Hf Hst Hid Hcast Hrow Hnow base E1 E2 w1. subst w1.
  rewrite (webhookMaster_resolved tz now1 req w tid n tenant
             Hf Hst Hid Hcast Hrow).
  cbn [snd]. fold E1.
  set (w1 := set_tenants _ _).
  assert (Hf1 : faults w1 = []) by (subst w1; simpl; now rewrite Hf).
  assert (Hrow1 : tenants w1 !! n = Some (set_renewal (Some E1) tenant)).
  { subst w1. cbn [tenants set_tenants]. now rewrite lookup_alter_eq, Hrow. }
  rewrite (webhookMaster_resolved tz now2 req w1 tid n _
             Hf1 Hst Hid Hcast Hrow1).
  assert (HE : renewedUntil tz now2
                 (expiration_date (set_renewal (Some E1) tenant)) = E2).
  { change (setDatePlus tz 30 (if now2 <? E1 then E1 else now2) = E2).
    replace (if now2 <? E1 then E1 else now2) with E1
      by (fold E1 in Hnow; destruct (Z.ltb_spec now2 E1); lia).
    apply setDatePlus_local. }
  rewrite HE.
  assert (Hsum : E2 = base + 60 * msPerDay + offsetShift tz 30 base
                      + offsetShift tz 30 E1).
  { assert (HE1 : E1 = base + 30 * msPerDay + offsetShift tz 30 base).
    { unfold E1, renewedUntil. now rewrite baseDate_max, setDatePlus_shift. }
    unfold E2. rewrite <- setDatePlus_local, setDatePlus_shift.
    unfold msPerDay in *. lia. }
  split; [reflexivity |]. split.
  { cbn [snd tenants set_tenants].
    rewrite lookup_alter_eq.
    change (tenants (logged _ (logged _ w1))) with (tenants w1).
    now rewrite Hrow1. }
  split; [exact Hsum |].
  intros H1 H2. rewrite Hsum, H1, H2. lia.
Qed.

Lemma webhook_replay_adds_again_witness :
  faults acmeWorld = []
  /\ tenants (snd (webhookMaster easternTime 1792070000000 (chargePaid 7)
                     (snd (webhookMaster easternTime 1792065600000
                                         (chargePaid 7) acmeWorld))))
     !! 7%N
     = Some (set_renewal (Some 1797253200000) acme).
Proof.
  split; [reflexivity |].
  apply (webhook_replay_adds_again easternTime 1792065600000 1792070000000
           (chargePaid 7) acmeWorld (toStringN 7) 7 acme
           eq_refl eq_refl eq_refl eq_refl eq_refl
           ltac:(vm_compute; discriminate)).
Defined.

(** ** Reloading the tenant object *)

Lemma selectTenant_by_number (n : N) (w : World) :
  selectTenant (toStringN n) w = selectTenantById n w.
Proof.
  unfold selectTenant, selectTenantById.
  destruct (dbCall _ w) as [fault w']. destruct fault; [reflexivity |].
  now rewrite (proj2 (proj2 (toStringN_digits n))).
Qed.

Lemma renderOwnerDashboard_tenant (now chatId : Z) (c : Ctx) :
  ctx_tenant (renderOwnerDashboard now chatId c) = ctx_tenant c
  /\ ctx_session (renderOwnerDashboard now chatId c) = ctx_session c
  /\ ctx_world (renderOwnerDashboard now chatId c) = ctx_world c.
Proof.
  unfold renderOwnerDashboard.
  now destruct (negb (isOwner chatId (ctx_tenant c))).
Qed.

(** X16. A renewal reaches a running instance only through a reload.  The
    webhook rewrites the tenant's row and leaves every instance, with the
    tenant object it closes over, as it was.  When the owner then presses
    "Recarregar Bot", the tenant object takes the columns of the renewed
    row and keeps its counter, and from then on the expiration test lets
    every chat through up to the new expiration. *)
Theorem renewal_needs_reload (tz : TimeZone) (now now' chatId : Z)
  (req : ReqBody)
  (w : World) (tid : jsstring) (tenant : TenantRow) (tobj : Tenant)
  (s : Session) :
  faults w = [] ->
  eligibleStatus (p_status (default (body_top req) (body_data req))) = true ->
  extractTenantId (default (body_top req) (body_data req)) = Some tid ->
  castId tid = Some (id (row tobj)) ->
  tenants w !! id (row tobj) = Some tenant ->
  owner_chat_id (row tobj) = Some (toString chatId) ->
  let w1 := snd (webhookMaster tz now req w) in
  let c := snd (owner_reload_bot now' chatId (mkCtx tobj s w1 [])) in
  bots w1 = bots w
  /\ fst (owner_reload_bot now' chatId (mkCtx tobj s w1 [])) = true
  /\ row (ctx_tenant c)
     = set_renewal (Some (renewedUntil tz now (expiration_date tenant))) tenant
  /\ activeUserCount (ctx_tenant c) = activeUserCount tobj
  /\ (forall t chat, t <= renewedUntil tz now (expiration_date tenant) ->
                     planExpired t chat (ctx_tenant c) = false).
Proof.
  intros Hf Hst Hid Hcast Hrow Hown w1 c. subst c w1.
  rewrite (webhookMaster_resolved tz now req w tid _ tenant
             Hf Hst Hid Hcast Hrow).
  cbn [snd].
  set (E1 := renewedUntil tz now (expiration_date tenant)).
  set (w1 := set_tenants _ _).
  assert (Hsel : selectTenantById (id (row tobj)) w1
                 = ((Some (set_renewal (Some E1) tenant), None),
                    logged (SelectTenant (toStringN (id (row tobj)))) w1)).
  { unfold selectTenantById. rewrite dbCall_healthy
      by (subst w1; simpl; now rewrite Hf).
    subst w1. cbn [tenants logged set_tenants].
    now rewrite lookup_alter_eq, Hrow. }
  assert (Hreload : owner_reload_bot now' chatId (mkCtx tobj s w1 [])
            = (true,
               renderOwnerDashboard now' chatId
                 (with_row (fun _ => set_renewal (Some E1) tenant)
                    (with_world
                       (logged (SelectTenant (toStringN (id (row tobj)))) w1)
                       (mkCtx tobj s w1 []))))).
  { unfold owner_reload_bot. cbn [ctx_tenant ctx_world].
    unfold isOwner. rewrite bool_decide_eq_true_2 by exact Hown.
    cbn [negb]. now rewrite Hsel. }
  rewrite Hreload. cbn [fst snd].
  rewrite (proj1 (renderOwnerDashboard_tenant _ _ _)).
  repeat split.
  intros t chat Ht. unfold planExpired. cbn.
  destruct (Z.ltb_spec E1 t); [lia | reflexivity].
Qed.

Lemma renewal_needs_reload_witness :
  faults acmeWorld = []
  /\ row (ctx_tenant
            (snd (owner_reload_bot 6000 900
                    (mkCtx expiredAcme defaultSession
                           (snd (webhookMaster (fixedZone 0) 5000 (chargePaid 7) acmeWorld))
                           []))))
     = set_renewal (Some (renewedUntil (fixedZone 0) 5000 (Some 1000))) acme.
Proof.
  split; [reflexivity |].
  apply (renewal_needs_reload (fixedZone 0) 5000 6000 900 (chargePaid 7) acmeWorld
           (toStringN 7) acme expiredAcme defaultSession
           eq_refl eq_refl eq_refl eq_refl eq_refl eq_refl).
Defined.

(** ** Owner wizard: whole flows, failures, and what is left alone *)

Lemma not_slash_not_cancel (text : jsstring) :
  startsWith (lit "/") text = false -> streq text (lit "/cancelar") = false.
Proof.
  intros Ht. unfold streq. apply bool_decide_eq_false_2. intros ->.
  vm_compute in Ht. discriminate.
Qed.

Lemma updateTenant_healthy (tid : N) (f : TenantRow -> TenantRow) (w : World) :
  faults w = [] ->
  updateTenant tid f w
  = (None, set_tenants (alter f tid (tenants w))
                       (logged (UpdateTenant (toStringN tid)) w)).
Proof.
  intros Hf. unfold updateTenant, updateTenantWhere.
  now rewrite (dbCall_healthy _ _ Hf).
Qed.

Lemma faults_saveSession (now : Z) (t : N) (u : Z) (s : Session) (w : World) :
  faults w = [] -> faults (saveSession now t u s w) = [].
Proof.
  intros Hf. unfold saveSession. now apply faults_upsertSession.
Qed.

Lemma sameElsewhere_refl (tid : N) (chatId : Z) (w : World) :
  sameElsewhere tid chatId w w.
Proof. repeat split. Qed.

Lemma sameElsewhere_trans (tid : N) (chatId : Z) (w1 w2 w3 : World) :
  sameElsewhere tid chatId w1 w2 -> sameElsewhere tid chatId w2 w3 ->
  sameElsewhere tid chatId w1 w3.
Proof.
  intros (A1 & B1 & C1 & D1 & E1) (A2 & B2 & C2 & D2 & E2).
  repeat split; try congruence.
  - intros k Hk. now rewrite A2, A1.
  - intros k Hk. now rewrite B2, B1.
  - intros k Hk. now rewrite C2, C1.
Qed.

Lemma sameElsewhere_logged (tid : N) (chatId : Z) (op : DbOp) (w : World) :
  sameElsewhere tid chatId w (logged op w).
Proof. repeat split. Qed.

Lemma sameElsewhere_saveSession (now : Z) (tid : N) (chatId : Z) (s : Session)
  (w : World) :
  sameElsewhere tid chatId w (saveSession now tid chatId s w).
Proof.
  unfold saveSession, upsertSession, dbCall.
  destruct (mjoin (head (faults _))); repeat split; simpl;
    intros key Hkey; now rewrite lookup_insert_ne by congruence.
Qed.

Lemma sameElsewhere_cacheSet (now : Z) (tid : N) (chatId : Z) (s : Session)
  (w : World) :
  sameElsewhere tid chatId w (cacheSet (cacheKey tid chatId) s now w).
Proof.
  repeat split. simpl. intros key Hkey.
  now rewrite lookup_insert_ne by congruence.
Qed.

Lemma sameElsewhere_updateTenant (tid : N) (chatId : Z)
  (f : TenantRow -> TenantRow) (w : World) :
  sameElsewhere tid chatId w (snd (updateTenant tid f w)).
Proof.
  unfold updateTenant, updateTenantWhere, dbCall.
  destruct (mjoin (head (faults w))); repeat split; simpl.
  intros k Hk. now rewrite lookup_alter_ne by congruence.
Qed.

Lemma selectSession_world (t : N) (c : jsstring) (w : World) :
  snd (selectSession t c w) = logged (SelectSession t c) w.
Proof.
  unfold selectSession, dbCall.
  destruct (mjoin (head (faults w))); [reflexivity |].
  now destruct (bot_sessions (logged (SelectSession t c) w) !! (t, c)).
Qed.

Lemma sameElsewhere_getSession (now : Z) (tid : N) (chatId : Z) (w : World) :
  sameElsewhere tid chatId w (snd (getSession now tid chatId w))
  /\ tenants (snd (getSession now tid chatId w)) = tenants w.
Proof.
  unfold getSession.
  destruct (cacheHit now _); [split; [apply sameElsewhere_refl | reflexivity] |].
  pose proof (selectSession_world tid (toString chatId) w) as Hw.
  destruct (selectSession tid (toString chatId) w) as [[r err] w1].
  cbn [snd] in Hw. subst w1.
  set (w1 := logged (SelectSession tid (toString chatId)) w).
  assert (H1 : sameElsewhere tid chatId w w1) by apply sameElsewhere_logged.
  assert (Hdef : sameElsewhere tid chatId w
            (cacheSet (cacheKey tid chatId) defaultSession now
               (saveSession now tid chatId defaultSession w1))).
  { eapply sameElsewhere_trans; [exact H1 |].
    eapply sameElsewhere_trans; [apply sameElsewhere_saveSession |].
    apply sameElsewhere_cacheSet. }
  assert (Hheal : forall s, sameElsewhere tid chatId w
            (cacheSet (cacheKey tid chatId) s now w1)).
  { intros s. eapply sameElsewhere_trans;
      [exact H1 | apply sameElsewhere_cacheSet]. }
  assert (Htdef : tenants (cacheSet (cacheKey tid chatId) defaultSession now
                     (saveSession now tid chatId defaultSession w1))
                  = tenants w).
  { unfold cacheSet. cbn [tenants set_sessionCache].
    now rewrite tenants_saveSession. }
  destruct err as [e|];
    [destruct (negb (streq (code e) (lit "PGRST116"))) |];
    destruct r; cbn [snd]; auto.
Qed.

(** X17. The middleware of a tenant's bot never writes a tenant row, an
    instance or the registry, and of the sessions it touches only the one
    of the chat the event comes from: every other cache entry and every
    other stored session is as before, for every event and whatever the
    store does. *)
Theorem middleware_touches_own_session (now chatId : Z) (tenant : Tenant)
  (w : World) :
  sameElsewhere (id (row tenant)) chatId w
                (snd (tenantMiddleware now chatId tenant w))
  /\ tenants (snd (tenantMiddleware now chatId tenant w)) = tenants w.
Proof.
  assert (Hload : forall t' w0,
            id (row t') = id (row tenant) ->
            sameElsewhere (id (row tenant)) chatId w w0 ->
            tenants w0 = tenants w ->
            let r := match getSession now (id (row t')) chatId w0 with
                     | (Ok s, w') => (GateNext s, t', w')
                     | (Throw e, w') => (GateThrow e, t', w')
                     end in
            sameElsewhere (id (row tenant)) chatId w (snd r)
            /\ tenants (snd r) = tenants w).
  { intros t' w0 Hid H0 Ht0. cbv zeta. rewrite Hid.
    destruct (sameElsewhere_getSession now (id (row tenant)) chatId w0)
      as [Hg Htg].
    destruct (getSession now (id (row tenant)) chatId w0) as [[s|e] w'];
      cbn [snd] in *; (split; [eapply sameElsewhere_trans; eassumption
                              | congruence]). }
  unfold tenantMiddleware.
  destruct (planExpired now chatId tenant);
    [split; [apply sameElsewhere_refl | reflexivity] |].
  destruct (notOwnerChat chatId tenant);
    [| apply (Hload tenant w eq_refl (sameElsewhere_refl _ _ _) eq_refl)].
  destruct (negb (bool_decide _));
    [| apply (Hload tenant w eq_refl (sameElsewhere_refl _ _ _) eq_refl)].
  unfold checkUserExists, dbCall.
  set (w1 := logged _ w).
  destruct (mjoin (head (faults w))) as [e|].
  - cbn [negb]. destruct (_ <=? _);
      [split; [apply sameElsewhere_logged | reflexivity] |].
    apply (Hload (set_activeUserCount (activeUserCount tenant + 1) tenant) w1
                 eq_refl (sameElsewhere_logged _ _ _ _) eq_refl).
  - destruct (negb (bool_decide _)).
    + destruct (_ <=? _);
        [split; [apply sameElsewhere_logged | reflexivity] |].
      apply (Hload (set_activeUserCount (activeUserCount tenant + 1) tenant) w1
                   eq_refl (sameElsewhere_logged _ _ _ _) eq_refl).
    + apply (Hload tenant w1 eq_refl (sameElsewhere_logged _ _ _ _) eq_refl).
Qed.

Lemma ownOnly_refl (chatId : Z) (c : Ctx) : ownOnly chatId c c.
Proof. repeat split. Qed.

Lemma ownOnly_trans (chatId : Z) (c1 c2 c3 : Ctx) :
  ownOnly chatId c1 c2 -> ownOnly chatId c2 c3 -> ownOnly chatId c1 c3.
Proof.
  intros (A1 & B1 & C1) (A2 & B2 & C2). rewrite B1 in A2.
  split; [eapply sameElsewhere_trans; eassumption |]. split; congruence.
Qed.

Lemma ownOnly_reply (chatId : Z) (r : Reply) (c : Ctx) :
  ownOnly chatId c (reply r c).
Proof. repeat split. Qed.

Lemma ownOnly_with_session (chatId : Z) (f : Session -> Session) (c : Ctx) :
  ownOnly chatId c (with_session f c).
Proof. repeat split. Qed.

Lemma ownOnly_with_row (chatId : Z) (f : TenantRow -> TenantRow) (c : Ctx) :
  id (f (row (ctx_tenant c))) = id (row (ctx_tenant c)) ->
  ownOnly chatId c (with_row f c).
Proof. intros H. repeat split. exact H. Qed.

Lemma ownOnly_save (now chatId : Z) (c : Ctx) : ownOnly chatId c (save now chatId c).
Proof.
  split; [apply sameElsewhere_saveSession | split; reflexivity].
Qed.

Lemma ownOnly_update (chatId : Z) (f : TenantRow -> TenantRow) (c : Ctx) :
  ownOnly chatId c
    (with_world (snd (updateTenant (id (row (ctx_tenant c))) f (ctx_world c))) c).
Proof.
  split; [apply sameElsewhere_updateTenant | split; reflexivity].
Qed.

Lemma ownOnly_dashboard (now chatId : Z) (c : Ctx) :
  ownOnly chatId c (renderOwnerDashboard now chatId c).
Proof.
  unfold renderOwnerDashboard.
  destruct (negb (isOwner chatId (ctx_tenant c)));
    [apply ownOnly_refl | apply ownOnly_reply].
Qed.

Ltac own_chain :=
  repeat first
    [ apply ownOnly_refl
    | apply ownOnly_reply
    | apply ownOnly_with_session
    | apply ownOnly_save
    | apply ownOnly_dashboard
    | apply ownOnly_update
    | (apply ownOnly_with_row; reflexivity)
    | (eapply ownOnly_trans; [| solve [ apply ownOnly_reply
                                      | apply ownOnly_with_session
                                      | apply ownOnly_save
                                      | apply ownOnly_dashboard
                                      | apply ownOnly_with_row; reflexivity ]]) ].

(** X18. Whatever the owner's wizard does, it does to its own tenant and
    its own chat: for every text, every stage and every answer of the
    store, the text handler, [saveModel] and the three set-up actions
    leave every other tenant's row, every other cache entry, every other
    stored session, the instances and the registry as they were, and the
    tenant object keeps its id and its counter. *)
Theorem wizard_touches_own_only (now chatId : Z) (text modelName : jsstring)
  (stage_ : jsstring) (c : Ctx) :
  ownOnly chatId c (snd (ownerTextHandler now chatId text c))
  /\ ownOnly chatId c (saveModel now chatId modelName c)
  /\ ownOnly chatId c (ownerSetup stage_ now chatId c).
Proof.
  split; [| split].
  - unfold ownerTextHandler.
    repeat (match goal with
            | |- context [if ?b then _ else _] => destruct b
            end; cbn [snd]; try solve [own_chain]).
    + pose proof (ownOnly_update chatId
                    (set_syncpay (temp_sync_id (ctx_session c)) (Some (trim text))) c)
        as Hu.
      destruct (updateTenant _ _ _) as [[e|] w1]; cbn [snd] in *;
        (eapply ownOnly_trans; [exact Hu |]); own_chain.
    + pose proof (ownOnly_update chatId
                    (set_system_prompt (Some (trim text))) c) as Hu.
      destruct (updateTenant _ _ _) as [[e|] w1]; cbn [snd] in *;
        (eapply ownOnly_trans; [exact Hu |]); own_chain.
  - unfold saveModel.
    destruct (negb (truthyStr _)); [own_chain |].
    pose proof (ownOnly_update chatId
                  (fun t => set_openai (temp_openai_key (ctx_session c))
                                       (Some modelName) t) c) as Hu.
    destruct (updateTenant _ _ _) as [[e|] w1]; cbn [snd] in *;
      (eapply ownOnly_trans; [exact Hu |]); own_chain.
  - unfold ownerSetup. destruct (negb _); own_chain.
Qed.

Lemma step_syncpay_id (now chatId : Z) (text : jsstring) (c : Ctx) :
  isOwner chatId (ctx_tenant c) = true ->
  startsWith (lit "/") text = false ->
  stage (ctx_session c) = Some (lit "OWNER_WAIT_SYNCPAY_ID") ->
  ownerTextHandler now chatId text c
  = (Handled,
     reply SyncPayStep2
       (save now chatId
          (with_session (set_stage (Some (lit "OWNER_WAIT_SYNCPAY_SECRET")))
             (with_session (set_temp_sync_id (Some (trim text))) c)))).
Proof.
  intros Hown Hslash Hstage. unfold ownerTextHandler.
  rewrite Hown, Hslash, (not_slash_not_cancel _ Hslash), Hstage. reflexivity.
Qed.

Lemma step_syncpay_secret (now chatId : Z) (text : jsstring) (c : Ctx) :
  isOwner chatId (ctx_tenant c) = true ->
  startsWith (lit "/") text = false ->
  stage (ctx_session c) = Some (lit "OWNER_WAIT_SYNCPAY_SECRET") ->
  ownerTextHandler now chatId text c
  = match updateTenant (id (row (ctx_tenant c)))
            (set_syncpay (temp_sync_id (ctx_session c)) (Some (trim text)))
            (ctx_world c) with
    | (Some e, w1) => (Handled, reply (ErrorReply (message e)) (with_world w1 c))
    | (None, w1) =>
        (Handled,
         renderOwnerDashboard now chatId
           (reply SyncPayConfigured
              (with_row (set_syncpay (temp_sync_id (ctx_session c))
                                     (Some (trim text)))
                 (save now chatId
                    (with_session (set_temp_sync_id None)
                       (with_session (set_stage (Some (lit "READY")))
                          (with_world w1 c)))))))
    end.
Proof.
  intros Hown Hslash Hstage. unfold ownerTextHandler.
  rewrite Hown, Hslash, (not_slash_not_cancel _ Hslash), Hstage. reflexivity.
Qed.

Lemma step_openai_key (now chatId : Z) (text : jsstring) (c : Ctx) :
  isOwner chatId (ctx_tenant c) = true ->
  startsWith (lit "/") text = false ->
  stage (ctx_session c) = Some (lit "OWNER_WAIT_OPENAI_KEY") ->
  startsWith (lit "sk-") (trim text) = true ->
  ownerTextHandler now chatId text c
  = (Handled,
     reply ChooseModel
       (save now chatId
          (with_session (set_stage (Some (lit "OWNER_WAIT_OPENAI_MODEL")))
             (with_session (set_temp_openai_key (Some (trim text))) c)))).
Proof.
  intros Hown Hslash Hstage Hsk. unfold ownerTextHandler.
  rewrite Hown, Hslash, (not_slash_not_cancel _ Hslash), Hstage, Hsk.
  reflexivity.
Qed.

Lemma stored_after_save (now chatId : Z) (c : Ctx) :
  faults (ctx_world c) = [] ->
  bot_sessions (ctx_world (save now chatId c))
    !! (id (row (ctx_tenant c)), toString chatId) = Some (ctx_session c).
Proof.
  intros Hf. unfold save. cbn [ctx_world with_world].
  rewrite bot_sessions_saveSession_healthy by exact Hf.
  apply lookup_insert_eq.
Qed.

(** X19. The SyncPay wizard as a whole.  The owner presses "Configurar
    SyncPay", sends the client id and then the client secret, neither
    starting with a slash, and the store answers: the tenant's row and the
    tenant object hold the two texts, trimmed, and nothing else in them
    changed; the session is back at READY, its scratch field is cleared,
    and this is the session stored for the chat. *)
Theorem syncpay_flow (t0 t1 t2 chatId : Z) (idText secretText : jsstring)
  (c : Ctx) :
  isOwner chatId (ctx_tenant c) = true ->
  faults (ctx_world c) = [] ->
  startsWith (lit "/") idText = false ->
  startsWith (lit "/") secretText = false ->
  let c3 := snd (ownerTextHandler t2 chatId secretText
                   (snd (ownerTextHandler t1 chatId idText
                           (owner_setup_syncpay t0 chatId c)))) in
  tenants (ctx_world c3) !! id (row (ctx_tenant c))
  = set_syncpay (Some (trim idText)) (Some (trim secretText))
    <$> tenants (ctx_world c) !! id (row (ctx_tenant c))
  /\ row (ctx_tenant c3)
     = set_syncpay (Some (trim idText)) (Some (trim secretText))
                   (row (ctx_tenant c))
  /\ stage (ctx_session c3) = Some (lit "READY")
  /\ temp_sync_id (ctx_session c3) = None
  /\ bot_sessions (ctx_world c3) !! (id (row (ctx_tenant c)), toString chatId)
     = Some (ctx_session c3).
Proof.
  intros Hown Hf Hs1 Hs2.
  unfold owner_setup_syncpay, ownerSetup. rewrite Hown. cbn [negb].
  set (c1 := save t0 chatId _).
  assert (Hf1 : faults (ctx_world c1) = [])
    by (subst c1; unfold save; cbn; now apply faults_saveSession).
  rewrite (step_syncpay_id t1 chatId idText c1 Hown Hs1 eq_refl). cbn [snd].
  set (c2 := reply SyncPayStep2 _).
  assert (Hf2 : faults (ctx_world c2) = [])
    by (subst c2; unfold save; cbn; now apply faults_saveSession).
  rewrite (step_syncpay_secret t2 chatId secretText c2 Hown Hs2 eq_refl).
  rewrite (updateTenant_healthy _ _ _ Hf2). cbn [snd]. cbv zeta.
  rewrite !(proj1 (renderOwnerDashboard_tenant _ _ _)),
          !(proj1 (proj2 (renderOwnerDashboard_tenant _ _ _))),
          !(proj2 (proj2 (renderOwnerDashboard_tenant _ _ _))).
  split; [| split; [| split; [| split]]].
  - cbn [ctx_world reply with_row save with_world with_session].
    rewrite tenants_saveSession. cbn [tenants set_tenants ctx_world].
    change (id (row (ctx_tenant c2))) with (id (row (ctx_tenant c))).
    rewrite lookup_alter_eq.
    change (temp_sync_id (ctx_session c2)) with (Some (trim idText)).
    subst c2 c1. cbn [ctx_world reply save with_world with_session].
    now rewrite !tenants_saveSession.
  - reflexivity.
  - reflexivity.
  - reflexivity.
  - cbn [ctx_world reply with_row ctx_session].
    apply (stored_after_save t2 chatId
             (with_session (set_temp_sync_id None)
                (with_session (set_stage (Some (lit "READY")))
                   (with_world
                      (set_tenants _ (logged _ (ctx_world c2))) c2)))).
    cbn [ctx_world with_session with_world faults set_tenants logged].
    now rewrite Hf2.
Qed.

Lemma syncpay_flow_witness :
  faults acmeWorld = []
  /\ tenants (ctx_world
       (snd (ownerTextHandler 5200 900 (lit " secret-1 ")
          (snd (ownerTextHandler 5100 900 (lit "client-1")
             (owner_setup_syncpay 5000 900
                (wizardCtx "READY" None None))))))) !! 7%N
     = Some (set_syncpay (Some (lit "client-1")) (Some (lit "secret-1")) acme).
Proof.
  split; [reflexivity |].
  apply (proj1 (syncpay_flow 5000 5100 5200 900 (lit "client-1")
                  (lit " secret-1 ") (wizardCtx "READY" None None)
                  eq_refl eq_refl eq_refl eq_refl)).
Defined.

Lemma sk_nonempty (key : jsstring) :
  startsWith (lit "sk-") key = true -> truthyStr (Some key) = true.
Proof.
  intros H. destruct (startsWith_prefix _ _ H) as [r ->]. reflexivity.
Qed.

(** X20. The AI wizard as a whole.  The owner presses "Configurar IA",
    sends a key that starts with "sk-" once trimmed, and presses a model
    button, the store answering: the tenant's row and the tenant object
    hold the trimmed key and the model, the session is back at READY and
    its scratch key is cleared.  Pressing a model button once more is
    answered with "session expired" and changes nothing. *)
Theorem ai_flow (t0 t1 t2 t3 chatId : Z) (keyText modelName modelName' : jsstring)
  (c : Ctx) :
  isOwner chatId (ctx_tenant c) = true ->
  faults (ctx_world c) = [] ->
  startsWith (lit "/") keyText = false ->
  startsWith (lit "sk-") (trim keyText) = true ->
  let c3 := saveModel t2 chatId modelName
              (snd (ownerTextHandler t1 chatId keyText
                      (owner_setup_ai t0 chatId c))) in
  tenants (ctx_world c3) !! id (row (ctx_tenant c))
  = set_openai (Some (trim keyText)) (Some modelName)
    <$> tenants (ctx_world c) !! id (row (ctx_tenant c))
  /\ row (ctx_tenant c3)
     = set_openai (Some (trim keyText)) (Some modelName) (row (ctx_tenant c))
  /\ stage (ctx_session c3) = Some (lit "READY")
  /\ temp_openai_key (ctx_session c3) = None
  /\ saveModel t3 chatId modelName' c3 = reply SessionExpired c3.
Proof.
  intros Hown Hf Hslash Hsk.
  unfold owner_setup_ai, ownerSetup. rewrite Hown. cbn [negb].
  set (c1 := save t0 chatId _).
  assert (Hf1 : faults (ctx_world c1) = [])
    by (subst c1; unfold save; cbn; now apply faults_saveSession).
  rewrite (step_openai_key t1 chatId keyText c1 Hown Hslash eq_refl Hsk).
  cbn [snd]. set (c2 := reply ChooseModel _).
  assert (Hf2 : faults (ctx_world c2) = [])
    by (subst c2; unfold save; cbn; now apply faults_saveSession).
  assert (Hc3 : saveModel t2 chatId modelName c2
    = renderOwnerDashboard t2 chatId
        (reply (AiConfigured modelName)
           (with_row (set_openai (Some (trim keyText)) (Some modelName))
              (save t2 chatId
                 (with_session (set_temp_openai_key None)
                    (with_session (set_stage (Some (lit "READY")))
                       (with_world
                          (set_tenants
                             (alter (fun t => set_openai (Some (trim keyText))
                                                         (Some modelName) t)
                                    (id (row (ctx_tenant c)))
                                    (tenants (ctx_world c2)))
                             (logged (UpdateTenant
                                        (toStringN (id (row (ctx_tenant c)))))
                                     (ctx_world c2)))
                          c2))))))).
  { unfold saveModel.
    change (temp_openai_key (ctx_session c2)) with (Some (trim keyText)).
    rewrite (sk_nonempty _ Hsk). cbn [negb].
    change (id (row (ctx_tenant c2))) with (id (row (ctx_tenant c))).
    now rewrite (updateTenant_healthy _ _ _ Hf2). }
  cbv zeta. rewrite Hc3.
  split; [| split; [| split; [| split]]].
  - rewrite (proj2 (proj2 (renderOwnerDashboard_tenant _ _ _))).
    cbn [ctx_world reply with_row save with_world with_session].
    rewrite tenants_saveSession. cbn [tenants set_tenants ctx_world].
    rewrite lookup_alter_eq.
    subst c2 c1. cbn [ctx_world reply save with_world with_session].
    now rewrite !tenants_saveSession.
  - now rewrite (proj1 (renderOwnerDashboard_tenant _ _ _)).
  - now rewrite (proj1 (proj2 (renderOwnerDashboard_tenant _ _ _))).
  - now rewrite (proj1 (proj2 (renderOwnerDashboard_tenant _ _ _))).
  - unfold saveModel at 1.
    rewrite (proj1 (proj2 (renderOwnerDashboard_tenant _ _ _))).
    reflexivity.
Qed.

Lemma ai_flow_witness :
  faults acmeWorld = []
  /\ tenants (ctx_world
        (saveModel 5200 900 (lit "gpt-4o")
           (snd (ownerTextHandler 5100 900 (lit " sk-abc")
              (owner_setup_ai 5000 900 (wizardCtx "READY" None None))))))
     !! 7%N
     = Some (set_openai (Some (lit "sk-abc")) (Some (lit "gpt-4o")) acme).
Proof.
  split; [reflexivity |].
  apply (proj1 (ai_flow 5000 5100 5200 5300 900 (lit " sk-abc")
                  (lit "gpt-4o") (lit "gpt-4o")
                  (wizardCtx "READY" None None)
                  eq_refl eq_refl eq_refl eq_refl)).
Defined.

(** X21. A commit that the store refuses leaves the step open.  At the
    secret step of the SyncPay wizard, when the update of the tenant's row
    fails, the owner gets the error text, and the session (stage and
    scratch field), the tenant object and the tenants table are as before;
    sending the secret again, the store now answering, commits it. *)
Theorem failed_commit_keeps_step (now now' chatId : Z) (text : jsstring)
  (c : Ctx) (e : DbError) :
  isOwner chatId (ctx_tenant c) = true ->
  startsWith (lit "/") text = false ->
  stage (ctx_session c) = Some (lit "OWNER_WAIT_SYNCPAY_SECRET") ->
  faults (ctx_world c) = [Some e] ->
  let c1 := snd (ownerTextHandler now chatId text c) in
  ctx_session c1 = ctx_session c
  /\ ctx_tenant c1 = ctx_tenant c
  /\ tenants (ctx_world c1) = tenants (ctx_world c)
  /\ ctx_out c1 = ctx_out c ++ [ErrorReply (message e)]
  /\ tenants (ctx_world (snd (ownerTextHandler now' chatId text c1)))
       !! id (row (ctx_tenant c))
     = set_syncpay (temp_sync_id (ctx_session c)) (Some (trim text))
       <$> tenants (ctx_world c) !! id (row (ctx_tenant c)).
Proof.
  intros Hown Hslash Hstage Hf.
  assert (H1 : ownerTextHandler now chatId text c
    = (Handled,
       reply (ErrorReply (message e))
         (with_world (logged (UpdateTenant (toStringN (id (row (ctx_tenant c)))))
                             (ctx_world c)) c))).
  { rewrite (step_syncpay_secret now chatId text c Hown Hslash Hstage).
    unfold updateTenant, updateTenantWhere, dbCall. now rewrite Hf. }
  cbv zeta. rewrite H1. cbn [snd].
  set (c1 := reply _ _).
  repeat split.
  assert (Hf1 : faults (ctx_world c1) = [])
    by (subst c1; cbn; now rewrite Hf).
  rewrite (step_syncpay_secret now' chatId text c1 Hown Hslash Hstage).
  rewrite (updateTenant_healthy _ _ _ Hf1). cbn [snd].
  rewrite (proj2 (proj2 (renderOwnerDashboard_tenant _ _ _))).
  cbn [ctx_world reply with_row save with_world with_session].
  rewrite tenants_saveSession. cbn [tenants set_tenants ctx_world].
  change (id (row (ctx_tenant c1))) with (id (row (ctx_tenant c))).
  now rewrite lookup_alter_eq.
Qed.

Lemma failed_commit_keeps_step_witness :
  ctx_session
    (snd (ownerTextHandler 5000 900 (lit "secret-1")
       (mkCtx (mkTenant acme 0)
              (ctx_session (wizardCtx "OWNER_WAIT_SYNCPAY_SECRET"
                                      (Some (lit "client-1")) None))
              (mkWorld ∅ ∅ (tenants acmeWorld) [Some connectionFailure] [] [] ∅)
              [])))
  = ctx_session (wizardCtx "OWNER_WAIT_SYNCPAY_SECRET" (Some (lit "client-1")) None).
Proof.
  apply (proj1 (failed_commit_keeps_step 5000 6000 900 (lit "secret-1")
           (mkCtx (mkTenant acme 0)
              (ctx_session (wizardCtx "OWNER_WAIT_SYNCPAY_SECRET"
                                      (Some (lit "client-1")) None))
              (mkWorld ∅ ∅ (tenants acmeWorld) [Some connectionFailure] [] [] ∅)
              [])
           connectionFailure eq_refl eq_refl eq_refl eq_refl)).
Defined.

(** ** Instance registry: launches that end later *)









(** X30. A launch that comes to its end while [startTenantBot] awaits the
    user count, after the old instance was told to stop, leaves the same
    state as one that does so right after the start has returned: what the
    start does after the await reads no status. *)
Theorem launchDone_during_start (t : TenantRow) (h : nat) (ok : bool)
  (w1 : World) :
  (h < length (bots w1))%nat ->
  launchNew t (launchDone h ok w1) = launchDone h ok (launchNew t w1).
Proof.
  intros Hlt. destruct w1 as [sc bs tn fl dl bl ab]. cbn [bots] in Hlt.
  destruct (bl !! h) as [b|] eqn:Hb;
    [| apply lookup_ge_None in Hb; lia].
  assert (Hb' : forall x, (bl ++ [x]) !! h = Some b)
    by (intros x; now rewrite lookup_app_l).
  unfold launchNew, getTenantUserCount, dbCall, launchDone.
  cbn [bots]. rewrite Hb.
  destruct (bot_status b) eqn:Hs;
    cbn [bots faults logged set_bots set_activeBots activeBots bot_sessions
         sessionCache tenants dbLog];
    destruct (mjoin (head fl));
    cbn [bots faults logged set_bots set_activeBots activeBots bot_sessions
         sessionCache tenants dbLog];
    rewrite Hb', Hs;
    cbn [bots faults logged set_bots set_activeBots activeBots bot_sessions
         sessionCache tenants dbLog];
    rewrite ?length_insert, ?insert_app_l by exact Hlt; reflexivity.
Qed.

Lemma launchDone_during_start_witness :
  bot_status <$> bots (launchNew acme
                         (launchDone 0 true
                            (stoppedOld (id acme) (startTenantBot acme emptyWorld))))
  = bot_status <$> bots (launchDone 0 true
                           (startTenantBot acme (startTenantBot acme emptyWorld))).
Proof.
  rewrite (launchDone_during_start acme 0 true
             (stoppedOld (id acme) (startTenantBot acme emptyWorld))
             ltac:(vm_compute; lia)).
  reflexivity.
Defined.

(** X29. A restart that comes while the launch of the registered
    instance is under way does not stop that instance: [stop] throws and
    the throw is swallowed.  Once both launches have come to polling, both
    instances poll for the same tenant; the registry holds the second
    only, so a further restart stops the second and the first polls on. *)
Theorem restart_before_polling (t1 t2 : TenantRow) (w : World) :
  id t2 = id t1 ->
  let h1 := length (bots w) in
  let h2 := S h1 in
  let w2 := startTenantBot t2 (startTenantBot t1 w) in
  let w3 := launchDone h2 true (launchDone h1 true w2) in
  (exists b1 b2,
     bots w3 !! h1 = Some b1 /\ bots w3 !! h2 = Some b2
     /\ row (bot_tenant b1) = t1 /\ row (bot_tenant b2) = t2
     /\ bot_status b1 = Polling /\ bot_status b2 = Polling)
  /\ activeBots w3 !! id t1 = Some h2
  /\ (forall t3, id t3 = id t1 ->
        exists b1 b2,
          bots (startTenantBot t3 w3) !! h1 = Some b1
          /\ bots (startTenantBot t3 w3) !! h2 = Some b2
          /\ bot_status b1 = Polling /\ bot_status b2 = Stopped).
Proof.
  intros Hid h1 h2 w2 w3.
  set (w1 := startTenantBot t1 w) in *.
  destruct (startTenantBot_spec t1 w) as (n1 & _ & Hr1). fold w1 in Hr1.
  destruct (startTenantBot_new t1 w) as (m1 & Hfirst & Hlen1).
  fold w1 h1 in Hfirst, Hlen1.
  destruct (startTenantBot_spec t2 w1) as (n2 & _ & Hr2).
  fold w2 in Hr2. rewrite Hlen1, Hid in Hr2. fold h2 in Hr2.
  destruct (startTenantBot_new t2 w1) as (m2 & Hsecond & Hlen2).
  fold w2 in Hsecond, Hlen2. rewrite Hlen1 in Hsecond, Hlen2.
  fold h2 in Hsecond.
  assert (Hreg1 : activeBots w1 !! id t2 = Some h1).
  { rewrite Hr1, Hid. apply lookup_insert_eq. }
  assert (Hold : bots w2 !! h1 = Some (mkBot (mkTenant t1 m1) Launching)).
  { unfold w2. rewrite (startTenantBot_old t2 w1 _ _ Hfirst).
    now rewrite decide_True by exact Hreg1. }
  assert (Hne : h2 <> h1) by (unfold h2; lia).
  assert (H31 : bots w3 !! h1 = Some (mkBot (mkTenant t1 m1) Polling)).
  { unfold w3. rewrite !launchDone_lookup, Hold. cbn.
    destruct (decide (h1 = h2)) as [E | _]; [now destruct Hne |].
    destruct (decide (h1 = h1)); [reflexivity | congruence]. }
  assert (H32 : bots w3 !! h2 = Some (mkBot (mkTenant t2 m2) Polling)).
  { unfold w3. rewrite !launchDone_lookup, Hsecond. cbn.
    destruct (decide (h2 = h1)) as [E | _]; [now destruct Hne |].
    destruct (decide (h2 = h2)); [reflexivity | congruence]. }
  assert (Hreg3 : activeBots w3 !! id t1 = Some h2).
  { unfold w3. rewrite !launchDone_activeBots, Hr2.
    apply lookup_insert_eq. }
  split.
  { eexists _, _. split; [exact H31 |]. split; [exact H32 |].
    repeat split. }
  split; [exact Hreg3 |].
  intros t3 H3. eexists _, _.
  split; [apply (startTenantBot_old t3 w3 _ _ H31) |].
  split; [apply (startTenantBot_old t3 w3 _ _ H32) |].
  rewrite H3, Hreg3.
  destruct (decide (Some h2 = Some h1)) as [E | _]; [congruence |].
  destruct (decide (Some h2 = Some h2)); [| congruence].
  split; reflexivity.
Qed.

Lemma restart_before_polling_witness :
  id acme = id acme
  /\ bot_status <$> bots (launchDone 1 true
                            (launchDone 0 true
                               (startTenantBot acme
                                  (startTenantBot acme emptyWorld))))
     = [Polling; Polling].
Proof.
  split; [reflexivity |].
  destruct (restart_before_polling acme acme emptyWorld eq_refl)
    as ((b1 & b2 & H1 & H2 & _ & _ & S1 & S2) & _).
  vm_compute in H1, H2. injection H1 as <-. injection H2 as <-.
  reflexivity.
Defined.

(** ** Master admin bot: sessions belong to the operator *)

Lemma masterSecurity_next (adminId : option jsstring) (chatId : Z) (u : Update)
  (s s' : MasterState) :
  masterSecurity adminId chatId u s = (CallNext, s') ->
  s' = s
  /\ (u = TextMessage (lit "/meu_id")
      \/ (truthyStr adminId = true /\ adminId = Some (toString chatId))).
Proof.
  unfold masterSecurity.
  destruct u as [text | d].
  - unfold streq at 1. case_bool_decide as Hm.
    + intros [= <-]. split; [reflexivity | left; now subst].
    + destruct (truthyStr adminId) eqn:Ht; cbn [negb]; [| discriminate].
      unfold streq. case_bool_decide as Hc; cbn [negb]; [| discriminate].
      intros [= <-]. split; [reflexivity | right]. split; [reflexivity |].
      destruct adminId as [[|a l]|]; try discriminate.
      cbn [from_option Datatypes.id] in Hc. now rewrite Hc.
  - destruct (truthyStr adminId) eqn:Ht; cbn [negb]; [| discriminate].
    unfold streq. case_bool_decide as Hc; cbn [negb]; [| discriminate].
    intros [= <-]. split; [reflexivity | right]. split; [reflexivity |].
    destruct adminId as [[|a l]|]; try discriminate.
    cbn [from_option Datatypes.id] in Hc. now rewrite Hc.
Qed.

(** Behind the security middleware, a session can appear only for the chat
    of the update, and for a text message only if that chat had one. *)
Lemma masterHandlers_keys (adminId : option jsstring) (chatId : Z) (u : Update)
  (s : MasterState) (k : Z) :
  is_Some (masterSessions
             (runChain (tail (masterChain adminId)) chatId u s) !! k) ->
  is_Some (masterSessions s !! k)
  \/ (k = chatId
      /\ (is_Some (masterSessions s !! chatId) \/ exists d, u = CallbackQuery d)).
Proof.
  unfold masterChain. cbn [tail runChain].
  destruct u as [text | d].
  - unfold command at 1.
    destruct (bool_decide (commandOf text = Some (lit "start")));
      [cbn; auto |].
    unfold action. cbv iota. unfold masterTextHandler.
    change (masterSessions (m_ran TextHandler s)) with (masterSessions s).
    destruct (masterSessions s !! chatId) as [session|] eqn:Hs; [| cbn; auto].
    repeat (match goal with
            | |- context [if ?b then _ else _] => destruct b
            end);
      cbn [masterSessions m_reply m_sessions m_ran]; auto;
      destruct (decide (k = chatId)) as [-> | Hne];
      rewrite ?lookup_insert_ne, ?lookup_delete_ne by congruence; eauto.
  - unfold command at 1. cbv iota. unfold action, openWizard, tenantAction.
    repeat (match goal with
            | |- context [match triggered ?t ?d with _ => _ end] =>
                destruct (triggered t d)
            end;
            try (cbn [masterSessions m_reply m_sessions m_ran];
                 destruct (decide (k = chatId)) as [-> | Hne];
                 rewrite ?lookup_insert_ne by congruence; eauto; fail)).
Qed.

Lemma masterBot_keeps_operator (adminId : option jsstring) (chatId : Z)
  (u : Update) (s : MasterState) :
  sessionsOfOperator adminId s ->
  sessionsOfOperator adminId (masterBot adminId chatId u s).
Proof.
  intros Hinv k Hk. unfold masterBot in Hk.
  change (masterChain adminId)
    with (masterSecurity adminId :: tail (masterChain adminId)) in Hk.
  cbn [runChain] in Hk.
  destruct (masterSecurity adminId chatId u s) as [[|] s1] eqn:Hsec.
  - apply masterSecurity_next in Hsec as [-> Hpass].
    apply masterHandlers_keys in Hk as [Hk | [-> Hk]]; [now apply Hinv |].
    destruct Hk as [Hk | [d ->]]; [now apply Hinv |].
    destruct Hpass as [Hm | Hop]; [discriminate | exact Hop].
  - destruct (masterSecurity_cases adminId chatId u s) as [H | [H | H]];
      rewrite H in Hsec; try discriminate;
      injection Hsec as <-; now apply Hinv.
Qed.

Lemma masterRun_keeps_operator (adminId : option jsstring)
  (updates : list (Z * Update)) (s : MasterState) :
  sessionsOfOperator adminId s ->
  sessionsOfOperator adminId (masterRun adminId updates s).
Proof.
  revert s. induction updates as [|[c u] rest IH]; intros s Hs; [exact Hs |].
  cbn [masterRun fold_left]. apply IH. now apply masterBot_keeps_operator.
Qed.

(** X23. In the master bot only the operator's chat ever has a wizard
    session, whatever updates arrive from whatever chats.  So, with an
    operator configured, an update from any other chat is never answered
    and changes no session: at most the text handler runs (for the text
    "/meu_id") and returns at once. *)
Theorem master_ignores_other_chats (adminId : jsstring)
  (updates : list (Z * Update)) (chatId : Z) (u : Update) :
  adminId <> [] ->
  toString chatId <> adminId ->
  let s := masterRun (Some adminId) updates noMasterSessions in
  let s' := masterBot (Some adminId) chatId u s in
  (forall k, is_Some (masterSessions s !! k) -> toString k = adminId)
  /\ masterSessions s' = masterSessions s
  /\ sent s' = sent s
  /\ (ran s' = ran s \/ ran s' = ran s ++ [TextHandler]).
Proof.
  intros Hcfg Hne s s'.
  assert (Hinv : sessionsOfOperator (Some adminId) s).
  { apply masterRun_keeps_operator. intros k [x Hx].
    unfold noMasterSessions in Hx. cbn [masterSessions] in Hx.
    rewrite lookup_empty in Hx. discriminate. }
  split.
  { intros k Hk. destruct (Hinv k Hk) as [_ [= ->]]. reflexivity. }
  assert (Hnone : masterSessions s !! chatId = None).
  { destruct (masterSessions s !! chatId) as [x|] eqn:Hx; [| reflexivity].
    destruct (Hinv chatId (ex_intro _ x Hx)) as [_ [= ->]]. congruence. }
  subst s'.
  assert (Hcases : u = TextMessage (lit "/meu_id")
                   \/ u <> TextMessage (lit "/meu_id")).
  { destruct u as [text | d]; [| right; discriminate].
    destruct (decide (text = lit "/meu_id")) as [-> | Hn];
      [now left | right; congruence]. }
  destruct Hcases as [-> | Hu].
  - rewrite (meu_id_swallowed _ _ _ Hnone). cbn. auto.
  - rewrite (master_denies_others adminId chatId u s Hcfg Hne Hu). auto.
Qed.

Lemma master_ignores_other_chats_witness :
  lit "111" <> [] /\ toString 222 <> lit "111"
  /\ sent (masterBot (Some (lit "111")) 222 (TextMessage (lit "oi"))
             (masterRun (Some (lit "111"))
                        [(111, CallbackQuery (lit "new_tenant_start"));
                         (111, TextMessage (lit "Acme"))]
                        noMasterSessions))
     = [AskBotToken].
Proof.
  split; [discriminate |]. split; [vm_compute; discriminate |].
  rewrite (proj1 (proj2 (proj2 (master_ignores_other_chats (lit "111")
             [(111, CallbackQuery (lit "new_tenant_start"));
              (111, TextMessage (lit "Acme"))] 222 (TextMessage (lit "oi"))
             ltac:(discriminate) ltac:(vm_compute; discriminate))))).
  reflexivity.
Defined.

(** ** WhatsApp instances of an end user *)

Lemma getSession_after_save (now now' : Z) (t : N) (u : Z) (S : Session)
  (w : World) :
  now' - now < CACHE_TTL ->
  getSession now' t u (saveSession now t u S w)
  = (Ok S, saveSession now t u S w).
Proof.
  intros H. unfold getSession, saveSession.
  rewrite sessionCache_upsertSession. unfold cacheSet at 1. simpl.
  rewrite lookup_insert_eq. now rewrite cacheHit_fresh.
Qed.

Lemma instancesOf_pushInstance (inst : Instance) (s : Session) :
  instancesOf (pushInstance inst s) = instancesOf s ++ [inst].
Proof.
  unfold instancesOf, pushInstance.
  destruct s as [st vip [[[l|] m]|] af rp t1 t2]; reflexivity.
Qed.

Lemma filter_keep_all (instId : jsstring) (l : list Instance) :
  (forall i, i ∈ l -> inst_id i <> instId) ->
  filter (fun i => inst_id i <> instId) l = l.
Proof.
  induction l as [|a l IH]; intros H; [reflexivity |].
  rewrite filter_cons_True by (apply H; apply list_elem_of_here).
  f_equal. apply IH. intros i Hi. apply H. now apply list_elem_of_further.
Qed.

(** X24. The name step of the connection wizard.  When the gateway has
    created the user, the session read for the chat gets exactly one more
    instance, after the ones it had: its name is the trimmed text, its id
    and token are the generated id, it is not connected; the stage is READY
    and this session is what is cached for the chat.  [maxInstances] is not
    looked at.  When the gateway refuses, no instance is added and the
    stage is READY all the same. *)
Theorem name_step_adds_instance (WEBHOOK_BASE : jsstring) (stamp now chatId : Z)
  (rawText : jsstring) (createRes : CreateRes) (c : Ctx) :
  stage (ctx_session c) = Some (lit "WA_WAITING_NAME") ->
  (cr_success createRes = true ->
   forall s w1,
     getSession now (id (row (ctx_tenant c))) chatId (ctx_world c) = (Ok s, w1) ->
     exists inst s' w',
       userTextWizard WEBHOOK_BASE stamp now chatId rawText createRes c
       = Some (WaDone [WaCreating; WaCreated (trim rawText)] s' w')
       /\ instancesOf s' = instancesOf s ++ [inst]
       /\ inst_name inst = trim rawText
       /\ inst_id inst = newInstId chatId stamp
       /\ inst_token inst = newInstId chatId stamp
       /\ inst_isConnected inst = false
       /\ stage s' = Some (lit "READY")
       /\ sessionCache w' !! cacheKey (id (row (ctx_tenant c))) chatId
          = Some (mkCacheEntry s' now))
  /\ (cr_success createRes = false ->
      exists w',
        userTextWizard WEBHOOK_BASE stamp now chatId rawText createRes c
        = Some (WaDone [WaCreating; WaApiError (cr_error createRes)]
                       (set_stage (Some (lit "READY")) (ctx_session c)) w')
        /\ instancesOf (set_stage (Some (lit "READY")) (ctx_session c))
           = instancesOf (ctx_session c)).
Proof.
  intros Hstage. split.
  - intros Hok s w1 Hget. unfold userTextWizard.
    rewrite Hstage, Hok, Hget.
    eexists _, _, _. split; [reflexivity |].
    split; [apply instancesOf_pushInstance |].
    repeat split.
    unfold saveSession. rewrite sessionCache_upsertSession.
    apply lookup_insert_eq.
  - intros Hfail. unfold userTextWizard. rewrite Hstage, Hfail.
    eexists. split; reflexivity.
Qed.

Lemma name_step_adds_instance_witness :
  exists inst s' w',
    userTextWizard (lit "http://localhost:8788") 1700000123456 1700000123999 42
      (lit " Vendas ") (mkCreateRes true None [])
      namingCtx
    = Some (WaDone [WaCreating; WaCreated (lit "Vendas")] s' w')
    /\ instancesOf s' = [] ++ [inst]
    /\ inst_name inst = lit "Vendas"
    /\ inst_id inst = lit "user_42_123456".
Proof.
  destruct (proj1 (name_step_adds_instance (lit "http://localhost:8788")
              1700000123456 1700000123999 42 (lit " Vendas ") (mkCreateRes true None [])
              namingCtx
              eq_refl) eq_refl defaultSession _ ltac:(vm_compute; reflexivity))
    as (inst & s' & w' & H1 & H2 & H3 & H4 & _).
  exists inst, s', w'. repeat split; assumption.
Defined.

(** X25. Creating an instance and deleting it again gives back the
    instance list there was, provided no instance already had the
    generated id: the delete action, run while the cache entry of the chat
    is still fresh, removes the new instance and keeps the others in
    order. *)
Theorem create_then_delete (WEBHOOK_BASE : jsstring) (stamp now now' chatId : Z)
  (rawText : jsstring) (createRes : CreateRes) (c : Ctx) (s : Session)
  (w1 : World) :
  stage (ctx_session c) = Some (lit "WA_WAITING_NAME") ->
  cr_success createRes = true ->
  getSession now (id (row (ctx_tenant c))) chatId (ctx_world c) = (Ok s, w1) ->
  (forall i, i ∈ instancesOf s -> inst_id i <> newInstId chatId stamp) ->
  now' - now < CACHE_TTL ->
  exists s1 wa s2 wb,
    userTextWizard WEBHOOK_BASE stamp now chatId rawText createRes c
    = Some (WaDone [WaCreating; WaCreated (trim rawText)] s1 wa)
    /\ wa_del now' chatId (newInstId chatId stamp)
              (mkCtx (ctx_tenant c) s1 wa [])
       = WaDone [WaRemoved] s2 wb
    /\ instancesOf s2 = instancesOf s
    /\ sessionCache wb !! cacheKey (id (row (ctx_tenant c))) chatId
       = Some (mkCacheEntry s2 now').
Proof.
  intros Hstage Hok Hget Hfresh Himm.
  unfold userTextWizard. rewrite Hstage, Hok, Hget.
  eexists _, _. 
  assert (Hdel : forall inst,
            inst_id inst = newInstId chatId stamp ->
            exists s2 wb,
              wa_del now' chatId (newInstId chatId stamp)
                (mkCtx (ctx_tenant c) (pushInstance inst s)
                   (saveSession now (id (row (ctx_tenant c))) chatId
                                (pushInstance inst s) w1) [])
              = WaDone [WaRemoved] s2 wb
              /\ instancesOf s2 = instancesOf s
              /\ sessionCache wb !! cacheKey (id (row (ctx_tenant c))) chatId
                 = Some (mkCacheEntry s2 now')).
  { intros inst Hid. unfold wa_del. cbn [ctx_tenant ctx_world].
    rewrite (getSession_after_save _ _ _ _ _ _ Himm).
    assert (Hfilter : filter (fun i => inst_id i <> newInstId chatId stamp)
                             (instancesOf s ++ [inst]) = instancesOf s).
    { rewrite filter_app, (filter_keep_all _ _ Hfresh).
      rewrite filter_cons_False by (intros H; now apply H).
      apply app_nil_r. }
    unfold pushInstance at 1 2. cbn [whatsapp set_stage set_whatsapp instances].
    eexists _, _. split; [reflexivity |]. split.
    - unfold instancesOf at 1.
      cbn [whatsapp set_whatsapp mbind option_bind instances from_option
           Datatypes.id].
      change (default [] (instances match whatsapp s with
                                    | Some wa => wa
                                    | None => mkWhatsApp (Some []) None
                                    end)) with (instancesOf s) || idtac.
      destruct s as [st vip [[[l|] m]|] af rp t1 t2]; exact Hfilter.
    - unfold saveSession. rewrite sessionCache_upsertSession.
      apply lookup_insert_eq. }
  destruct (Hdel (mkInstance (newInstId chatId stamp)
                    (if truthyStr (cr_data_id createRes)
                     then default [] (cr_data_id createRes)
                     else newInstId chatId stamp)
                    (newInstId chatId stamp) (trim rawText) false
                    (specificWebhook WEBHOOK_BASE (id (row (ctx_tenant c)))
                                     chatId)) eq_refl)
    as (s2 & wb & H1 & H2 & H3).
  exists s2, wb. split; [reflexivity |]. split; [exact H1 |].
  split; assumption.
Qed.

Lemma create_then_delete_witness :
  exists s1 wa s2 wb,
    userTextWizard (lit "http://localhost:8788") 1700000123456 1700000123999
      42 (lit " Vendas ") (mkCreateRes true None []) namingCtx
    = Some (WaDone [WaCreating; WaCreated (lit "Vendas")] s1 wa)
    /\ wa_del 1700000200000 42 (lit "user_42_123456")
              (mkCtx fullTenant s1 wa [])
       = WaDone [WaRemoved] s2 wb
    /\ instancesOf s2 = []
    /\ sessionCache wb !! cacheKey 9 42 = Some (mkCacheEntry s2 1700000200000).
Proof.
  apply (create_then_delete (lit "http://localhost:8788") 1700000123456
           1700000123999 1700000200000 42 (lit " Vendas ")
           (mkCreateRes true None []) namingCtx defaultSession
           (snd (getSession 1700000123999 9 42 emptyWorld))).
  - reflexivity.
  - reflexivity.
  - vm_compute. reflexivity.
  - intros i Hi. vm_compute in Hi. now apply elem_of_nil in Hi.
  - vm_compute. reflexivity.
Defined.

Lemma ownerTextHandler_passes_name (now chatId : Z) (text : jsstring)
  (c : Ctx) :
  stage (ctx_session c) = Some (lit "WA_WAITING_NAME") ->
  isOwner chatId (ctx_tenant c) = false \/ text <> lit "/cancelar" ->
  ownerTextHandler now chatId text c = (CallNext, c).
Proof.
  intros Hstage Hcase. unfold ownerTextHandler.
  destruct (isOwner chatId (ctx_tenant c)); [| reflexivity].
  destruct Hcase as [? | Hne]; [discriminate |].
  cbn [negb]. unfold streq. rewrite (bool_decide_eq_false_2 _ Hne).
  destruct (startsWith (lit "/") text); [reflexivity |].
  cbn [andb]. rewrite Hstage.
  repeat (rewrite bool_decide_eq_false_2
            by (intros H; vm_compute in H; discriminate)).
  reflexivity.
Qed.

(** X26. A text message that arrives while the chat is asked for an
    instance name, and is none of the commands admin, start and id.  The
    owner's "/cancelar" is taken by the owner's text handler: the stage is
    READY again, the instance list is as it was, the chain ends there.
    Every other text, and "/cancelar" itself from a chat that is not the
    owner's, goes on to the name step, which runs on it. *)
Theorem name_step_cancel_owner_only (WEBHOOK_BASE : jsstring)
  (stamp now chatId : Z) (text : jsstring) (createRes : CreateRes) (c : Ctx) :
  stage (ctx_session c) = Some (lit "WA_WAITING_NAME") ->
  commandOf text <> Some (lit "admin") ->
  commandOf text <> Some (lit "start") ->
  commandOf text <> Some (lit "id") ->
  (isOwner chatId (ctx_tenant c) = true -> text = lit "/cancelar" ->
   exists c',
     tenantTextChain WEBHOOK_BASE stamp now chatId text createRes c
     = ByOwnerWizard c'
     /\ ctx_session c' = set_stage (Some (lit "READY")) (ctx_session c)
     /\ instancesOf (ctx_session c') = instancesOf (ctx_session c))
  /\ (isOwner chatId (ctx_tenant c) = false \/ text <> lit "/cancelar" ->
      exists r,
        userTextWizard WEBHOOK_BASE stamp now chatId text createRes c = Some r
        /\ tenantTextChain WEBHOOK_BASE stamp now chatId text createRes c
           = ByUserWizard r).
Proof.
  intros Hstage Hadmin Hstart Hid. unfold tenantTextChain.
  rewrite (bool_decide_eq_false_2 _ Hadmin). split.
  - intros Hown ->.
    pose proof (cancel_keeps_scratch now chatId c Hown) as (Hs & _).
    destruct (ownerTextHandler now chatId (lit "/cancelar") c) as [f c'] eqn:E.
    assert (Hf : f = Handled).
    { unfold ownerTextHandler in E. rewrite Hown in E.
      change (startsWith (lit "/") (lit "/cancelar")
              && negb (streq (lit "/cancelar") (lit "/cancelar")))
        with false in E.
      change (streq (lit "/cancelar") (lit "/cancelar")) with true in E.
      cbn [negb] in E. now inversion E. }
    subst f. exists c'. cbn [snd] in Hs. split; [reflexivity |].
    split; [exact Hs |]. now rewrite Hs.
  - intros Hcase.
    rewrite (ownerTextHandler_passes_name _ _ _ _ Hstage Hcase).
    rewrite (bool_decide_eq_false_2 _ Hstart), (bool_decide_eq_false_2 _ Hid).
    assert (Hsome : exists r,
              userTextWizard WEBHOOK_BASE stamp now chatId text createRes c
              = Some r).
    { unfold userTextWizard. rewrite Hstage.
      change (truthyStr (Some (lit "WA_WAITING_NAME"))
              && negb (bool_decide (Some (lit "WA_WAITING_NAME")
                                    = Some (lit "READY")))) with true.
      cbn iota.
      rewrite bool_decide_eq_true_2 by reflexivity.
      destruct (cr_success createRes); [| eauto].
      destruct (getSession now (id (row (ctx_tenant c))) chatId (ctx_world c))
        as [[s | e] w1]; eauto. }
    destruct Hsome as [r Hr]. exists r. now rewrite Hr.
Qed.

Lemma name_step_cancel_owner_only_witness :
  exists r,
    userTextWizard (lit "http://localhost:8788") 1700000123456 1700000123999
      42 (lit "/cancelar") (mkCreateRes true None []) namingCtx = Some r
    /\ tenantTextChain (lit "http://localhost:8788") 1700000123456
         1700000123999 42 (lit "/cancelar") (mkCreateRes true None [])
         namingCtx
       = ByUserWizard r.
Proof.
  apply (name_step_cancel_owner_only (lit "http://localhost:8788")
           1700000123456 1700000123999 42 (lit "/cancelar")
           (mkCreateRes true None []) namingCtx).
  - reflexivity.
  - vm_compute. discriminate.
  - vm_compute. discriminate.
  - vm_compute. discriminate.
  - left. vm_compute. reflexivity.
Defined.

(** X27. The connection flow as a whole.  The button "inst_add_new" asks
    for a name; the next text of the chat, while the cache entry is still
    fresh and the plan has not expired, passes the middleware with the
    session the button stored, reaches the name step and, the gateway
    having created the user, leaves the chat with the instances it had
    before the button plus one named by the trimmed text, at stage READY.
    This holds for every text that is neither a command admin, start or id
    nor the owner's "/cancelar". *)
Theorem add_instance_flow (WEBHOOK_BASE : jsstring) (t0 stamp t1 chatId : Z)
  (text : jsstring) (createRes : CreateRes) (tenant : Tenant)
  (pressed : Session) (w w1 : World) (s : Session) :
  getSession t0 (id (row tenant)) chatId w = (Ok s, w1) ->
  t1 - t0 < CACHE_TTL ->
  planExpired t1 chatId tenant = false ->
  commandOf text <> Some (lit "admin") ->
  commandOf text <> Some (lit "start") ->
  commandOf text <> Some (lit "id") ->
  isOwner chatId tenant = false \/ text <> lit "/cancelar" ->
  cr_success createRes = true ->
  exists s0 w0 inst s' w',
    inst_add_new t0 chatId (mkCtx tenant pressed w [])
    = WaDone [WaAskName] s0 w0
    /\ tenantMiddleware t1 chatId tenant w0 = (GateNext s0, tenant, w0)
    /\ tenantTextChain WEBHOOK_BASE stamp t1 chatId text createRes
         (mkCtx tenant s0 w0 [])
       = ByUserWizard (WaDone [WaCreating; WaCreated (trim text)] s' w')
    /\ instancesOf s' = instancesOf s ++ [inst]
    /\ inst_name inst = trim text
    /\ stage s' = Some (lit "READY").
Proof.
  intros Hget Himm Hexp Hadmin Hstart Hid Hcase Hok.
  set (s0 := set_stage (Some (lit "WA_WAITING_NAME")) s).
  set (w0 := saveSession t0 (id (row tenant)) chatId s0 w1).
  assert (Hload : getSession t1 (id (row tenant)) chatId w0 = (Ok s0, w0))
    by (apply getSession_after_save; exact Himm).
  assert (Hsome : is_Some (sessionCache w0 !! cacheKey (id (row tenant)) chatId)).
  { exists (mkCacheEntry s0 t0). unfold w0, saveSession.
    rewrite sessionCache_upsertSession. apply lookup_insert_eq. }
  eexists s0, w0, _, _, _. split.
  { unfold inst_add_new. cbn [ctx_tenant ctx_world]. now rewrite Hget. }
  split.
  { unfold tenantMiddleware. rewrite Hexp.
    rewrite (bool_decide_eq_true_2 _ Hsome). cbn [negb].
    destruct (notOwnerChat chatId tenant); now rewrite Hload. }
  split.
  { unfold tenantTextChain.
    rewrite (bool_decide_eq_false_2 _ Hadmin).
    rewrite (ownerTextHandler_passes_name t1 chatId text
               (mkCtx tenant s0 w0 []) eq_refl Hcase).
    rewrite (bool_decide_eq_false_2 _ Hstart), (bool_decide_eq_false_2 _ Hid).
    unfold userTextWizard. cbn [ctx_session ctx_tenant ctx_world].
    change (stage s0) with (Some (lit "WA_WAITING_NAME")).
    change (truthyStr (Some (lit "WA_WAITING_NAME"))
            && negb (bool_decide (Some (lit "WA_WAITING_NAME")
                                  = Some (lit "READY")))) with true.
    cbn iota. rewrite bool_decide_eq_true_2 by reflexivity.
    rewrite Hok, Hload. reflexivity. }
  split.
  { rewrite instancesOf_pushInstance. unfold s0, instancesOf.
    now destruct s. }
  split; reflexivity.
Qed.

Lemma add_instance_flow_witness :
  exists s0 w0 inst s' w',
    inst_add_new 1700000100000 42 (mkCtx fullTenant defaultSession emptyWorld [])
    = WaDone [WaAskName] s0 w0
    /\ tenantMiddleware 1700000123400 42 fullTenant w0
       = (GateNext s0, fullTenant, w0)
    /\ tenantTextChain (lit "http://localhost:8788") 1700000123456
         1700000123400 42 (lit "/cancelar") (mkCreateRes true None [])
         (mkCtx fullTenant s0 w0 [])
       = ByUserWizard (WaDone [WaCreating; WaCreated (lit "/cancelar")] s' w')
    /\ instancesOf s' = [] ++ [inst]
    /\ inst_name inst = lit "/cancelar"
    /\ stage s' = Some (lit "READY").
Proof.
  apply (add_instance_flow (lit "http://localhost:8788") 1700000100000
           1700000123456 1700000123400 42 (lit "/cancelar")
           (mkCreateRes true None []) fullTenant defaultSession emptyWorld
           (snd (getSession 1700000100000 9 42 emptyWorld)) defaultSession).
  - vm_compute. reflexivity.
  - vm_compute. reflexivity.
  - vm_compute. reflexivity.
  - vm_compute. discriminate.
  - vm_compute. discriminate.
  - vm_compute. discriminate.
  - left. vm_compute. reflexivity.
  - reflexivity.
Defined.

(** X28. A stored session whose [whatsapp] object is there but carries no
    instance list is not repaired by [getSession].  The delete action then
    fails on it with a TypeError, after the read and before any write: the
    session table is as it was.  The name step does repair it: the list is
    the new instance alone. *)
Theorem delete_needs_instance_list (WEBHOOK_BASE : jsstring)
  (stamp now chatId : Z) (instId rawText : jsstring) (createRes : CreateRes)
  (c : Ctx) (stored : Session) (m : option Z) :
  faults (ctx_world c) = [] ->
  cacheHit now (sessionCache (ctx_world c)
                !! cacheKey (id (row (ctx_tenant c))) chatId) = None ->
  bot_sessions (ctx_world c) !! (id (row (ctx_tenant c)), toString chatId)
  = Some stored ->
  whatsapp stored = Some (mkWhatsApp None m) ->
  (exists w1,
     wa_del now chatId instId c = WaTypeError w1
     /\ bot_sessions w1 = bot_sessions (ctx_world c))
  /\ (stage (ctx_session c) = Some (lit "WA_WAITING_NAME") ->
      cr_success createRes = true ->
      exists inst s' w',
        userTextWizard WEBHOOK_BASE stamp now chatId rawText createRes c
        = Some (WaDone [WaCreating; WaCreated (trim rawText)] s' w')
        /\ whatsapp s' = Some (mkWhatsApp (Some [inst]) m)
        /\ inst_name inst = trim rawText).
Proof.
  intros Hf Hmiss Hrow Hwa.
  pose proof (getSession_reads_row now _ chatId _ stored Hf Hmiss Hrow) as Hget.
  pose proof (autoHeal_whatsapp stored _ Hwa) as Hwa'.
  split.
  - unfold wa_del. rewrite Hget, Hwa'. cbn [instances].
    eexists. split; reflexivity.
  - intros Hstage Hok. unfold userTextWizard. rewrite Hstage, Hok, Hget.
    eexists _, _, _. split; [reflexivity |].
    unfold pushInstance. rewrite Hwa'. split; reflexivity.
Qed.

Lemma delete_needs_instance_list_witness :
  exists w1,
    wa_del 1700000123999 42 (lit "user_42_000001")
           (mkCtx fullTenant bareSession bareWorld [])
    = WaTypeError w1
    /\ bot_sessions w1 = bot_sessions bareWorld.
Proof.
  apply (proj1 (delete_needs_instance_list (lit "http://localhost:8788")
                  1700000123456 1700000123999 42 (lit "user_42_000001")
                  (lit "Vendas") (mkCreateRes true None [])
                  (mkCtx fullTenant bareSession bareWorld [])
                  bareSession (Some 1)
                  eq_refl ltac:(vm_compute; reflexivity)
                  ltac:(vm_compute; reflexivity) eq_refl)).
Defined.
